(** * Testing-pipeline orchestrator and analysis scorer: a shallow embedding

    The development follows [src/backend/code_tester.py] and
    [src/backend/code_analyzer.py], with the check that the testing
    endpoint of [src/backend/main.py] makes before it calls the pipeline.
    Python integers are [Z], Python [str] values are [string] (one [ascii]
    per code point, Latin-1 range), Python dictionaries with string keys
    are insertion-ordered association lists, and raised exceptions are
    values of the record [exn].  Everything that
    lives outside the interpreter (sub-processes, the hosted model, the JSON
    parser, the host file system) is gathered in the record [World].

    Conventions of the model:
    - paths follow the POSIX flavour of [pathlib] and [os.path]; the file
      system has directories and regular files, no symbolic links and no
      permissions;
    - a stage runner is a computation in the monad [M]: it reads and
      changes the file system, appends to the log of the commands given to
      [subprocess.run], and returns a value or raises;
    - every raised exception is an instance of [Exception];
    - the standard library is that of Python 3.11 (the texts of its
      exceptions are given as that version words them);
    - creating the temporary directory, building the model handle and
      writing to the console succeed, so they do not appear; removing the
      temporary directory may fail, see [run_testing_pipeline_call]. *)

From Stdlib Require Import ZArith List String Ascii Bool Arith Lia DecimalString.
Import ListNotations.
Open Scope string_scope.

(* ================================================================== *)
(** * Part I. The model                                                 *)
(* ================================================================== *)

(** ** Python [str] primitives *)

Module Py.

(** [s.split(c)] for a one-character separator: never an empty list. *)
Fixpoint split (c : ascii) (s : string) : list string :=
  match s with
  | EmptyString => [EmptyString]
  | String a r =>
      if Ascii.eqb a c then EmptyString :: split c r
      else match split c r with
           | h :: t => String a h :: t
           | [] => [String a EmptyString]
           end
  end.

(** [sep.join(l)] *)
Fixpoint join (sep : string) (l : list string) : string :=
  match l with
  | [] => EmptyString
  | [x] => x
  | x :: t => x ++ sep ++ join sep t
  end.

(** [s.startswith(p)] *)
Fixpoint startswith (p s : string) : bool :=
  match p, s with
  | EmptyString, _ => true
  | String a p', String b s' => Ascii.eqb a b && startswith p' s'
  | String _ _, EmptyString => false
  end.

(** [needle in hay] *)
Fixpoint contains (needle hay : string) : bool :=
  startswith needle hay ||
  match hay with
  | EmptyString => false
  | String _ r => contains needle r
  end.

(** [str.isspace] on one character, for the code points below 256. *)
Definition isspace (a : ascii) : bool :=
  let n := nat_of_ascii a in
  (Nat.leb 9 n && Nat.leb n 13) || (Nat.leb 28 n && Nat.leb n 32)
  || Nat.eqb n 133 || Nat.eqb n 160.

Fixpoint all_space (s : string) : bool :=
  match s with
  | EmptyString => true
  | String a r => isspace a && all_space r
  end.

Fixpoint lstrip (s : string) : string :=
  match s with
  | EmptyString => EmptyString
  | String a r => if isspace a then lstrip r else s
  end.

Fixpoint rstrip (s : string) : string :=
  match s with
  | EmptyString => EmptyString
  | String a r => if all_space s then EmptyString else String a (rstrip r)
  end.

(** [s.strip()] *)
Definition strip (s : string) : string := rstrip (lstrip s).

(** [s[:n]] *)
Fixpoint take (n : nat) (s : string) : string :=
  match n, s with
  | S n', String a r => String a (take n' r)
  | _, _ => EmptyString
  end.

(** [s[n:]] *)
Fixpoint drop (n : nat) (s : string) : string :=
  match n, s with
  | S n', String _ r => drop n' r
  | _, _ => s
  end.

(** truthiness of a [str] *)
Definition truthy (s : string) : bool :=
  match s with EmptyString => false | _ => true end.

(** [l[-1]]: [None] stands for [IndexError]. *)
Definition last_item {A} (l : list A) : option A :=
  match rev l with [] => None | x :: _ => Some x end.

End Py.

(** ** Python values, dictionaries and exceptions *)

(** The values that travel through the reports.  A [PFloat m e] is the
    JSON number [m * 10^e]; floats only occur inside the coverage tool's
    report, which the pipeline passes on without computing on it. *)
#[warnings="-register-all"]
Inductive pyval : Type :=
| PNone
| PBool (b : bool)
| PInt (z : Z)
| PFloat (mantissa exponent : Z)
| PStr (s : string)
| PList (l : list pyval)
| PDict (d : list (string * pyval)).

Definition pydict : Type := list (string * pyval).

(** [d.get(k)] *)
Fixpoint dict_get (k : string) (d : pydict) : option pyval :=
  match d with
  | [] => None
  | (k', v) :: t => if String.eqb k k' then Some v else dict_get k t
  end.

(** [d.get(k, default)] *)
Definition dict_get_default (k : string) (default : pyval) (d : pydict) : pyval :=
  match dict_get k d with Some v => v | None => default end.

(** [d[k] = v]: an existing key keeps its position. *)
Fixpoint dict_set (k : string) (v : pyval) (d : pydict) : pydict :=
  match d with
  | [] => [(k, v)]
  | (k', v') :: t =>
      if String.eqb k k' then (k', v) :: t else (k', v') :: dict_set k v t
  end.

(** Truth value of an object, as [if x] and [not x] compute it. *)
Definition py_truthy (v : pyval) : bool :=
  match v with
  | PNone => false
  | PBool b => b
  | PInt z => negb (Z.eqb z 0)
  | PFloat m _ => negb (Z.eqb m 0)
  | PStr s => Py.truthy s
  | PList l => match l with [] => false | _ => true end
  | PDict d => match d with [] => false | _ => true end
  end.

(** [not d.get(k)]: a missing key gives [None], which is false. *)
Definition not_get (k : string) (d : pydict) : bool :=
  negb (py_truthy (dict_get_default k PNone d)).

(** A raised exception: [type(e).__name__] and [str(e)]. *)
Record exn : Type := mkExn { exn_type : string; exn_str : string }.

Inductive result (A : Type) : Type :=
| Ok (a : A)
| Raise (e : exn).
Arguments Ok {A} a.
Arguments Raise {A} e.

Definition ValueError (msg : string) : exn := mkExn "ValueError" msg.
Definition RuntimeError (msg : string) : exn := mkExn "RuntimeError" msg.
Definition IndexError (msg : string) : exn := mkExn "IndexError" msg.
Definition AttributeError (msg : string) : exn := mkExn "AttributeError" msg.

(** [l[i]] *)
Definition list_item {A} (l : list A) (i : nat) : result A :=
  match nth_error l i with
  | Some x => Ok x
  | None => Raise (IndexError "list index out of range")
  end.

(** [v.get(k, default)] on an arbitrary object: only dictionaries have
    the method. *)
Definition py_get (v : pyval) (k : string) (default : pyval) : result pyval :=
  match v with
  | PDict d => Ok (dict_get_default k default d)
  | _ => Raise (AttributeError "object has no attribute 'get'")
  end.

(** ** [repr] of a [str] *)

Definition single_quote : ascii := "'"%char.
Definition double_quote : ascii := ascii_of_nat 34.
Definition backslash : ascii := ascii_of_nat 92.

Definition hex_digit (n : nat) : ascii :=
  nth n ["0"; "1"; "2"; "3"; "4"; "5"; "6"; "7"; "8"; "9";
         "a"; "b"; "c"; "d"; "e"; "f"]%char "0"%char.

(** One character inside the quotes: the quote and the backslash are
    escaped, tab, newline and carriage return have their letters, the
    other characters that are not printable are written in hexadecimal. *)
Definition repr_char (quote a : ascii) : string :=
  let n := nat_of_ascii a in
  if Ascii.eqb a quote || Ascii.eqb a backslash then String backslash (String a "")
  else if Nat.eqb n 9 then String backslash "t"
  else if Nat.eqb n 10 then String backslash "n"
  else if Nat.eqb n 13 then String backslash "r"
  else if Nat.ltb n 32 || (Nat.leb 127 n && Nat.leb n 160) || Nat.eqb n 173
  then String backslash
         (String "x" (String (hex_digit (n / 16)) (String (hex_digit (n mod 16)) "")))
  else String a "".

Fixpoint repr_chars (quote : ascii) (s : string) : string :=
  match s with
  | EmptyString => EmptyString
  | String a r => repr_char quote a ++ repr_chars quote r
  end.

(** [repr(s)]: single quotes, unless the text holds a single quote and no
    double quote. *)
Definition py_repr (s : string) : string :=
  let quote :=
    if Py.contains (String single_quote "") s
       && negb (Py.contains (String double_quote "") s)
    then double_quote else single_quote in
  String quote (repr_chars quote s ++ String quote "").

(** ** pathlib and os.path (POSIX flavour) *)

Definition slash : ascii := "/"%char.
Definition dot : ascii := "."%char.

(** A [PurePosixPath]: the anchor is [""], ["/"] or ["//"]; the parts
    exclude the anchor. *)
Record Path : Type := mkPath { anchor : string; parts : list string }.

(** Components kept by the path parser: non-empty and not ["."]. *)
Definition keep_component (c : string) : bool :=
  Py.truthy c && negb (String.eqb c ".").

(** [posixpath.splitroot]: exactly two leading slashes are kept apart. *)
Definition splitroot (p : string) : string * string :=
  match p with
  | String a r =>
      if Ascii.eqb a slash then
        match r with
        | String b r' =>
            if Ascii.eqb b slash then
              match r' with
              | String c _ => if Ascii.eqb c slash then ("/", r) else ("//", r')
              | EmptyString => ("//", r')
              end
            else ("/", r)
        | EmptyString => ("/", r)
        end
      else ("", p)
  | EmptyString => ("", p)
  end.

(** [Path(s)] *)
Definition parse_path (s : string) : Path :=
  let '(root, rel) := splitroot s in
  mkPath root (filter keep_component (Py.split slash rel)).

(** [str(p)] *)
Definition path_str (p : Path) : string :=
  match anchor p, parts p with
  | EmptyString, [] => "."
  | a, ps => a ++ Py.join "/" ps
  end.

(** [p.name] *)
Definition path_name (p : Path) : string :=
  match Py.last_item (parts p) with Some n => n | None => "" end.

(** [name.rfind('.')], [None] for -1. *)
Fixpoint rfind_dot (name : string) : option nat :=
  match name with
  | EmptyString => None
  | String a r =>
      match rfind_dot r with
      | Some i => Some (S i)
      | None => if Ascii.eqb a dot then Some 0 else None
      end
  end.

(** [p.suffix]: the text from the last dot of the name, unless that dot is
    the first or the last character. *)
Definition suffix_of_name (name : string) : string :=
  match rfind_dot name with
  | Some i =>
      if Nat.ltb 0 i && Nat.ltb i (String.length name - 1)
      then Py.drop i name else ""
  | None => ""
  end.

Definition path_suffix (p : Path) : string := suffix_of_name (path_name p).

(** [p.parent] *)
Definition path_parent (p : Path) : Path :=
  mkPath (anchor p) (removelast (parts p)).

(** [p / q] *)
Definition path_join (p q : Path) : Path :=
  match anchor q with
  | EmptyString => mkPath (anchor p) (parts p ++ parts q)
  | _ => q
  end.

(** [p.relative_to(other)]: [other] must be a prefix of [p], anchors
    included. *)
Fixpoint strip_prefix (pre l : list string) : option (list string) :=
  match pre, l with
  | [], _ => Some l
  | a :: pre', b :: l' => if String.eqb a b then strip_prefix pre' l' else None
  | _ :: _, [] => None
  end.

Definition not_in_subpath (p other : Path) : exn :=
  ValueError (py_repr (path_str p) ++ " is not in the subpath of "
              ++ py_repr (path_str other)
              ++ " OR one path is relative and the other is absolute.").

Definition relative_to (p other : Path) : result Path :=
  if String.eqb (anchor p) (anchor other) then
    match strip_prefix (parts other) (parts p) with
    | Some rest => Ok (mkPath "" rest)
    | None => Raise (not_in_subpath p other)
    end
  else Raise (not_in_subpath p other).

(** [p.with_suffix('')] *)
Definition with_suffix_empty (p : Path) : result Path :=
  let name := path_name p in
  if Py.truthy name then
    let old_suffix := suffix_of_name name in
    let name' := Py.take (String.length name - String.length old_suffix) name in
    Ok (mkPath (anchor p) (removelast (parts p) ++ [name']))
  else Raise (ValueError ("PosixPath(" ++ py_repr (path_str p)
                          ++ ") has an empty name")).

(** [os.path.basename]: what follows the last slash. *)
Definition basename (p : string) : string :=
  match Py.last_item (Py.split slash p) with Some b => b | None => "" end.

(** Order of [str] and of lists of [str], as [min] and [max] use it. *)
Fixpoint str_ltb (s t : string) : bool :=
  match s, t with
  | _, EmptyString => false
  | EmptyString, String _ _ => true
  | String a s', String b t' =>
      if Ascii.eqb a b then str_ltb s' t'
      else Nat.ltb (nat_of_ascii a) (nat_of_ascii b)
  end.

Fixpoint list_ltb (l m : list string) : bool :=
  match l, m with
  | _, [] => false
  | [], _ :: _ => true
  | a :: l', b :: m' => if String.eqb a b then list_ltb l' m' else str_ltb a b
  end.

Definition list_min (first : list string) (rest : list (list string)) : list string :=
  fold_left (fun m x => if list_ltb x m then x else m) rest first.

Definition list_max (first : list string) (rest : list (list string)) : list string :=
  fold_left (fun m x => if list_ltb m x then x else m) rest first.

(** The loop [for i, c in enumerate(s1): if c != s2[i]: common = s1[:i]; break]. *)
Fixpoint common_components (s1 s2 : list string) : result (list string) :=
  match s1 with
  | [] => Ok []
  | c :: s1' =>
      match s2 with
      | [] => Raise (IndexError "list index out of range")
      | d :: s2' =>
          if String.eqb c d then
            match common_components s1' s2' with
            | Ok l => Ok (c :: l)
            | Raise e => Raise e
            end
          else Ok []
      end
  end.

Definition isabs (p : string) : bool := Py.startswith "/" p.

(** [os.path.commonpath] *)
Definition commonpath (paths : list string) : result string :=
  match paths with
  | [] => Raise (ValueError "commonpath() arg is an empty sequence")
  | p0 :: ps =>
      let components p := filter keep_component (Py.split slash p) in
      if forallb (fun p => Bool.eqb (isabs p) (isabs p0)) ps then
        let split_paths := map components ps in
        let s1 := list_min (components p0) split_paths in
        let s2 := list_max (components p0) split_paths in
        match common_components s1 s2 with
        | Ok common => Ok ((if isabs p0 then "/" else "") ++ Py.join "/" common)
        | Raise e => Raise e
        end
      else Raise (ValueError "Can't mix absolute and relative paths")
  end.

(** ** The file system *)

Inductive node : Type :=
| Dir
| File (content : string).

(** A file system maps a normalised absolute path (its components below
    ["/"]) to what is there.  There are no symbolic links. *)
Definition FS : Type := list string -> option node.

Definition key_eqb (p q : list string) : bool :=
  if list_eq_dec string_dec p q then true else false.

Definition fs_set (fs : FS) (p : list string) (n : node) : FS :=
  fun q => if key_eqb p q then Some n else fs q.

Fixpoint is_prefix (p q : list string) : bool :=
  match p, q with
  | [], _ => true
  | a :: p', b :: q' => String.eqb a b && is_prefix p' q'
  | _ :: _, [] => false
  end.

Inductive errno : Type := ENOENT | ENOTDIR | EEXIST | EISDIR.

Definition OSError (e : errno) (path : string) : exn :=
  match e with
  | ENOENT => mkExn "FileNotFoundError"
                ("[Errno 2] No such file or directory: '" ++ path ++ "'")
  | ENOTDIR => mkExn "NotADirectoryError"
                 ("[Errno 20] Not a directory: '" ++ path ++ "'")
  | EEXIST => mkExn "FileExistsError" ("[Errno 17] File exists: '" ++ path ++ "'")
  | EISDIR => mkExn "IsADirectoryError"
                ("[Errno 21] Is a directory: '" ++ path ++ "'")
  end.

(** Path resolution as the kernel does it: every component is looked up in
    a directory that exists; [".."] goes to the parent. *)
Fixpoint walk (fs : FS) (cur : list string) (comps : list string)
  : errno + list string :=
  match comps with
  | [] => inr cur
  | c :: rest =>
      match fs cur with
      | Some Dir =>
          walk fs (if String.eqb c ".." then removelast cur else cur ++ [c]) rest
      | Some (File _) => inl ENOTDIR
      | None => inl ENOENT
      end
  end.

(** [os.mkdir(p)] *)
Definition os_mkdir (p : Path) (fs : FS) : (errno + unit) * FS :=
  match walk fs [] (parts p) with
  | inl e => (inl e, fs)
  | inr k =>
      match fs k with
      | Some _ => (inl EEXIST, fs)
      | None => (inr tt, fs_set fs k Dir)
      end
  end.

(** [p.is_dir()] and [p.exists()] *)
Definition is_dir (p : Path) (fs : FS) : bool :=
  match walk fs [] (parts p) with
  | inr k => match fs k with Some Dir => true | _ => false end
  | inl _ => false
  end.

Definition exists_ (p : Path) (fs : FS) : bool :=
  match walk fs [] (parts p) with
  | inr k => match fs k with Some _ => true | None => false end
  | inl _ => false
  end.

(** [p.mkdir(exist_ok=True)] *)
Definition mkdir_exist_ok (p : Path) (fs : FS) : result unit * FS :=
  match os_mkdir p fs with
  | (inr _, fs') => (Ok tt, fs')
  | (inl ENOENT, _) => (Raise (OSError ENOENT (path_str p)), fs)
  | (inl e, _) =>
      if is_dir p fs then (Ok tt, fs) else (Raise (OSError e (path_str p)), fs)
  end.

(** [p.mkdir(parents=True, exist_ok=True)], by recursion on the parts of
    [p] listed from the last one: a missing parent is created first. *)
Fixpoint mkdir_parents_rev (a : string) (rparts : list string) (fs : FS)
  : result unit * FS :=
  let p := mkPath a (rev rparts) in
  match os_mkdir p fs with
  | (inr _, fs') => (Ok tt, fs')
  | (inl ENOENT, _) =>
      match rparts with
      | [] => (Raise (OSError ENOENT (path_str p)), fs)
      | _ :: rparent =>
          match mkdir_parents_rev a rparent fs with
          | (Ok _, fs') => mkdir_exist_ok p fs'
          | (Raise e, fs') => (Raise e, fs')
          end
      end
  | (inl e, _) =>
      if is_dir p fs then (Ok tt, fs) else (Raise (OSError e (path_str p)), fs)
  end.

Definition mkdir_parents (p : Path) (fs : FS) : result unit * FS :=
  mkdir_parents_rev (anchor p) (rev (parts p)) fs.

(** [p.mkdir()] *)
Definition mkdir (p : Path) (fs : FS) : result unit * FS :=
  match os_mkdir p fs with
  | (inr _, fs') => (Ok tt, fs')
  | (inl e, _) => (Raise (OSError e (path_str p)), fs)
  end.

(** [p.write_text(content)] *)
Definition write_text (p : Path) (content : string) (fs : FS) : result unit * FS :=
  match walk fs [] (parts p) with
  | inl e => (Raise (OSError e (path_str p)), fs)
  | inr k =>
      match fs k with
      | Some Dir => (Raise (OSError EISDIR (path_str p)), fs)
      | _ => (Ok tt, fs_set fs k (File content))
      end
  end.

(** [open(p).read()] *)
Definition read_text (p : Path) (fs : FS) : result string :=
  match walk fs [] (parts p) with
  | inl e => Raise (OSError e (path_str p))
  | inr k =>
      match fs k with
      | Some (File c) => Ok c
      | Some Dir => Raise (OSError EISDIR (path_str p))
      | None => Raise (OSError ENOENT (path_str p))
      end
  end.

(** A directory that a traversal starting at ["/"] reaches under its own
    name. *)
Definition reachable_dir (fs : FS) (d : list string) : bool :=
  match walk fs [] d with
  | inr k => key_eqb k d && match fs d with Some Dir => true | _ => false end
  | inl _ => false
  end.

(** The loop [for d in root.rglob('**/'): if d.is_dir(): (d / '__init__.py').touch()]:
    every directory below [root], [root] included, gets an empty marker
    file unless something of that name is already there. *)
Definition touch_init_files (root : Path) (fs : FS) : FS :=
  fun q =>
    match fs q with
    | Some n => Some n
    | None =>
        match Py.last_item q with
        | Some name =>
            if String.eqb name "__init__.py"
               && is_prefix (parts root) (removelast q)
               && reachable_dir fs (removelast q)
            then Some (File "") else None
        | None => None
        end
    end.

(** ** The world outside the interpreter *)

(** [subprocess.CompletedProcess] *)
Record CompletedProcess : Type :=
  mkProc { returncode : Z; stdout : string; stderr : string }.

(** What [model.generate_content] hands back: the candidate completions,
    [prompt_feedback] with the name of its [block_reason] (each of the two
    attributes may be missing), and the [text] accessor, which may raise. *)
Record Response : Type :=
  mkResponse { candidates : list string;
               prompt_feedback : option (option string);
               text : result string }.

(** The state the pipeline acts on: the file system and the log of the
    commands handed to [subprocess.run], oldest first. *)
Record State : Type := mkState { fs : FS; calls : list (list string) }.

Record World : Type := mkWorld {
  (** components of the name returned by [tempfile.TemporaryDirectory] *)
  temp_dir : list string;
  (** the host file system when the pipeline starts *)
  host_fs : FS;
  (** the module-level global read from the environment *)
  GEMINI_API_KEY : option string;
  (** [subprocess.run(command, cwd=...)]: exit status and captured output,
      or the exception of a command that cannot be started, and what the
      process did to the file system *)
  run_process : list string -> option string -> State
                -> result CompletedProcess * FS;
  (** [model.generate_content] for the [i]-th unit, whose prompt embeds
      the unit's source text *)
  generate_content : nat -> string -> result Response;
  (** [json.load] on the text of a file *)
  json_load : string -> result pyval;
  (** leaving [with tempfile.TemporaryDirectory()]: the removal of the
      directory and of what the run left in it, [Some e] when it raises *)
  remove_temp_dir : State -> option exn
}.

(** [subprocess.run(command, capture_output=True, text=True, check=False)] *)
Definition subprocess_run (w : World) (command : list string)
    (cwd : option string) (st : State) : result CompletedProcess * State :=
  let '(r, fs') := run_process w command cwd st in
  (r, mkState fs' (calls st ++ [command])).

(** [os.path.abspath] on the components of the temporary directory's
    name, as [tempfile.mkdtemp] applies it. *)
Fixpoint normpath_rev (acc : list string) (comps : list string) : list string :=
  match comps with
  | [] => acc
  | c :: rest =>
      if keep_component c then
        if String.eqb c ".." then normpath_rev (tl acc) rest
        else normpath_rev (c :: acc) rest
      else normpath_rev acc rest
  end.

Definition normpath (comps : list string) : list string :=
  rev (normpath_rev [] comps).

Definition project_root_of (w : World) : Path :=
  mkPath "/" (normpath (temp_dir w)).

(** Entering [with tempfile.TemporaryDirectory() as temp_dir]: the
    directory exists, with its ancestors, and is empty. *)
Definition enter_temp_dir (w : World) : State :=
  let root := parts (project_root_of w) in
  mkState (fun q => if is_prefix q root then Some Dir
                    else if is_prefix root q then None
                    else host_fs w q)
          [].

(** ** A state and exception monad for the stage runners *)

Definition M (A : Type) : Type := State -> result A * State.

Definition ret {A} (a : A) : M A := fun st => (Ok a, st).

Definition bind {A B} (c : M A) (k : A -> M B) : M B :=
  fun st =>
    match c st with
    | (Ok a, st') => k a st'
    | (Raise e, st') => (Raise e, st')
    end.

(** A pure computation that may raise. *)
Definition lift {A} (r : result A) : M A := fun st => (r, st).

(** An operation of the file system, run on the state's file system. *)
Definition on_fs {A} (op : FS -> result A * FS) : M A :=
  fun st => let '(r, fs') := op (fs st) in (r, mkState fs' (calls st)).

Declare Scope monad_scope.
Delimit Scope monad_scope with monad.
Notation "x <- c ;; k" := (bind c (fun x => k))
  (at level 61, c at next level, right associativity) : monad_scope.
Notation "' pat <- c ;; k" := (bind c (fun x => match x with pat => k end))
  (at level 61, pat pattern, c at next level, right associativity) : monad_scope.
Open Scope monad_scope.

(** ** code_tester.py: the Workspace Materializer *)

(** The body of [for i, content in enumerate(contents)], from unit [i] on. *)
Fixpoint setup_loop (root common : Path) (contents paths : list string)
    (i : nat) (source_paths module_names : list string)
  : M (list string * list string) :=
  match contents with
  | [] => ret (source_paths, module_names)
  | content :: rest =>
      p <- lift (list_item paths i) ;;
      let original_path := parse_path p in
      if negb (String.eqb (path_suffix original_path) ".py") then
        setup_loop root common rest paths (S i) source_paths module_names
      else
        relative_path <- lift (relative_to original_path common) ;;
        let temp_path := path_join root relative_path in
        _ <- on_fs (mkdir_parents (path_parent temp_path)) ;;
        _ <- on_fs (write_text temp_path content) ;;
        stem <- lift (with_suffix_empty relative_path) ;;
        let module_name := Py.join "." (parts stem) in
        setup_loop root common rest paths (S i)
          (source_paths ++ [path_str temp_path])
          (module_names ++ [module_name])
  end.

Definition _setup_project_structure (root : Path) (contents paths : list string)
  : M (list string * list string) :=
  common_base <- lift (match paths with
                       | [] => Ok "."
                       | _ :: _ => commonpath paths
                       end) ;;
  r <- setup_loop root (parse_path common_base) contents paths 0 [] [] ;;
  _ <- on_fs (fun fs => (Ok tt, touch_init_files root fs)) ;;
  ret r.

(** ** code_tester.py: the search-based generator *)

Definition pynguin_command (project_path output_path : Path) (module : string)
  : list string :=
  ["pynguin"; "--project-path"; path_str project_path;
   "--output-path"; path_str output_path;
   "--module-name"; module; "--maximum-search-time"; "60"].

Fixpoint pynguin_loop (w : World) (project_path output_path : Path)
    (modules : list string) (generated_files : Z) (errors : list pyval)
  : M (Z * list pyval) :=
  match modules with
  | [] => ret (generated_files, errors)
  | module :: rest =>
      result <- subprocess_run w
                  (pynguin_command project_path output_path module) None ;;
      if (returncode result =? 0)%Z then
        pynguin_loop w project_path output_path rest (generated_files + 1) errors
      else
        pynguin_loop w project_path output_path rest generated_files
          (errors ++ [PDict [("module", PStr module);
                             ("error", PStr (Py.take 500 (stderr result) ++ "..."))]])
  end.

Definition _run_test_generation (w : World) (project_path output_path : Path)
    (modules : list string) : M pydict :=
  ' (generated_files, errors) <-
      pynguin_loop w project_path output_path modules 0 [] ;;
  ret [("tool", PStr "Pynguin");
       ("success", PBool (generated_files >? 0)%Z);
       ("modules_tested", PInt (Z.of_nat (List.length modules)));
       ("test_suites_generated", PInt generated_files);
       ("errors", PList errors)].

(** ** code_tester.py: the AI-prompted generator *)

Definition nl : string := String "010"%char EmptyString.
Definition fence_open : string := "```python" ++ nl.
Definition fence_close : string := "```".

(** The text before the last occurrence of [p] in [s]. *)
Fixpoint before_last (p s : string) : option string :=
  match s with
  | EmptyString => if Py.startswith p s then Some EmptyString else None
  | String a r =>
      match before_last p r with
      | Some t => Some (String a t)
      | None => if Py.startswith p s then Some EmptyString else None
      end
  end.

(** The pattern of line 144 (an opening fence tagged "python" and a
    newline, a greedy group of arbitrary characters under [re.DOTALL], a
    closing fence) tried at the start of [s]: the group runs to the last
    closing fence. *)
Definition match_fence_here (s : string) : option string :=
  if Py.startswith fence_open s
  then before_last fence_close (Py.drop (String.length fence_open) s)
  else None.

(** [re.search] with that pattern: group 1 of the match at the leftmost
    position that has one. *)
Fixpoint re_search_fence (s : string) : option string :=
  match match_fence_here s with
  | Some g => Some g
  | None =>
      match s with
      | EmptyString => None
      | String _ r => re_search_fence r
      end
  end.

(** Line 145. *)
Definition cleaned_code_of (test_code : string) : string :=
  match re_search_fence test_code with
  | Some group1 => Py.strip group1
  | None => Py.strip test_code
  end.

Definition blocked_message (response : Response) : string :=
  let block_reason :=
    match prompt_feedback response with
    | Some (Some name) => name
    | _ => "Unknown"
    end in
  "Response was blocked by safety filters. Reason: " ++ block_reason.

(** The [try] block of one unit.  The list of generated tests is extended
    before the file is written, so it is returned on both exits. *)
Definition ai_try_body (w : World) (tests_path : Path) (i : nat)
    (code filename : string) (generated_tests_data : list pyval) (st : State)
  : (result unit * list pyval) * State :=
  match generate_content w i code with
  | Raise e => ((Raise e, generated_tests_data), st)
  | Ok response =>
      match candidates response with
      | [] => ((Raise (ValueError (blocked_message response)),
                generated_tests_data), st)
      | _ :: _ =>
          match text response with
          | Raise e => ((Raise e, generated_tests_data), st)
          | Ok test_code =>
              let cleaned_code := cleaned_code_of test_code in
              if Py.truthy cleaned_code then
                let generated_tests_data :=
                  (generated_tests_data
                   ++ [PDict [("filename", PStr filename);
                              ("code", PStr cleaned_code)]])%list in
                let test_file_path :=
                  path_join tests_path (parse_path ("test_gemini_" ++ filename)) in
                match on_fs (write_text test_file_path cleaned_code) st with
                | (Ok _, st') => ((Ok tt, generated_tests_data), st')
                | (Raise e, st') => ((Raise e, generated_tests_data), st')
                end
              else ((Raise (ValueError "Gemini returned a valid but empty response."),
                     generated_tests_data), st)
          end
      end
  end.

Definition file_error (filename : string) (e : exn) : pyval :=
  PDict [("file", PStr filename); ("error", PStr (exn_str e))].

Fixpoint ai_loop (w : World) (tests_path : Path)
    (code_contents file_paths : list string) (i : nat)
    (generated_files : Z) (errors generated_tests_data : list pyval)
  : M (Z * list pyval * list pyval) :=
  match code_contents with
  | [] => ret (generated_files, errors, generated_tests_data)
  | code :: rest =>
      p <- lift (list_item file_paths i) ;;
      let filename := basename p in
      fun st =>
        match ai_try_body w tests_path i code filename generated_tests_data st with
        | ((Ok _, generated_tests_data), st') =>
            ai_loop w tests_path rest file_paths (S i)
              (generated_files + 1) errors generated_tests_data st'
        | ((Raise e, generated_tests_data), st') =>
            ai_loop w tests_path rest file_paths (S i)
              generated_files (errors ++ [file_error filename e])
              generated_tests_data st'
        end
  end.

Definition key_is_set (key : option string) : bool :=
  match key with Some k => Py.truthy k | None => false end.

Definition _run_ai_test_generation (w : World) (tests_path : Path)
    (code_contents file_paths : list string) : M pydict :=
  if negb (key_is_set (GEMINI_API_KEY w)) then
    ret [("tool", PStr "Gemini"); ("success", PBool false);
         ("message", PStr "GEMINI_API_KEY not set. Skipping.")]
  else
    ' (generated_files, errors, generated_tests_data) <-
        ai_loop w tests_path code_contents file_paths 0 0 [] [] ;;
    ret [("tool", PStr "Gemini");
         ("success", PBool (generated_files >? 0)%Z);
         ("files_processed", PInt (Z.of_nat (List.length code_contents)));
         ("test_suites_generated", PInt generated_files);
         ("errors", PList errors);
         ("generated_tests", PList generated_tests_data)].

(** ** code_tester.py: the measurement runners *)

Definition coverage_command (project_path : Path) (modules_to_cover : string)
  : list string :=
  ["pytest"; "--cov=" ++ modules_to_cover;
   "--cov-report=json:" ++ path_str (path_join project_path (parse_path "coverage.json"));
   path_str (path_join project_path (parse_path "tests"))].

Definition _run_coverage_analysis (w : World) (project_path : Path)
    (modules : list string) : M pydict :=
  let cov_json_path := path_join project_path (parse_path "coverage.json") in
  let modules_to_cover := Py.join "," (filter Py.truthy modules) in
  if negb (Py.truthy modules_to_cover) then
    ret [("tool", PStr "pytest-cov"); ("success", PBool false);
         ("error", PStr "No modules to cover.")]
  else
    result <- subprocess_run w (coverage_command project_path modules_to_cover)
                (Some (path_str project_path)) ;;
    fun st =>
      if exists_ cov_json_path (fs st) then
        (content <- lift (read_text cov_json_path (fs st)) ;;
         report <- lift (json_load w content) ;;
         summary <- lift (py_get report "totals" (PDict [])) ;;
         files <- lift (py_get report "files" (PDict [])) ;;
         ret [("tool", PStr "pytest-cov"); ("success", PBool true);
              ("summary", summary); ("files", files)]) st
      else
        ret [("tool", PStr "pytest-cov"); ("success", PBool false);
             ("error", PStr (if Py.truthy (stderr result) then stderr result
                             else stdout result))] st.

(** Lines 186-189 of [_run_mutation_testing]: the score read off the
    output of [mutmut results].  Every subscript is fallible. *)
Definition mutation_score (out : string) : result string :=
  let lines := Py.split "010"%char (Py.strip out) in
  let score := "N/A" in
  match lines with
  | [] => Ok score
  | _ :: _ =>
      match Py.last_item lines with
      | None => Raise (IndexError "list index out of range")
      | Some last_line =>
          if Py.contains "killed" last_line then
            let parts := Py.split "("%char last_line in
            if Nat.ltb 1 (List.length parts) then
              match list_item parts 1 with
              | Raise e => Raise e
              | Ok p1 => list_item (Py.split ")"%char p1) 0
              end
            else Ok score
          else Ok score
      end
  end.

Definition setup_cfg : string :=
  "[mutmut]" ++ nl ++ "paths_to_mutate=." ++ nl ++ "runner=pytest" ++ nl
  ++ "tests_dir=tests" ++ nl.

Definition _run_mutation_testing (w : World) (project_path : Path) : M pydict :=
  let cwd := Some (path_str project_path) in
  _ <- on_fs (write_text (path_join project_path (parse_path "setup.cfg")) setup_cfg) ;;
  _ <- subprocess_run w ["mutmut"; "run"; "--paths-to-mutate"; "."] cwd ;;
  result <- subprocess_run w ["mutmut"; "results"] cwd ;;
  score <- lift (mutation_score (stdout result)) ;;
  ret [("tool", PStr "mutmut");
       ("success", PBool (returncode result =? 0)%Z);
       ("score", PStr score);
       ("raw_report", PStr (stdout result))].

(** ** code_tester.py: the Pipeline Coordinator *)

Definition did_not_run (message : string) : pyval :=
  PDict [("success", PBool false); ("message", PStr message)].

(** Lines 34-39. *)
Definition initial_report : pydict :=
  [("summary", PDict []);
   ("pynguin_test_generation", did_not_run "Pynguin step did not run.");
   ("gemini_test_generation", did_not_run "Gemini step did not run.");
   ("coverage_analysis", did_not_run "Coverage step did not run.");
   ("mutation_testing", did_not_run "Mutation step did not run.")].

(** The [try] block, lines 45-72: the report as the block leaves it and
    the exception that ended the block, if one did. *)
Definition try_body (w : World) (code_files_content file_paths : list string)
    (final_report : pydict) (st : State) : (pydict * option exn) * State :=
  let project_root := project_root_of w in
  match _setup_project_structure project_root code_files_content file_paths st with
  | (Raise e, st) => ((final_report, Some e), st)
  | (Ok (source_paths, module_names), st) =>
  match source_paths with
  | [] => ((final_report,
            Some (ValueError "Setup failed: No valid Python modules found in selection.")),
           st)
  | _ :: _ =>
  let tests_path := path_join project_root (parse_path "tests") in
  match on_fs (mkdir tests_path) st with
  | (Raise e, st) => ((final_report, Some e), st)
  | (Ok _, st) =>
  match _run_test_generation w project_root tests_path module_names st with
  | (Raise e, st) => ((final_report, Some e), st)
  | (Ok pynguin_report, st) =>
  let final_report :=
    dict_set "pynguin_test_generation" (PDict pynguin_report) final_report in
  match _run_ai_test_generation w tests_path code_files_content file_paths st with
  | (Raise e, st) => ((final_report, Some e), st)
  | (Ok gemini_report, st) =>
  let final_report :=
    dict_set "gemini_test_generation" (PDict gemini_report) final_report in
  if not_get "success" pynguin_report && not_get "success" gemini_report then
    ((final_report,
      Some (RuntimeError "All test generation methods failed, cannot proceed.")),
     st)
  else
  match _run_coverage_analysis w project_root module_names st with
  | (Raise e, st) => ((final_report, Some e), st)
  | (Ok cov_report, st) =>
  let final_report := dict_set "coverage_analysis" (PDict cov_report) final_report in
  match _run_mutation_testing w project_root st with
  | (Raise e, st) => ((final_report, Some e), st)
  | (Ok mut_report, st) =>
  let final_report := dict_set "mutation_testing" (PDict mut_report) final_report in
  match py_get (dict_get_default "summary" (PDict []) cov_report)
               "percent_covered_display" (PStr "N/A") with
  | Raise e => ((final_report, Some e), st)
  | Ok coverage =>
  let final_report :=
    dict_set "summary"
      (PDict [("overall_status", PStr "Success");
              ("message", PStr "Testing pipeline completed.");
              ("coverage", coverage);
              ("mutation_score", dict_get_default "score" (PStr "N/A") mut_report)])
      final_report in
  ((final_report, None), st)
  end end end end end end end end.

(** The [except Exception as e] clause, line 78. *)
Definition failure_summary (e : exn) : pyval :=
  PDict [("overall_status", PStr "Failure"); ("message", PStr (exn_str e))].

(** The pipeline with the state it ends in, before the temporary
    directory is removed. *)
Definition run_testing_pipeline_in (w : World)
    (code_files_content file_paths : list string) : pydict * State :=
  let '((final_report, raised), st) :=
    try_body w code_files_content file_paths initial_report (enter_temp_dir w) in
  match raised with
  | Some e => (dict_set "summary" (failure_summary e) final_report, st)
  | None => (final_report, st)
  end.

(** The report of [run_testing_pipeline]: what the [return final_report]
    of the [finally] clause, which ends every path through the [try]
    statement, hands back.  [run_testing_pipeline_call] below adds the
    exit of the [with] block that this [return] leaves. *)
Definition run_testing_pipeline (w : World)
    (code_files_content file_paths : list string) : pydict :=
  fst (run_testing_pipeline_in w code_files_content file_paths).

(** A call of [run_testing_pipeline] as its caller sees it.  The [return]
    of the [finally] clause leaves the [with] block of line 41, whose exit
    removes the temporary directory; an exception raised by the removal
    replaces the returned report. *)
Definition run_testing_pipeline_call (w : World)
    (code_files_content file_paths : list string) : result pydict :=
  let '(final_report, st) :=
    run_testing_pipeline_in w code_files_content file_paths in
  match remove_temp_dir w st with
  | Some e => Raise e
  | None => Ok final_report
  end.

(** [final_report["summary"]["overall_status"]] *)
Definition overall_status (final_report : pydict) : option pyval :=
  match dict_get "summary" final_report with
  | Some (PDict summary) => dict_get "overall_status" summary
  | _ => None
  end.

(** [final_report["summary"]["message"]] *)
Definition summary_message (final_report : pydict) : option pyval :=
  match dict_get "summary" final_report with
  | Some (PDict summary) => dict_get "message" summary
  | _ => None
  end.

(** ** code_analyzer.py *)

(** Lines 63-64 of [_run_security_scan]: the penalty score computed from the
    three [_totals] counters of the scanner's report. *)
Definition security_score (high_sev medium_sev low_sev : Z) : Z :=
  let score := (100 - (high_sev * 10) - (medium_sev * 5) - (low_sev * 2))%Z in
  Z.max 0 score.

(** The nested function [get_grade] of [_generate_matrix_chart]. *)
Definition get_grade (score : Z) : string :=
  if (score >=? 90)%Z then "A (Excellent)"
  else if (score >=? 75)%Z then "B (Good)"
  else if (score >=? 60)%Z then "C (Fair)"
  else if (score >=? 40)%Z then "D (Poor)"
  else "F (Critical)".

(** ** main.py: the check of the testing endpoint *)

(** [s.endswith(t)] *)
Fixpoint endswith (t s : string) : bool :=
  String.eqb s t
  || match s with
     | EmptyString => false
     | String _ r => endswith t r
     end.

(** Line 92 of main.py: [any(f.endswith('.py') for f in file_paths)],
    the condition under which [automated_testing] calls the pipeline
    instead of answering 400. *)
Definition has_python_file (file_paths : list string) : bool :=
  existsb (endswith ".py") file_paths.

(** ** code_analyzer.py: staging the units for the scanner *)

(** [os.path.join(a, b)] *)
Definition os_path_join (a b : string) : string :=
  if Py.startswith "/" b then b
  else if negb (Py.truthy a) || endswith "/" a then a ++ b
  else a ++ "/" ++ b.

(** [str(i)] for a non-negative [int] *)
Definition str_of_nat (i : nat) : string :=
  NilEmpty.string_of_uint (Nat.to_uint i).

(** Line 22 of [analyze_codebase]: the base name of the unit's path, or a
    generic name when the list of paths is too short. *)
Definition original_filename (file_paths : list string) (i : nat) : string :=
  if Nat.ltb i (List.length file_paths) then basename (nth i file_paths "")
  else "file_" ++ str_of_nat i ++ ".py".

(** [with open(path, 'w') as f: f.write(content)], the path given as
    text. *)
Definition open_write (path content : string) (fs : FS) : result unit * FS :=
  match walk fs [] (parts (parse_path path)) with
  | inl e => (Raise (OSError e path), fs)
  | inr k =>
      match fs k with
      | Some Dir => (Raise (OSError EISDIR path), fs)
      | _ => (Ok tt, fs_set fs k (File content))
      end
  end.

(** The loop of lines 20-26 of [analyze_codebase]. *)
Fixpoint analyze_codebase_loop (temp_dir : string)
    (code_files_content file_paths : list string) (i : nat)
    (temp_file_paths : list string) : M (list string) :=
  match code_files_content with
  | [] => ret temp_file_paths
  | content :: rest =>
      let original_filename := original_filename file_paths i in
      let temp_path := os_path_join temp_dir original_filename in
      _ <- on_fs (open_write temp_path content) ;;
      analyze_codebase_loop temp_dir rest file_paths (S i)
        (temp_file_paths ++ [temp_path])%list
  end.

(** ** Observations used to state the properties *)

(** The sub-process results of the search-based generator, one per module
    in order, replayed from the state the stage starts in; the list stops
    after a command that could not be started. *)
Fixpoint pynguin_runs (w : World) (project_path output_path : Path)
    (modules : list string) (st : State) : list (result CompletedProcess) :=
  match modules with
  | [] => []
  | module :: rest =>
      let '(r, st') :=
        subprocess_run w (pynguin_command project_path output_path module) None st in
      r :: match r with
           | Ok _ => pynguin_runs w project_path output_path rest st'
           | Raise _ => []
           end
  end.

Definition exited_zero (r : result CompletedProcess) : bool :=
  match r with
  | Ok p => (returncode p =? 0)%Z
  | Raise _ => false
  end.

(** Something appeared or changed directly inside the output directory
    between two file-system states. *)
Definition produced_output (before after : FS) (output_path : Path) : Prop :=
  exists name n,
    after (parts output_path ++ [name])%list = Some n
    /\ before (parts output_path ++ [name])%list <> Some n.

(** A process that exits with status 0 and touches nothing. *)
Definition silent_success : list string -> option string -> State
                            -> result CompletedProcess * FS :=
  fun _ _ st => (Ok (mkProc 0 "" ""), fs st).

Definition no_model : nat -> string -> result Response :=
  fun _ _ => Raise (mkExn "ServiceUnavailable" "503 The model is overloaded.").

Definition no_json : string -> result pyval :=
  fun _ => Raise (mkExn "JSONDecodeError" "Expecting value: line 1 column 1 (char 0)").

Definition empty_fs : FS := fun _ => None.

(** A temporary directory whose removal succeeds. *)
Definition removal_succeeds : State -> option exn := fun _ => None.

(** A host on which every tool reports success without writing anything
    and no API credential is configured. *)
Definition quiet_world : World :=
  mkWorld ["tmp"; "tmpq3v8x1"] empty_fs None silent_success no_model no_json
          removal_succeeds.

(** The outcome of the [try] block of every unit of the AI-prompted
    generator, in order, replayed from the state the stage starts in:
    the unit's file name and either success or the exception caught. *)
Fixpoint ai_outcomes (w : World) (tests_path : Path)
    (code_contents file_paths : list string) (i : nat)
    (generated_tests_data : list pyval) (st : State)
  : list (string * result unit) :=
  match code_contents with
  | [] => []
  | code :: rest =>
      match list_item file_paths i with
      | Raise _ => []
      | Ok p =>
          let filename := basename p in
          let '((r, generated_tests_data'), st') :=
            ai_try_body w tests_path i code filename generated_tests_data st in
          (filename, r)
            :: ai_outcomes w tests_path rest file_paths (S i)
                 generated_tests_data' st'
      end
  end.

Definition succeeded (o : string * result unit) : bool :=
  match snd o with Ok _ => true | Raise _ => false end.

Fixpoint errors_of (outcomes : list (string * result unit)) : list pyval :=
  match outcomes with
  | [] => []
  | (_, Ok _) :: t => errors_of t
  | (filename, Raise e) :: t => file_error filename e :: errors_of t
  end.

(** [c in s] for one character. *)
Fixpoint has_char (c : ascii) (s : string) : bool :=
  match s with
  | EmptyString => false
  | String a r => Ascii.eqb a c || has_char c r
  end.

Definition backtick : ascii := "`"%char.

(** The text after the first occurrence of [p] in [s]. *)
Fixpoint find_after (p s : string) : option string :=
  if Py.startswith p s then Some (Py.drop (String.length p) s)
  else match s with
       | EmptyString => None
       | String _ r => find_after p r
       end.

(** The text before the first occurrence of [p] in [s]. *)
Fixpoint before_first (p s : string) : option string :=
  if Py.startswith p s then Some EmptyString
  else match s with
       | EmptyString => None
       | String a r =>
           match before_first p r with
           | Some t => Some (String a t)
           | None => None
           end
       end.

(** The specification's reading of the extraction: a fenced code block
    is opened by a fence (three backticks and the rest of that line,
    whatever it says) and closed by the next fence; the first block's
    contents are used, stripped, and the stripped raw text if there is no
    block. *)
Definition first_fenced_block (completion : string) : option string :=
  match find_after fence_close completion with
  | None => None
  | Some opened =>
      match find_after nl opened with
      | None => None
      | Some body => before_first fence_close body
      end
  end.

Definition extraction_as_specified (completion : string) : string :=
  match first_fenced_block completion with
  | Some contents => Py.strip contents
  | None => Py.strip completion
  end.

(** A completion whose only code block carries no language tag. *)
Definition untagged_completion : string :=
  "```" ++ nl ++ "assert add(1, 2) == 3" ++ nl ++ "```".

(** A host with a credential whose model blocks the first unit, answers
    the second with a tagged code block and the third with blanks. *)
Definition sample_model (i : nat) (code : string) : result Response :=
  match i with
  | 0 => Ok (mkResponse [] (Some (Some "SAFETY")) (Raise (ValueError "no text")))
  | 1 => Ok (mkResponse ["candidate"] (Some None)
               (Ok ("Here are the tests:" ++ nl ++ fence_open
                    ++ "def test_add(): assert add(1, 2) == 3" ++ nl
                    ++ fence_close ++ nl)))
  | _ => Ok (mkResponse ["candidate"] None (Ok ("  " ++ nl)))
  end.

Definition sample_world : World :=
  mkWorld ["tmp"; "tmpq3v8x1"] empty_fs (Some "secret") silent_success
          sample_model no_json removal_succeeds.

(** The state in which the generators start: the temporary directory
    with its [tests] sub-directory. *)
Definition generation_state (w : World) : State :=
  snd (on_fs (mkdir (path_join (project_root_of w) (parse_path "tests")))
             (enter_temp_dir w)).

(** A computation only adds commands satisfying [P] to the log of started
    processes, whether it returns or raises. *)
Definition calls_extend {A} (P : list string -> Prop) (m : M A) : Prop :=
  forall st, exists l, calls (snd (m st)) = (calls st ++ l)%list /\ Forall P l.

Definition is_pynguin (command : list string) : Prop :=
  hd "" command = "pynguin".

(** A host without credential on which every tool exits with status 1. *)
Definition failing_process : list string -> option string -> State
                             -> result CompletedProcess * FS :=
  fun _ _ st => (Ok (mkProc 1 "" "error: search budget exhausted"), fs st).

Definition failing_world : World :=
  mkWorld ["tmp"; "tmpq3v8x1"] empty_fs None failing_process no_model no_json
          removal_succeeds.

(** Both generation entries of a report are unsuccessful, read the way
    the coordinator reads them ([not report.get("success")]). *)
Definition both_generators_failed (final_report : pydict) : bool :=
  match dict_get "pynguin_test_generation" final_report,
        dict_get "gemini_test_generation" final_report with
  | Some (PDict pynguin_report), Some (PDict gemini_report) =>
      not_get "success" pynguin_report && not_get "success" gemini_report
  | _, _ => false
  end.

Definition report_keys : list string :=
  ["summary"; "pynguin_test_generation"; "gemini_test_generation";
   "coverage_analysis"; "mutation_testing"].

(** A path component other than [".."]. *)
Definition not_dotdot (c : string) : Prop := String.eqb c ".." = false.

(** The test of line 91 on an original path. *)
Definition is_python_path (p : string) : bool :=
  String.eqb (path_suffix (parse_path p)) ".py".

(** The specification's "last non-empty line" of the summary output: the
    last of its lines that holds something other than white space. *)
Definition last_nonblank_line (out : string) : option string :=
  Py.last_item (filter (fun l => negb (Py.all_space l)) (Py.split "010"%char out)).

(** A text without white space. *)
Fixpoint no_space (s : string) : bool :=
  match s with
  | EmptyString => true
  | String a r => negb (Py.isspace a) && no_space r
  end.

(** An entry of the search-based generator's error list: one of the
    modules with at most 500 characters of diagnostic text and the
    ellipsis. *)
Definition truncated_error (modules : list string) (entry : pyval) : Prop :=
  exists module text,
    In module modules
    /\ entry = PDict [("module", PStr module); ("error", PStr (text ++ "..."))]
    /\ String.length text <= 500.

(** What a stage that only adds test files may change between two
    file-system states: entries that were not directories and now are
    regular files named [prefix ++ basename p], for a selected path [p],
    directly inside the directory that [dir] resolves to. *)
Definition only_adds_files (before after : FS) (dir : Path) (prefix : string)
    (file_paths : list string) : Prop :=
  forall q,
    after q <> before q ->
    exists k p content,
      walk before [] (parts dir) = inr k
      /\ In p file_paths
      /\ q = (k ++ [(prefix ++ basename p)%string])%list
      /\ after q = Some (File content)
      /\ before q <> Some Dir.

(** The code of the last entry of [generated_tests] that carries a given
    file name. *)
Fixpoint last_code (filename : string) (generated_tests : list pyval)
  : option string :=
  match generated_tests with
  | [] => None
  | entry :: rest =>
      match last_code filename rest with
      | Some code => Some code
      | None =>
          match entry with
          | PDict d =>
              match dict_get "filename" d, dict_get "code" d with
              | Some (PStr f), Some (PStr code) =>
                  if String.eqb f filename then Some code else None
              | _, _ => None
              end
          | _ => None
          end
      end
  end.

(** An entry of [generated_tests]: the base name of a selected path with
    a code text that is not empty and has no white space around it. *)
Definition clean_test_entry (file_paths : list string) (entry : pyval) : Prop :=
  exists p code,
    In p file_paths
    /\ entry = PDict [("filename", PStr (basename p)); ("code", PStr code)]
    /\ code <> "" /\ Py.strip code = code.

(** A host whose test run fails but leaves a coverage report behind. *)
Definition partial_coverage_world : World :=
  mkWorld ["tmp"; "tmpq3v8x1"] empty_fs None
    (fun _ _ st =>
       (Ok (mkProc 1 "" "1 failed"),
        fs_set (fs st) ["tmp"; "tmpq3v8x1"; "coverage.json"] (File "{}")))
    no_model
    (fun _ => Ok (PDict [("totals",
                          PDict [("percent_covered_display", PStr "50")])]))
    removal_succeeds.

(** A host with a credential whose model answers every unit with a plain
    assertion on the number of the unit. *)
Definition numbering_world : World :=
  mkWorld ["tmp"; "tmpq3v8x1"] empty_fs (Some "secret") silent_success
    (fun i _ =>
       Ok (mkResponse ["candidate"] None
             (Ok (match i with 0 => "assert 1" | _ => "  assert 2" ++ nl end))))
    no_json removal_succeeds.

(** The content of the last unit, counted from [i], that is staged under
    a given file name. *)
Fixpoint last_staged (file_paths : list string) (i : nat)
    (code_files_content : list string) (name : string) : option string :=
  match code_files_content with
  | [] => None
  | content :: rest =>
      match last_staged file_paths (S i) rest name with
      | Some c => Some c
      | None =>
          if String.eqb (original_filename file_paths i) name
          then Some content else None
      end
  end.

(** A path whose base name can name a file: not empty and neither ["."]
    nor [".."]. *)
Definition names_a_file (p : string) : Prop :=
  keep_component (basename p) = true /\ String.eqb (basename p) ".." = false.

(** What a computation confined to the directory at [root] may do to the
    file system: an entry either stays as it was, or it lies below [root]
    and was not a directory before. *)
Definition adds_below (root : list string) (before after : FS) : Prop :=
  forall q,
    after q = before q
    \/ (before q <> Some Dir /\ is_prefix root q = true).

(** The run of the pipeline as the specification describes it: the stages
    in their order, each on the state the previous one left, the first
    exception stopping the run.  It gives the results of the stages that
    completed, under their keys of the report, and the exception that
    stopped the run, if one did. *)
Definition pipeline_trace (w : World) (code_files_content file_paths : list string)
  : list (string * pydict) * option exn :=
  let project_root := project_root_of w in
  let tests_path := path_join project_root (parse_path "tests") in
  match _setup_project_structure project_root code_files_content file_paths
          (enter_temp_dir w) with
  | (Raise e, _) => ([], Some e)
  | (Ok ([], _), _) =>
      ([], Some (ValueError "Setup failed: No valid Python modules found in selection."))
  | (Ok (_ :: _, module_names), st) =>
  match on_fs (mkdir tests_path) st with
  | (Raise e, _) => ([], Some e)
  | (Ok _, st) =>
  match _run_test_generation w project_root tests_path module_names st with
  | (Raise e, _) => ([], Some e)
  | (Ok pynguin_report, st) =>
  let completed := [("pynguin_test_generation", pynguin_report)] in
  match _run_ai_test_generation w tests_path code_files_content file_paths st with
  | (Raise e, _) => (completed, Some e)
  | (Ok gemini_report, st) =>
  let completed := (completed ++ [("gemini_test_generation", gemini_report)])%list in
  if not_get "success" pynguin_report && not_get "success" gemini_report then
    (completed,
     Some (RuntimeError "All test generation methods failed, cannot proceed."))
  else
  match _run_coverage_analysis w project_root module_names st with
  | (Raise e, _) => (completed, Some e)
  | (Ok cov_report, st) =>
  let completed := (completed ++ [("coverage_analysis", cov_report)])%list in
  match _run_mutation_testing w project_root st with
  | (Raise e, _) => (completed, Some e)
  | (Ok mut_report, _) =>
  let completed := (completed ++ [("mutation_testing", mut_report)])%list in
  match py_get (dict_get_default "summary" (PDict []) cov_report)
               "percent_covered_display" (PStr "N/A") with
  | Raise e => (completed, Some e)
  | Ok _ => (completed, None)
  end end end end end end end.

(** A host on which every tool exits with status 0 without writing
    anything, except that [mutmut] is not installed; the removal of the
    temporary directory succeeds. *)
Definition mutmut_missing_world : World :=
  mkWorld ["tmp"; "tmpq3v8x1"] empty_fs None
    (fun command _ st =>
       match command with
       | "mutmut" :: _ =>
           (Raise (mkExn "FileNotFoundError"
                     "[Errno 2] No such file or directory: 'mutmut'"), fs st)
       | _ => (Ok (mkProc 0 "" ""), fs st)
       end)
    no_model no_json removal_succeeds.

(** The specification's reading of the score: on the last non-blank line,
    if it contains "killed", the token enclosed by the first opening
    parenthesis and the closing parenthesis that follows it; "N/A" in
    every other case. *)
Definition score_as_specified (out : string) : string :=
  match last_nonblank_line out with
  | Some line =>
      if Py.contains "killed" line then
        match find_after "(" line with
        | Some rest =>
            match before_first ")" rest with
            | Some token => token
            | None => "N/A"
            end
        | None => "N/A"
        end
      else "N/A"
  | None => "N/A"
  end.

(** The text up to the first parenthesis of either kind, all of it if
    there is none. *)
Fixpoint until_paren (s : string) : string :=
  match s with
  | EmptyString => EmptyString
  | String a r =>
      if Ascii.eqb a "("%char || Ascii.eqb a ")"%char then EmptyString
      else String a (until_paren r)
  end.

(** The score that the code reads off a line: what follows the first
    opening parenthesis of the line without its trailing white space, up
    to the next parenthesis of either kind. *)
Definition score_of_line (line : string) : string :=
  if Py.contains "killed" line then
    match find_after "(" (Py.rstrip line) with
    | Some rest => until_paren rest
    | None => "N/A"
    end
  else "N/A".

(** The error entries of the search-based generator as the replayed runs
    determine them: for every module whose process exited with a status
    other than 0, in order, the module's name and the first 500
    characters of the process's standard error followed by "...". *)
Fixpoint pynguin_error_entries (modules : list string)
    (runs : list (result CompletedProcess)) : list pyval :=
  match modules, runs with
  | module :: modules', Ok result :: runs' =>
      if (returncode result =? 0)%Z then pynguin_error_entries modules' runs'
      else PDict [("module", PStr module);
                  ("error", PStr (Py.take 500 (stderr result) ++ "..."))]
           :: pynguin_error_entries modules' runs'
  | _, _ => []
  end.

(* ================================================================== *)
(** * Part II. Properties                                               *)
(* ================================================================== *)

(** ** Generic facts *)

Lemma join_truthy :
  forall sep l, l <> [] -> Forall (fun x => Py.truthy x = true) l ->
                Py.truthy (Py.join sep l) = true.
Proof.
  intros sep [|x t] Hne HF; [congruence|].
  inversion HF as [|? ? Hx _]; subst.
  destruct x as [|a x']; [discriminate Hx|].
  destruct t; reflexivity.
Qed.

Lemma filter_truthy_Forall :
  forall l, Forall (fun x => Py.truthy x = true) (filter Py.truthy l).
Proof.
  intros l. apply Forall_forall. intros x Hx.
  apply filter_In in Hx. tauto.
Qed.

Lemma dict_get_set_same :
  forall k v d, dict_get k (dict_set k v d) = Some v.
Proof.
  intros k v d. induction d as [|[k' v'] t IH]; cbn.
  - now rewrite String.eqb_refl.
  - destruct (String.eqb k k') eqn:E; cbn; rewrite E; [reflexivity|exact IH].
Qed.

Lemma dict_get_set_other :
  forall k k' v d, k <> k' -> dict_get k (dict_set k' v d) = dict_get k d.
Proof.
  intros k k' v d Hne. induction d as [|[k0 v0] t IH]; cbn.
  - apply String.eqb_neq in Hne. now rewrite Hne.
  - destruct (String.eqb k' k0) eqn:E; cbn.
    + apply String.eqb_eq in E. subst k0.
      apply String.eqb_neq in Hne. now rewrite Hne.
    + destruct (String.eqb k k0); [reflexivity|exact IH].
Qed.

(** ** Splitting and joining *)

Lemma split_not_nil : forall c s, Py.split c s <> [].
Proof.
  intros c s. destruct s as [|a r]; cbn [Py.split]; [discriminate|].
  destruct (Ascii.eqb a c); [discriminate|].
  destruct (Py.split c r); discriminate.
Qed.

Lemma split_sep_cons :
  forall c r, Py.split c (String c r) = EmptyString :: Py.split c r.
Proof. intros c r. cbn [Py.split]. now rewrite Ascii.eqb_refl. Qed.

Lemma split_other_cons :
  forall c a r, Ascii.eqb a c = false ->
    exists h t, Py.split c r = h :: t /\ Py.split c (String a r) = String a h :: t.
Proof.
  intros c a r Ha. cbn [Py.split]. rewrite Ha.
  destruct (Py.split c r) as [|h t] eqn:E; [now apply split_not_nil in E|].
  exists h, t. auto.
Qed.

Lemma has_char_sym_false :
  forall c a s, has_char c (String a s) = false ->
                Ascii.eqb a c = false /\ has_char c s = false.
Proof. intros c a s H. cbn in H. now apply orb_false_iff in H. Qed.

Lemma split_no_sep :
  forall c x, has_char c x = false -> Py.split c x = [x].
Proof.
  induction x as [|a x IH]; intros H; [reflexivity|].
  apply has_char_sym_false in H. destruct H as [Ha Hx].
  cbn [Py.split]. rewrite Ha, (IH Hx). reflexivity.
Qed.

Lemma split_app_sep :
  forall c x y, has_char c x = false ->
                Py.split c (x ++ String c y) = x :: Py.split c y.
Proof.
  induction x as [|a x IH]; intros y H.
  - cbn [append]. apply split_sep_cons.
  - apply has_char_sym_false in H. destruct H as [Ha Hx].
    cbn [append Py.split]. rewrite Ha, (IH y Hx). reflexivity.
Qed.

Lemma split_join :
  forall c l, l <> [] -> Forall (fun x => has_char c x = false) l ->
              Py.split c (Py.join (String c EmptyString) l) = l.
Proof.
  intros c. induction l as [|x t IH]; intros Hne HF; [congruence|].
  inversion HF as [|? ? Hx Ht]; subst.
  destruct t as [|y t].
  - cbn [Py.join]. now apply split_no_sep.
  - change (Py.join (String c "") (x :: y :: t))
      with (x ++ String c (Py.join (String c "") (y :: t))).
    rewrite (split_app_sep c x _ Hx), IH; [reflexivity|discriminate|exact Ht].
Qed.

Lemma split_pieces_no_sep :
  forall c s, Forall (fun x => has_char c x = false) (Py.split c s).
Proof.
  intros c. induction s as [|a r IH]; [repeat constructor|].
  cbn [Py.split]. destruct (Ascii.eqb a c) eqn:E.
  - constructor; [reflexivity|exact IH].
  - destruct (Py.split c r) as [|h t]; [repeat constructor; cbn; now rewrite E|].
    inversion IH; subst. constructor; [cbn; now rewrite E|assumption].
Qed.

Lemma filter_keeps_Forall :
  forall (P : string -> Prop) f l, Forall P l -> Forall P (filter f l).
Proof.
  intros P f l H. apply Forall_forall. intros x Hx.
  apply filter_In in Hx. rewrite Forall_forall in H. apply H. tauto.
Qed.

Lemma filter_idem :
  forall (f : string -> bool) l, filter f (filter f l) = filter f l.
Proof.
  intros f. induction l as [|x t IH]; [reflexivity|].
  cbn. destruct (f x) eqn:E; cbn; [rewrite E, IH|]; auto.
Qed.

(** ** White space, lines and [strip] *)

Lemma str_app_assoc : forall x y z : string, (x ++ y) ++ z = x ++ (y ++ z).
Proof. induction x as [|a x IH]; intros y z; cbn; [|rewrite IH]; reflexivity. Qed.

Lemma str_app_nil_r : forall x : string, x ++ "" = x.
Proof. induction x as [|a x IH]; cbn; [|rewrite IH]; reflexivity. Qed.

Lemma all_space_app :
  forall x y, Py.all_space (x ++ y) = Py.all_space x && Py.all_space y.
Proof.
  induction x as [|a x IH]; intros y; cbn; [reflexivity|].
  now rewrite IH, andb_assoc.
Qed.

Lemma has_char_app :
  forall c x y, has_char c (x ++ y) = has_char c x || has_char c y.
Proof.
  induction x as [|a x IH]; intros y; cbn; [reflexivity|].
  now rewrite IH, orb_assoc.
Qed.

Lemma space_not_eq :
  forall a c, Py.isspace a = true -> Py.isspace c = false -> Ascii.eqb c a = false.
Proof.
  intros a c Ha Hc. destruct (Ascii.eqb_spec c a) as [->|]; congruence.
Qed.

Lemma rstrip_all_space : forall s, Py.all_space s = true -> Py.rstrip s = "".
Proof. intros [|a s] H; [reflexivity|]. cbn [Py.rstrip]. now rewrite H. Qed.

Lemma lstrip_all_space : forall s, Py.all_space s = true -> Py.lstrip s = "".
Proof.
  induction s as [|a s IH]; intros H; [reflexivity|].
  cbn in H. apply andb_true_iff in H. destruct H as [Ha Hs].
  cbn. rewrite Ha. now apply IH.
Qed.

Lemma all_space_lstrip : forall s, Py.all_space (Py.lstrip s) = Py.all_space s.
Proof.
  induction s as [|a s IH]; [reflexivity|].
  cbn [Py.lstrip]. destruct (Py.isspace a) eqn:Ha.
  - cbn. now rewrite Ha, IH.
  - reflexivity.
Qed.

Lemma all_space_split :
  forall c s, Py.all_space s = true ->
              Forall (fun l => Py.all_space l = true) (Py.split c s).
Proof.
  intros c. induction s as [|a s IH]; intros H; [repeat constructor|].
  cbn in H. apply andb_true_iff in H. destruct H as [Ha Hs].
  specialize (IH Hs). cbn [Py.split]. destruct (Ascii.eqb a c).
  - constructor; [reflexivity|exact IH].
  - destruct (Py.split c s) as [|h t]; [repeat constructor; cbn; now rewrite Ha|].
    inversion IH as [|? ? Hh Ht]; subst.
    constructor; [cbn; now rewrite Ha, Hh|exact Ht].
Qed.

Lemma isspace_newline : Py.isspace "010"%char = true.
Proof. reflexivity. Qed.

(** [rstrip] keeps the lines up to the last one that is not blank, cuts
    the white space that ends it and drops the blank lines after it. *)
Lemma split_rstrip :
  forall s, Py.all_space s = false ->
    exists I b w2 B,
      Py.split "010"%char (Py.rstrip s) = (I ++ [b])%list
      /\ Py.split "010"%char s = (I ++ (b ++ w2)%string :: B)%list
      /\ Py.all_space w2 = true
      /\ Forall (fun l => Py.all_space l = true) B
      /\ Py.all_space b = false.
Proof.
  induction s as [|a r IH]; intros Hs; [discriminate Hs|].
  cbn [Py.rstrip]. rewrite Hs.
  destruct (Py.all_space r) eqn:Hr.
  - assert (Ha : Py.isspace a = false).
    { cbn in Hs. rewrite Hr, andb_true_r in Hs. exact Hs. }
    assert (Hnl : Ascii.eqb a "010"%char = false)
      by (apply space_not_eq; [reflexivity|exact Ha]).
    rewrite (rstrip_all_space r Hr).
    destruct (split_other_cons "010"%char a r Hnl) as (h & t & E1 & E2).
    pose proof (all_space_split "010"%char r Hr) as HF. rewrite E1 in HF.
    inversion HF as [|? ? Hh Ht]; subst.
    exists [], (String a ""), h, t. rewrite E2.
    cbn [app append Py.split]. rewrite Hnl. cbn. rewrite Ha. auto.
  - destruct (IH eq_refl) as (I & b & w2 & B & E1 & E2 & Hw & HB & Hb).
    destruct (Ascii.eqb a "010"%char) eqn:Hnl.
    + apply Ascii.eqb_eq in Hnl. subst a.
      exists ("" :: I)%list, b, w2, B. rewrite !split_sep_cons, E1, E2. auto.
    + destruct (split_other_cons "010"%char a (Py.rstrip r) Hnl) as (h' & t' & F1 & F2).
      destruct (split_other_cons "010"%char a r Hnl) as (h & t & G1 & G2).
      rewrite F2, G2. rewrite E1 in F1. rewrite E2 in G1.
      destruct I as [|i I0]; cbn [app] in F1, G1;
        injection F1 as <- <-; injection G1 as <- <-.
      * exists [], (String a b), w2, B. cbn [app append].
        repeat split; auto. cbn. now rewrite Hb, andb_false_r.
      * exists (String a i :: I0)%list, b, w2, B. cbn [app]. auto.
Qed.

(** [lstrip] drops the blank lines at the start and the white space that
    begins the first line it keeps. *)
Lemma split_lstrip :
  forall s,
    exists Bl w1 h t,
      Py.split "010"%char (Py.lstrip s) = h :: t
      /\ Py.split "010"%char s = (Bl ++ (w1 ++ h)%string :: t)%list
      /\ Forall (fun l => Py.all_space l = true) Bl
      /\ Py.all_space w1 = true.
Proof.
  induction s as [|a r IH].
  - exists [], "", "", []. cbn. auto.
  - cbn [Py.lstrip]. destruct (Py.isspace a) eqn:Ha.
    + destruct IH as (Bl & w1 & h & t & E1 & E2 & HB & Hw).
      destruct (Ascii.eqb a "010"%char) eqn:Hnl.
      * apply Ascii.eqb_eq in Hnl. subst a.
        exists ("" :: Bl)%list, w1, h, t. rewrite split_sep_cons, E1, E2.
        cbn [app]. auto.
      * destruct (split_other_cons "010"%char a r Hnl) as (x & y & G1 & G2).
        rewrite G2. rewrite E2 in G1.
        destruct Bl as [|bl Bl0]; cbn [app] in G1; injection G1 as <- <-.
        -- exists [], (String a w1), h, t. cbn [app append].
           repeat split; auto. cbn. now rewrite Ha, Hw.
        -- inversion HB as [|? ? Hbl HB0]; subst.
           exists (String a bl :: Bl0)%list, w1, h, t. cbn [app].
           repeat split; auto. constructor; [cbn; now rewrite Ha, Hbl|exact HB0].
    + destruct (Py.split "010"%char (String a r)) as [|h t] eqn:E;
        [now apply split_not_nil in E|].
      exists [], "", h, t. cbn. auto.
Qed.

Lemma last_item_app_one :
  forall (X : list string) l, Py.last_item (X ++ [l]) = Some l.
Proof. intros X l. unfold Py.last_item. now rewrite rev_app_distr. Qed.

Lemma filter_blank_nil :
  forall B, Forall (fun l => Py.all_space l = true) B ->
            filter (fun l => negb (Py.all_space l)) B = [].
Proof.
  induction B as [|x B IH]; intros H; [reflexivity|].
  inversion H as [|? ? Hx HB]; subst. cbn. rewrite Hx. cbn. auto.
Qed.

Lemma last_nonblank_in_lines :
  forall X l B,
    Py.all_space l = false ->
    Forall (fun l => Py.all_space l = true) B ->
    Py.last_item (filter (fun l => negb (Py.all_space l)) (X ++ l :: B)) = Some l.
Proof.
  intros X l B Hl HB. rewrite filter_app. cbn [filter]. rewrite Hl. cbn [negb].
  rewrite (filter_blank_nil B HB). apply last_item_app_one.
Qed.

(** The line the code tests is the specification's last non-blank line
    without the white space around it. *)
Lemma strip_last_line :
  forall out,
    (Py.all_space out = true ->
     last_nonblank_line out = None /\ Py.strip out = "")
    /\ (Py.all_space out = false ->
        exists b w1 w2,
          Py.last_item (Py.split "010"%char (Py.strip out)) = Some b
          /\ last_nonblank_line out = Some (w1 ++ b ++ w2)
          /\ Py.all_space w1 = true /\ Py.all_space w2 = true).
Proof.
  intros out. split.
  - intros H. split.
    + unfold last_nonblank_line.
      now rewrite (filter_blank_nil _ (all_space_split "010"%char out H)).
    + unfold Py.strip. now rewrite (lstrip_all_space out H).
  - intros H. unfold Py.strip, last_nonblank_line.
    destruct (split_rstrip (Py.lstrip out)) as (I & b & w2 & B & E1 & E2 & Hw2 & HB & Hb);
      [now rewrite all_space_lstrip|].
    destruct (split_lstrip out) as (Bl & w1 & h & t & F1 & F2 & HBl & Hw1).
    rewrite E1, F2, last_item_app_one. rewrite E2 in F1.
    destruct I as [|i I0]; cbn [app] in F1; injection F1 as <- <-.
    + exists b, w1, w2. split; [reflexivity|]. split; [|auto].
      apply last_nonblank_in_lines; [|exact HB].
      now rewrite !all_space_app, Hb, andb_false_r.
    + exists b, "", w2. split; [reflexivity|]. split; [|auto].
      change ("" ++ b ++ w2) with (b ++ w2).
      change (Bl ++ (w1 ++ i)%string :: I0 ++ (b ++ w2)%string :: B)%list
        with (Bl ++ ((w1 ++ i)%string :: I0) ++ (b ++ w2)%string :: B)%list.
      rewrite app_assoc. apply last_nonblank_in_lines; [|exact HB].
      now rewrite all_space_app, Hb.
Qed.

(** ** Searching a text surrounded by white space *)

Lemma startswith_space_false :
  forall k n s a,
    Py.isspace k = false -> Py.isspace a = true ->
    Py.startswith (String k n) (String a s) = false.
Proof.
  intros k n s a Hk Ha. cbn [Py.startswith]. now rewrite (space_not_eq a k Ha Hk).
Qed.

Lemma contains_space_prefix :
  forall k n w s,
    Py.isspace k = false -> Py.all_space w = true ->
    Py.contains (String k n) (w ++ s) = Py.contains (String k n) s.
Proof.
  intros k n w s Hk. induction w as [|a w IH]; intros Hw; [reflexivity|].
  cbn in Hw. apply andb_true_iff in Hw. destruct Hw as [Ha Hw].
  cbn [append Py.contains]. rewrite (startswith_space_false k n _ a Hk Ha).
  cbn [orb]. now apply IH.
Qed.

Lemma startswith_space_suffix :
  forall n x w,
    no_space n = true -> Py.all_space w = true ->
    Py.startswith n (x ++ w) = Py.startswith n x.
Proof.
  induction n as [|c n IH]; intros x w Hn Hw; [now destruct (x ++ w), x|].
  cbn in Hn. apply andb_true_iff in Hn. destruct Hn as [Hc Hn].
  apply negb_true_iff in Hc.
  destruct x as [|a x].
  - cbn [append]. destruct w as [|a w]; [reflexivity|].
    cbn in Hw. apply andb_true_iff in Hw. destruct Hw as [Ha _].
    now rewrite (startswith_space_false c n w a Hc Ha).
  - cbn [append Py.startswith]. now rewrite (IH x w Hn Hw).
Qed.

Lemma contains_space_suffix :
  forall k n s w,
    no_space (String k n) = true -> Py.all_space w = true ->
    Py.contains (String k n) (s ++ w) = Py.contains (String k n) s.
Proof.
  intros k n s w Hn Hw.
  assert (Hk : Py.isspace k = false).
  { cbn in Hn. apply andb_true_iff in Hn. destruct Hn as [Hk _].
    now apply negb_true_iff in Hk. }
  induction s as [|a s IH].
  - cbn [append]. rewrite <- (str_app_nil_r w).
    rewrite (contains_space_prefix k n w "" Hk Hw). reflexivity.
  - change (String a s ++ w) with (String a (s ++ w)).
    cbn [Py.contains].
    change (String a (s ++ w)) with (String a s ++ w).
    rewrite (startswith_space_suffix (String k n) (String a s) w Hn Hw).
    now rewrite IH.
Qed.

Lemma contains_killed_strip :
  forall w1 b w2,
    Py.all_space w1 = true -> Py.all_space w2 = true ->
    Py.contains "killed" (w1 ++ b ++ w2) = Py.contains "killed" b.
Proof.
  intros w1 b w2 H1 H2.
  rewrite (contains_space_prefix "k" "illed" w1 (b ++ w2) eq_refl H1).
  apply (contains_space_suffix "k" "illed" b w2 eq_refl H2).
Qed.

Lemma space_prefix_of_marked :
  forall w X u c Y,
    Py.all_space w = true -> Py.isspace c = false ->
    w ++ X = u ++ String c Y ->
    exists u', u = w ++ u' /\ X = u' ++ String c Y.
Proof.
  induction w as [|a w IH]; intros X u c Y Hw Hc E.
  - exists u. auto.
  - cbn in Hw. apply andb_true_iff in Hw. destruct Hw as [Ha Hw].
    destruct u as [|a' u]; cbn [append] in E; injection E as -> E.
    + congruence.
    + destruct (IH X u c Y Hw Hc E) as (u' & -> & ->). exists u'. auto.
Qed.

Lemma space_suffix_of_marked :
  forall X w Z c v,
    Py.all_space w = true -> Py.isspace c = false ->
    X ++ w = Z ++ String c v ->
    exists v', v = v' ++ w /\ X = Z ++ String c v'.
Proof.
  induction X as [|a X IH]; intros w Z c v Hw Hc E.
  - cbn [append] in E. rewrite E, all_space_app in Hw. cbn in Hw.
    rewrite Hc in Hw. cbn in Hw. now rewrite andb_false_r in Hw.
  - destruct Z as [|a' Z]; cbn [append] in E; injection E as -> E.
    + exists X. auto.
    + destruct (IH w Z c v Hw Hc E) as (v' & -> & ->). exists v'. auto.
Qed.

Lemma split_head_prefix :
  forall c x y, has_char c x = false ->
    exists h t,
      Py.split c y = h :: t /\ Py.split c (x ++ y) = (x ++ h) :: t.
Proof.
  intros c. induction x as [|a x IH]; intros y Hx.
  - destruct (Py.split c y) as [|h t] eqn:E; [now apply split_not_nil in E|].
    exists h, t. auto.
  - apply has_char_sym_false in Hx. destruct Hx as [Ha Hx].
    destruct (IH y Hx) as (h & t & E & E2).
    exists h, t. cbn [append Py.split]. rewrite Ha, E2. auto.
Qed.

Lemma mutation_score_of_last_line :
  forall out b,
    Py.last_item (Py.split "010"%char (Py.strip out)) = Some b ->
    mutation_score out
    = if Py.contains "killed" b then
        if Nat.ltb 1 (List.length (Py.split "("%char b)) then
          match list_item (Py.split "("%char b) 1 with
          | Raise e => Raise e
          | Ok p1 => list_item (Py.split ")"%char p1) 0
          end
        else Ok "N/A"
      else Ok "N/A".
Proof.
  intros out b H. unfold mutation_score.
  destruct (Py.split "010"%char (Py.strip out)) as [|l0 ls] eqn:E;
    [now apply split_not_nil in E|].
  now rewrite H.
Qed.

Lemma mutation_score_total :
  forall out, exists score, mutation_score out = Ok score.
Proof.
  intros out.
  destruct (Py.last_item (Py.split "010"%char (Py.strip out))) as [b|] eqn:L.
  - rewrite (mutation_score_of_last_line out b L).
    destruct (Py.contains "killed" b); [|eexists; reflexivity].
    destruct (Py.split "("%char b) as [|p0 [|p1 ps]]; cbn;
      try (eexists; reflexivity).
    destruct (Py.split ")"%char p1) as [|q qs] eqn:E;
      [now apply split_not_nil in E|].
    eexists; reflexivity.
  - unfold Py.last_item in L.
    destruct (Py.split "010"%char (Py.strip out)) as [|l0 ls] eqn:E;
      [now apply split_not_nil in E|].
    destruct (rev (l0 :: ls)) eqn:R; [|discriminate L].
    apply (f_equal (@List.length string)) in R. rewrite length_rev in R.
    discriminate R.
Qed.

Lemma score_of_parenthesized :
  forall u tok v,
    has_char "("%char u = false ->
    has_char "("%char tok = false ->
    has_char ")"%char tok = false ->
    let b := u ++ String "("%char (tok ++ String ")"%char v) in
    Nat.ltb 1 (List.length (Py.split "("%char b)) = true
    /\ match list_item (Py.split "("%char b) 1 with
       | Raise e => Raise e
       | Ok p1 => list_item (Py.split ")"%char p1) 0
       end = Ok tok.
Proof.
  intros u tok v Hu Ht1 Ht2 b. subst b.
  rewrite (split_app_sep "("%char u _ Hu).
  destruct (split_head_prefix "("%char tok (String ")"%char v) Ht1)
    as (h & t & E & E2).
  rewrite E2.
  destruct (split_other_cons "("%char ")"%char v eq_refl) as (h' & t' & F1 & F2).
  rewrite F2 in E. injection E as <- <-.
  split; [reflexivity|].
  cbn [list_item nth_error].
  now rewrite (split_app_sep ")"%char tok h' Ht2).
Qed.

(** ** Paths *)

Lemma components_drop_slash :
  forall r, filter keep_component (Py.split slash (String slash r))
            = filter keep_component (Py.split slash r).
Proof. intros r. rewrite split_sep_cons. reflexivity. Qed.

Lemma parse_path_parts :
  forall p, parts (parse_path p) = filter keep_component (Py.split slash p).
Proof.
  intros p. unfold parse_path, splitroot.
  destruct p as [|a r]; [reflexivity|].
  destruct (Ascii.eqb a slash) eqn:Ea; [|reflexivity].
  apply Ascii.eqb_eq in Ea. subst a. rewrite components_drop_slash.
  destruct r as [|b r']; [reflexivity|].
  destruct (Ascii.eqb b slash) eqn:Eb; [|reflexivity].
  apply Ascii.eqb_eq in Eb. subst b.
  destruct r' as [|c r'']; [reflexivity|].
  destruct (Ascii.eqb c slash); [reflexivity|].
  cbn [parts]. now rewrite components_drop_slash.
Qed.

Lemma isabs_cons :
  forall a r, isabs (String a r) = Ascii.eqb a slash.
Proof.
  intros a r. unfold isabs. cbn [Py.startswith].
  now rewrite Ascii.eqb_sym, andb_true_r.
Qed.

Lemma parse_path_anchor :
  forall p, anchor (parse_path p) = "//"
            \/ anchor (parse_path p) = (if isabs p then "/" else "").
Proof.
  intros p. destruct p as [|a r]; [right; reflexivity|].
  rewrite isabs_cons. unfold parse_path, splitroot.
  destruct (Ascii.eqb a slash); [|right; reflexivity].
  destruct r as [|b r']; [right; reflexivity|].
  destruct (Ascii.eqb b slash); [|right; reflexivity].
  destruct r' as [|c r'']; [left; reflexivity|].
  destruct (Ascii.eqb c slash); [right|left]; reflexivity.
Qed.




Lemma keep_component_truthy :
  forall c, keep_component c = true -> Py.truthy c = true.
Proof. intros c H. unfold keep_component in H. now apply andb_true_iff in H. Qed.

Lemma join_head :
  forall sep x t,
    exists tail, Py.join sep (x :: t) = x ++ tail.
Proof.
  intros sep x [|y t].
  - exists "". cbn. induction x as [|a x IH]; cbn; congruence.
  - exists (sep ++ Py.join sep (y :: t)). reflexivity.
Qed.

Lemma parse_join_components :
  forall (abs : bool) comps,
    Forall (fun x => has_char slash x = false) comps ->
    Forall (fun x => keep_component x = true) comps ->
    parse_path ((if abs then "/" else "") ++ Py.join "/" comps)
    = mkPath (if abs then "/" else "") comps.
Proof.
  intros abs comps Hns Hkeep.
  set (j := Py.join "/" comps).
  assert (Hsplit : filter keep_component (Py.split slash j) = comps).
  { subst j. destruct comps as [|x t]; [reflexivity|].
    change "/" with (String slash ""). rewrite split_join; [|discriminate|exact Hns].
    apply forallb_filter_id. apply forallb_forall.
    rewrite Forall_forall in Hkeep. exact Hkeep. }
  assert (Hhead : j = "" \/ exists a j', j = String a j' /\ Ascii.eqb a slash = false).
  { subst j. destruct comps as [|x t]; [left; reflexivity|]. right.
    destruct (join_head "/" x t) as (tail & ->).
    inversion Hns as [|? ? Hx _]; inversion Hkeep as [|? ? Kx _]; subst.
    apply keep_component_truthy in Kx.
    destruct x as [|a x']; [discriminate Kx|].
    apply has_char_sym_false in Hx. destruct Hx as [Ha _].
    exists a, (x' ++ tail). split; [reflexivity|exact Ha]. }
  unfold parse_path, splitroot.
  destruct abs; cbn [append].
  - rewrite Ascii.eqb_refl.
    destruct Hhead as [E|(a & j' & E & Ha)]; rewrite E in *.
    + rewrite Hsplit. reflexivity.
    + rewrite Ha, Hsplit. reflexivity.
  - destruct Hhead as [E|(a & j' & E & Ha)]; rewrite E in *.
    + rewrite Hsplit. reflexivity.
    + rewrite Ha, Hsplit. reflexivity.
Qed.

Lemma components_clean :
  forall p,
    Forall (fun x => has_char slash x = false)
           (filter keep_component (Py.split slash p))
    /\ Forall (fun x => keep_component x = true)
              (filter keep_component (Py.split slash p)).
Proof.
  intros p. split.
  - apply filter_keeps_Forall, split_pieces_no_sep.
  - apply Forall_forall. intros x Hx. apply filter_In in Hx. tauto.
Qed.



(** ** The file system *)

Lemma walk_preserved :
  forall (fs1 fs2 : FS) comps cur k,
    (forall q, fs1 q = Some Dir -> fs2 q = Some Dir) ->
    walk fs1 cur comps = inr k -> walk fs2 cur comps = inr k.
Proof.
  intros fs1 fs2 comps.
  induction comps as [|c rest IH]; intros cur k Hd H; [exact H|].
  cbn [walk] in *.
  destruct (fs1 cur) as [[|content]|] eqn:E; try discriminate H.
  rewrite (Hd _ E). apply IH; assumption.
Qed.

Lemma key_eqb_refl : forall k, key_eqb k k = true.
Proof.
  intros k. unfold key_eqb. destruct (list_eq_dec string_dec k k); congruence.
Qed.

Lemma key_eqb_eq : forall p q, key_eqb p q = true -> p = q.
Proof.
  intros p q. unfold key_eqb.
  destruct (list_eq_dec string_dec p q); [trivial | discriminate].
Qed.

Lemma write_then_read :
  forall p content fs1 fs2,
    write_text p content fs1 = (Ok tt, fs2) -> read_text p fs2 = Ok content.
Proof.
  intros p content fs1 fs2 H. unfold write_text in H. unfold read_text.
  destruct (walk fs1 [] (parts p)) as [e|k] eqn:W; [discriminate H|].
  assert (Hset : fs2 = fs_set fs1 k (File content) /\ fs1 k <> Some Dir).
  { destruct (fs1 k) as [[|c]|]; try discriminate H;
      injection H as <-; split; congruence. }
  destruct Hset as [-> Hk].
  rewrite (walk_preserved fs1 (fs_set fs1 k (File content)) (parts p) [] k).
  - unfold fs_set. now rewrite key_eqb_refl.
  - intros q Hq. unfold fs_set.
    destruct (key_eqb k q) eqn:Q; [|exact Hq].
    apply key_eqb_eq in Q. subst q. contradiction.
  - exact W.
Qed.

(** ** The temporary directory *)

Lemma is_prefix_app : forall a b, is_prefix a (a ++ b) = true.
Proof.
  induction a as [|x a IH]; intros b; [reflexivity|].
  cbn. now rewrite String.eqb_refl, IH.
Qed.

Lemma is_prefix_refl : forall r, is_prefix r r = true.
Proof. intros r. rewrite <- (app_nil_r r) at 2. apply is_prefix_app. Qed.

Lemma is_prefix_app_l :
  forall a b r, is_prefix (a ++ b) r = true -> is_prefix a r = true.
Proof.
  induction a as [|x a IH]; intros b r H; [reflexivity|].
  destruct r as [|y r]; [discriminate H|].
  cbn in *. apply andb_true_iff in H. destruct H as [H1 H2].
  rewrite H1. cbn. eapply IH, H2.
Qed.

Lemma is_prefix_removelast : forall r, is_prefix (removelast r) r = true.
Proof.
  intros r. destruct r as [|x r]; [reflexivity|].
  rewrite (app_removelast_last "" (l := x :: r)) at 2 by discriminate.
  apply is_prefix_app.
Qed.

Lemma normpath_rev_clean :
  forall comps acc, Forall not_dotdot acc -> Forall not_dotdot (normpath_rev acc comps).
Proof.
  induction comps as [|c rest IH]; intros acc H; [exact H|].
  cbn [normpath_rev]. destruct (keep_component c); [|now apply IH].
  destruct (String.eqb c "..") eqn:E.
  - apply IH. destruct acc; [constructor|]. inversion H; assumption.
  - apply IH. constructor; assumption.
Qed.

Lemma normpath_clean : forall comps, Forall not_dotdot (normpath comps).
Proof.
  intros comps. unfold normpath. apply Forall_rev, normpath_rev_clean. constructor.
Qed.

Section TemporaryDirectory.

(** The host on which the pipeline runs. *)
Variable w : World.

Lemma walk_inside_temp_dir :
  forall x cur,
    is_prefix (cur ++ x) (parts (project_root_of w)) = true ->
    Forall not_dotdot x ->
    walk (fs (enter_temp_dir w)) cur x = inr (cur ++ x)%list.
Proof.
  induction x as [|c rest IH]; intros cur Hp Hc.
  - now rewrite app_nil_r.
  - inversion Hc as [|? ? Hd Hrest]; subst. cbn [walk].
    cbn [enter_temp_dir fs]. rewrite (is_prefix_app_l cur (c :: rest) _ Hp).
    unfold not_dotdot in Hd. rewrite Hd.
    rewrite IH; [now rewrite <- app_assoc| now rewrite <- app_assoc | exact Hrest].
Qed.

Lemma temp_dir_prefix_is_dir :
  forall q, is_prefix q (parts (project_root_of w)) = true ->
            fs (enter_temp_dir w) q = Some Dir.
Proof. intros q H. cbn [enter_temp_dir fs]. now rewrite H. Qed.

Lemma removelast_Forall :
  forall (P : string -> Prop) l, Forall P l -> Forall P (removelast l).
Proof.
  intros P. induction l as [|x l IH]; intros H; [constructor|].
  inversion H; subst. destruct l as [|y l]; [constructor|].
  change (removelast (x :: y :: l)) with (x :: removelast (y :: l)).
  constructor; auto.
Qed.




End TemporaryDirectory.

(** ** The log of started processes *)

Lemma calls_extend_ret :
  forall A P (a : A), calls_extend P (ret a).
Proof.
  intros A P a st. exists []. cbn. rewrite app_nil_r. auto.
Qed.

Lemma calls_extend_lift :
  forall A P (r : result A), calls_extend P (lift r).
Proof.
  intros A P r st. exists []. cbn. rewrite app_nil_r. auto.
Qed.

Lemma calls_extend_on_fs :
  forall A P (op : FS -> result A * FS), calls_extend P (on_fs op).
Proof.
  intros A P op st. exists []. unfold on_fs.
  destruct (op (fs st)) as [r fs']. cbn. rewrite app_nil_r. auto.
Qed.

Lemma calls_extend_bind :
  forall A B P (c : M A) (k : A -> M B),
    calls_extend P c -> (forall a, calls_extend P (k a)) ->
    calls_extend P (bind c k).
Proof.
  intros A B P c k Hc Hk st. unfold bind.
  destruct (Hc st) as (l1 & E1 & F1).
  destruct (c st) as [[a|e] st1]; cbn [snd] in E1.
  - destruct (Hk a st1) as (l2 & E2 & F2).
    exists (l1 ++ l2)%list. rewrite E2, E1, app_assoc.
    split; [reflexivity | apply Forall_app; auto].
  - exists l1. cbn [snd]. auto.
Qed.

Lemma calls_extend_subprocess_run :
  forall (P : list string -> Prop) w command cwd,
    P command -> calls_extend P (subprocess_run w command cwd).
Proof.
  intros P w command cwd HP st. exists [command]. unfold subprocess_run.
  destruct (run_process w command cwd st) as [r fs']. cbn. auto.
Qed.

Create HintDb calls_log.
#[local] Hint Resolve calls_extend_ret calls_extend_lift calls_extend_on_fs
  calls_extend_subprocess_run : calls_log.

(** Walks through a monadic term, leaving only the goals the database
    cannot close. *)
Ltac calls_log :=
  repeat first
    [ solve [auto with calls_log]
    | apply calls_extend_bind; [|intros ?]
    | match goal with
      | |- calls_extend _ (if ?b then _ else _) => destruct b
      | |- calls_extend _ (match ?x with _ => _ end) => destruct x
      end ].

Lemma setup_loop_calls :
  forall P root common contents paths i sp mn,
    calls_extend P (setup_loop root common contents paths i sp mn).
Proof.
  intros P root common contents paths.
  induction contents as [|content rest IH]; intros i sp mn; cbn [setup_loop];
    calls_log.
Qed.

Lemma setup_calls :
  forall P root contents paths,
    calls_extend P (_setup_project_structure root contents paths).
Proof.
  intros P root contents paths. unfold _setup_project_structure.
  pose proof (setup_loop_calls P root) as Hloop. calls_log.
Qed.

Lemma pynguin_loop_calls :
  forall w pp op modules g errs,
    calls_extend is_pynguin (pynguin_loop w pp op modules g errs).
Proof.
  intros w pp op modules.
  induction modules as [|m rest IH]; intros g errs; cbn [pynguin_loop];
    calls_log.
  apply calls_extend_subprocess_run. reflexivity.
Qed.

Lemma run_test_generation_calls :
  forall w pp op modules,
    calls_extend is_pynguin (_run_test_generation w pp op modules).
Proof.
  intros w pp op modules. unfold _run_test_generation.
  pose proof (pynguin_loop_calls w pp op modules) as Hloop. calls_log.
Qed.

Lemma ai_try_body_calls :
  forall w tp i code filename gtd st,
    calls (snd (ai_try_body w tp i code filename gtd st)) = calls st.
Proof.
  intros w tp i code filename gtd st. unfold ai_try_body.
  destruct (generate_content w i code) as [response|e]; [|reflexivity].
  destruct (candidates response); [reflexivity|].
  destruct (text response) as [test_code|e]; [|reflexivity].
  destruct (Py.truthy _); [|reflexivity].
  unfold on_fs. destruct (write_text _ _ (fs st)) as [[u|e] fs']; reflexivity.
Qed.

Lemma ai_loop_calls :
  forall P w tp contents paths i g errs gtd,
    calls_extend P (ai_loop w tp contents paths i g errs gtd).
Proof.
  intros P w tp contents paths.
  induction contents as [|code rest IH]; intros i g errs gtd; cbn [ai_loop].
  - apply calls_extend_ret.
  - apply calls_extend_bind; [apply calls_extend_lift|]. intros p st.
    pose proof (ai_try_body_calls w tp i code (basename p) gtd st) as Hc.
    destruct (ai_try_body w tp i code (basename p) gtd st)
      as [[[u|e] gtd1] st1]; cbn [snd] in Hc; rewrite <- Hc; apply IH.
Qed.

Lemma run_ai_test_generation_calls :
  forall P w tp contents paths,
    calls_extend P (_run_ai_test_generation w tp contents paths).
Proof.
  intros P w tp contents paths. unfold _run_ai_test_generation.
  destruct (negb _); [apply calls_extend_ret|].
  apply calls_extend_bind; [apply ai_loop_calls|].
  intros [[g errs] gtd]. apply calls_extend_ret.
Qed.

(** ** The materializer's module list *)

Lemma skipn_nth_error :
  forall (l : list string) i p,
    nth_error l i = Some p -> skipn i l = p :: skipn (S i) l.
Proof.
  induction l as [|x l IH]; intros i p H.
  - destruct i; discriminate H.
  - destruct i as [|i]; cbn in H.
    + injection H as ->. reflexivity.
    + cbn [skipn]. rewrite (IH i p H). reflexivity.
Qed.

Lemma setup_loop_lengths :
  forall root common contents paths i sp mn st sp' mn' st',
    setup_loop root common contents paths i sp mn st = (Ok (sp', mn'), st') ->
    let python_units :=
      filter is_python_path (firstn (List.length contents) (skipn i paths)) in
    List.length mn' = List.length mn + List.length python_units
    /\ List.length sp' = List.length sp + List.length python_units.
Proof.
  intros root common contents paths.
  induction contents as [|content rest IH]; intros i sp mn st sp' mn' st' H.
  - cbn in H. unfold ret in H. injection H as <- <- _. cbn. lia.
  - cbn [setup_loop] in H. cbv [bind lift] in H. unfold list_item in H.
    destruct (nth_error paths i) as [p|] eqn:Hp; [|discriminate H].
    rewrite (skipn_nth_error paths i p Hp).
    cbn [List.length firstn filter].
    destruct (is_python_path p) eqn:Epy;
      unfold is_python_path in Epy; rewrite Epy in H; cbn [negb] in H.
    + destruct (relative_to (parse_path p) common) as [rel|e]; [|discriminate H].
      destruct (on_fs (mkdir_parents _) st) as [[u|e] st1]; [|discriminate H].
      destruct (on_fs (write_text _ _) st1) as [[u2|e] st2]; [|discriminate H].
      destruct (with_suffix_empty rel) as [stem|e]; [|discriminate H].
      apply IH in H. cbv zeta in H. rewrite !length_app in H.
      cbn [List.length] in *. lia.
    + apply IH in H. exact H.
Qed.

(** C7: a single selected Python file is never materialized.  Its path is
    its own common prefix, its relative path is empty, and writing its
    contents onto the Workspace root raises IsADirectoryError instead of
    returning the one-element module list; whenever the materializer does
    return, the module list has one name per unit whose path carries the
    .py suffix. *)
Theorem C7_single_python_file_raises :
  _setup_project_structure (project_root_of quiet_world)
    ["def add(a, b): return a + b"] ["/proj/calc.py"] (enter_temp_dir quiet_world)
  = (Raise (mkExn "IsADirectoryError" "[Errno 21] Is a directory: '/tmp/tmpq3v8x1'"),
     enter_temp_dir quiet_world)
  /\ List.length (filter is_python_path ["/proj/calc.py"]) = 1
  /\ (forall root contents paths st source_paths module_names st',
         _setup_project_structure root contents paths st
         = (Ok (source_paths, module_names), st') ->
         List.length module_names
         = List.length (filter is_python_path
                          (firstn (List.length contents) paths))).
Proof.
  split; [|split; [reflexivity|]].
  - reflexivity.
  - intros root contents paths st sp mn st' H.
    unfold _setup_project_structure in H. cbv [bind lift] in H.
    destruct (match paths with [] => Ok "." | _ :: _ => commonpath paths end)
      as [common_base|e]; [|discriminate H].
    destruct (setup_loop root (parse_path common_base) contents paths 0 [] [] st)
      as [[[sp0 mn0]|e] st1] eqn:Hloop; [|discriminate H].
    unfold on_fs, ret in H. injection H as <- <- _.
    apply setup_loop_lengths in Hloop. cbv zeta in Hloop. cbn [skipn] in Hloop.
    destruct Hloop as [Hmn _]. exact Hmn.
Qed.

Lemma C7_single_python_file_raises_witness :
  exists st',
    _setup_project_structure (project_root_of quiet_world)
      ["x = 1"; "y = 2"; "notes"] ["/proj/a.py"; "/proj/pkg/b.py"; "/proj/README.md"]
      (enter_temp_dir quiet_world)
    = (Ok (["/tmp/tmpq3v8x1/a.py"; "/tmp/tmpq3v8x1/pkg/b.py"], ["a"; "pkg.b"]), st')
    /\ List.length ["a"; "pkg.b"]
       = List.length (filter is_python_path
                        (firstn 3 ["/proj/a.py"; "/proj/pkg/b.py"; "/proj/README.md"])).
Proof.
  eexists. split; [reflexivity|].
  destruct C7_single_python_file_raises as (_ & _ & H).
  apply (H (project_root_of quiet_world) ["x = 1"; "y = 2"; "notes"]
           ["/proj/a.py"; "/proj/pkg/b.py"; "/proj/README.md"]
           (enter_temp_dir quiet_world)
           ["/tmp/tmpq3v8x1/a.py"; "/tmp/tmpq3v8x1/pkg/b.py"] ["a"; "pkg.b"] _ eq_refl).
Defined.

(** ** The materializer on a single path *)



Lemma pipeline_fails_without_sources :
  forall w contents paths st',
    (exists e, _setup_project_structure (project_root_of w) contents paths
                 (enter_temp_dir w) = (Raise e, st'))
    \/ (exists module_names,
           _setup_project_structure (project_root_of w) contents paths
             (enter_temp_dir w) = (Ok ([], module_names), st')) ->
    overall_status (run_testing_pipeline w contents paths) = Some (PStr "Failure").
Proof.
  intros w contents paths st' [(e & H)|(mn & H)];
    unfold run_testing_pipeline, run_testing_pipeline_in, try_body;
    rewrite H; reflexivity.
Qed.



(** ** The search-based generator *)

Lemma pynguin_loop_runs :
  forall w pp op modules g errs st g' errs' st',
    pynguin_loop w pp op modules g errs st = (Ok (g', errs'), st') ->
    g' = (g + Z.of_nat (List.length (filter exited_zero
                                      (pynguin_runs w pp op modules st))))%Z
    /\ List.length (pynguin_runs w pp op modules st) = List.length modules.
Proof.
  intros w pp op modules.
  induction modules as [|m rest IH]; intros g errs st g' errs' st' H.
  - cbn in H. unfold ret in H. injection H as <- _ _. cbn. split; [lia|reflexivity].
  - cbn [pynguin_loop pynguin_runs] in *. unfold bind in H.
    destruct (subprocess_run w (pynguin_command pp op m) None st)
      as [[p|e] st1]; [|discriminate H].
    cbn [filter exited_zero List.length].
    destruct (returncode p =? 0)%Z.
    + apply IH in H. destruct H as [-> Hlen]. cbn [List.length].
      split; [lia | now rewrite Hlen].
    + apply IH in H. destruct H as [-> Hlen].
      split; [reflexivity | cbn; now rewrite Hlen].
Qed.

(** C2, as stated, fails: a generator process that exits with status 0
    and writes nothing makes the stage report success although no module
    produced any output. *)
Lemma C2_success_without_output :
  ~ (forall w pp op modules st r st',
        _run_test_generation w pp op modules st = (Ok r, st') ->
        (dict_get "success" r = Some (PBool true)
         <-> produced_output (fs st) (fs st') op)).
Proof.
  intros H.
  specialize (H quiet_world (project_root_of quiet_world)
                (path_join (project_root_of quiet_world) (parse_path "tests"))
                ["a"] (enter_temp_dir quiet_world) _ _ eq_refl).
  destruct H as [H _]. specialize (H eq_refl).
  destruct H as (name & n & Hafter & Hbefore).
  apply Hbefore. exact Hafter.
Qed.

(** C2 (amended): when the search-based stage returns, its [success] is
    true iff at least one module's generator process exited with status 0;
    the reported success equals (count of processes that exited 0) > 0,
    which is also the reported number of generated suites. *)
Theorem C2_success_counts_zero_exits :
  forall w pp op modules st r st',
    _run_test_generation w pp op modules st = (Ok r, st') ->
    let runs := pynguin_runs w pp op modules st in
    let exited0 := Z.of_nat (List.length (filter exited_zero runs)) in
    dict_get "success" r = Some (PBool (exited0 >? 0)%Z)
    /\ (dict_get "success" r = Some (PBool true)
        <-> exists x, In x runs /\ exited_zero x = true)
    /\ dict_get "test_suites_generated" r = Some (PInt exited0)
    /\ List.length runs = List.length modules.
Proof.
  intros w pp op modules st r st' H runs exited0.
  unfold _run_test_generation, bind in H.
  destruct (pynguin_loop w pp op modules 0 [] st) as [[[g errs]|e] st1] eqn:E;
    [|discriminate H].
  unfold ret in H. injection H as <- _.
  apply pynguin_loop_runs in E. destruct E as [-> Hlen].
  fold runs in Hlen |- *. fold exited0.
  cbn [dict_get String.eqb Ascii.eqb Bool.eqb].
  replace (0 + exited0)%Z with exited0 by lia.
  repeat split; trivial.
  - intros Hs. injection Hs as Hs.
    destruct (filter exited_zero runs) as [|x l] eqn:F.
    + subst exited0. cbn in Hs. discriminate.
    + exists x. apply filter_In. rewrite F. left; reflexivity.
  - intros (x & Hin & Hx). do 2 f_equal.
    assert (Hf : In x (filter exited_zero runs)) by (apply filter_In; tauto).
    subst exited0. destruct (filter exited_zero runs); [destruct Hf|].
    cbn [List.length]. rewrite Z.gtb_ltb. apply Z.ltb_lt. lia.
Qed.

Lemma C2_success_counts_zero_exits_witness :
  let w := quiet_world in
  let root := project_root_of w in
  let tests := path_join root (parse_path "tests") in
  exists r st',
    _run_test_generation w root tests ["a"; "b"] (enter_temp_dir w) = (Ok r, st')
    /\ dict_get "success" r = Some (PBool true)
    /\ dict_get "test_suites_generated" r = Some (PInt 2).
Proof.
  intros w root tests. eexists. eexists. split; [reflexivity|].
  destruct (C2_success_counts_zero_exits w root tests ["a"; "b"]
              (enter_temp_dir w) _ _ eq_refl) as (Hs & _ & Hn & _).
  split; [exact Hs | exact Hn].
Defined.

(** ** The AI-prompted generator: extraction of the test code *)

Lemma has_char_cons_false :
  forall c a s, has_char c (String a s) = false ->
                Ascii.eqb c a = false /\ has_char c s = false.
Proof.
  intros c a s H. cbn in H. apply orb_false_iff in H.
  rewrite Ascii.eqb_sym. exact H.
Qed.

Lemma startswith_backtick_false :
  forall p s, has_char backtick s = false ->
              Py.startswith (String backtick p) s = false.
Proof.
  intros p [|a s] H; [reflexivity|].
  apply has_char_cons_false in H. destruct H as [H _].
  cbn [Py.startswith]. now rewrite H.
Qed.

Lemma before_last_no_backtick :
  forall s, has_char backtick s = false -> before_last fence_close s = None.
Proof.
  induction s as [|a s IH]; intros H; [reflexivity|].
  cbn [before_last]. rewrite IH by (apply has_char_cons_false in H; tauto).
  change fence_close with (String backtick "``").
  now rewrite (startswith_backtick_false "``" (String a s) H).
Qed.

Lemma before_last_single_close :
  forall body post,
    has_char backtick body = false -> has_char backtick post = false ->
    before_last fence_close (body ++ fence_close ++ post) = Some body.
Proof.
  induction body as [|a body IH]; intros post Hb Hp.
  - cbn [append fence_close before_last].
    rewrite (before_last_no_backtick post Hp).
    destruct post as [|c post]; [reflexivity|].
    apply has_char_cons_false in Hp. destruct Hp as [Hc _].
    cbn -[Ascii.eqb]. fold backtick. rewrite Hc.
    rewrite !Ascii.eqb_refl. reflexivity.
  - cbn [append before_last].
    rewrite IH by (try apply has_char_cons_false in Hb; tauto). reflexivity.
Qed.

Lemma re_search_fence_skip :
  forall pre t, has_char backtick pre = false ->
                re_search_fence (pre ++ t) = re_search_fence t.
Proof.
  induction pre as [|a pre IH]; intros t H; [reflexivity|].
  apply has_char_cons_false in H. destruct H as [Ha Hpre].
  cbn [append re_search_fence]. unfold match_fence_here at 1.
  change fence_open with (String backtick ("``python" ++ nl)) at 1.
  cbn [Py.startswith]. rewrite Ha. cbn [andb].
  apply IH, Hpre.
Qed.

Lemma re_search_fence_none :
  forall s, Py.contains fence_open s = false -> re_search_fence s = None.
Proof.
  induction s as [|a s IH]; intros H; [reflexivity|].
  cbn [Py.contains] in H. apply orb_false_iff in H. destruct H as [H1 H2].
  cbn [re_search_fence]. unfold match_fence_here. rewrite H1. apply IH, H2.
Qed.

(** C5, as stated, fails: a completion whose code block is fenced without
    the "python" tag is kept whole, fences included, instead of being
    reduced to the block's contents. *)
Lemma C5_untagged_block_not_extracted :
  ~ (forall completion,
        completion <> "" ->
        cleaned_code_of completion = extraction_as_specified completion).
Proof.
  intros H. specialize (H untagged_completion).
  assert (Hne : untagged_completion <> "") by discriminate.
  specialize (H Hne). vm_compute in H. discriminate H.
Qed.

Lemma match_fence_here_open :
  forall rest, match_fence_here (fence_open ++ rest) = before_last fence_close rest.
Proof. reflexivity. Qed.

Lemma re_search_fence_here :
  forall s g, match_fence_here s = Some g -> re_search_fence s = Some g.
Proof.
  intros [|a s] g H; cbn [re_search_fence]; now rewrite H.
Qed.

Lemma cleaned_code_of_single_block :
  forall pre body post,
    has_char backtick pre = false ->
    has_char backtick body = false ->
    has_char backtick post = false ->
    cleaned_code_of (pre ++ fence_open ++ body ++ fence_close ++ post)
    = Py.strip body.
Proof.
  intros pre body post Hpre Hbody Hpost. unfold cleaned_code_of.
  rewrite (re_search_fence_skip pre _ Hpre).
  rewrite (re_search_fence_here (fence_open ++ body ++ fence_close ++ post) body).
  - reflexivity.
  - rewrite match_fence_here_open.
    apply before_last_single_close; assumption.
Qed.

Lemma truthy_false_iff : forall s, Py.truthy s = false <-> s = "".
Proof. intros [|a s]; cbn; split; congruence. Qed.

Lemma before_last_none_iff :
  forall p s, before_last p s = None <-> Py.contains p s = false.
Proof.
  intros p. induction s as [|a s IH].
  - cbn. rewrite orb_false_r. destruct (Py.startswith p ""); split; congruence.
  - cbn [before_last Py.contains].
    destruct (before_last p s) as [t|].
    + split; [discriminate|]. intros H. apply orb_false_iff in H.
      destruct H as [_ H]. apply IH in H. discriminate H.
    + assert (Hs : Py.contains p s = false) by now apply IH.
      rewrite Hs, orb_false_r.
      destruct (Py.startswith p (String a s)); split; congruence.
Qed.

Lemma startswith_app_pattern :
  forall p q s, Py.startswith (p ++ q) s = true -> Py.startswith p s = true.
Proof.
  induction p as [|a p IH]; intros q s H; [now destruct s|].
  destruct s as [|b s]; [discriminate H|].
  cbn in H |- *. apply andb_true_iff in H. destruct H as [H1 H2].
  rewrite H1. cbn. exact (IH q s H2).
Qed.

Lemma contains_app_pattern :
  forall p q s, Py.contains p s = false -> Py.contains (p ++ q) s = false.
Proof.
  intros p q. induction s as [|a s IH]; intros H.
  - cbn in H |- *. rewrite orb_false_r in H |- *.
    destruct (Py.startswith (p ++ q) "") eqn:E; [|reflexivity].
    apply startswith_app_pattern in E. congruence.
  - cbn [Py.contains] in H |- *. apply orb_false_iff in H. destruct H as [H1 H2].
    rewrite (IH H2), orb_false_r.
    destruct (Py.startswith (p ++ q) (String a s)) eqn:E; [|reflexivity].
    apply startswith_app_pattern in E. congruence.
Qed.

Lemma re_search_fence_no_close :
  forall s, Py.contains fence_close s = false -> re_search_fence s = None.
Proof.
  intros s H. apply re_search_fence_none.
  exact (contains_app_pattern fence_close ("python" ++ nl) s H).
Qed.

Lemma startswith_decompose :
  forall p s, Py.startswith p s = true -> s = p ++ Py.drop (String.length p) s.
Proof.
  induction p as [|a p IH]; intros s H; [now destruct s|].
  destruct s as [|b s]; [discriminate H|].
  cbn in H. apply andb_true_iff in H. destruct H as [H1 H2].
  apply Ascii.eqb_eq in H1. subst b. cbn. f_equal. exact (IH s H2).
Qed.

Lemma re_search_fence_spec :
  forall s,
    re_search_fence s
    = match find_after fence_open s with
      | Some rest => before_last fence_close rest
      | None => None
      end.
Proof.
  induction s as [|a s IH]; [reflexivity|].
  cbn [re_search_fence find_after]. unfold match_fence_here.
  destruct (Py.startswith fence_open (String a s)) eqn:Sw; [|exact IH].
  destruct (before_last fence_close
              (Py.drop (String.length fence_open) (String a s))) as [g|] eqn:B;
    [reflexivity|].
  apply re_search_fence_no_close.
  apply before_last_none_iff in B.
  apply startswith_decompose in Sw.
  remember (Py.drop (String.length fence_open) (String a s)) as rest eqn:Hrest.
  clear Hrest IH.
  change (fence_open ++ rest)
    with (String backtick (("``python" ++ nl) ++ rest)) in Sw.
  injection Sw as _ ->. exact B.
Qed.

Lemma before_last_last_close :
  forall body post,
    Py.contains fence_close ("``" ++ post) = false ->
    before_last fence_close (body ++ fence_close ++ post) = Some body.
Proof.
  induction body as [|a body IH]; intros post H.
  - change ("" ++ fence_close ++ post) with (String backtick ("``" ++ post)).
    cbn [before_last].
    replace (before_last fence_close ("``" ++ post)) with (@None string)
      by (symmetry; now apply before_last_none_iff).
    reflexivity.
  - change (String a body ++ fence_close ++ post)
      with (String a (body ++ fence_close ++ post)).
    cbn [before_last]. now rewrite IH.
Qed.

Lemma find_after_fence_skip :
  forall pre t, has_char backtick pre = false ->
                find_after fence_open (pre ++ fence_open ++ t) = Some t.
Proof.
  induction pre as [|a pre IH]; intros t H.
  - change ("" ++ fence_open ++ t) with (fence_open ++ t).
    unfold fence_open, nl. cbn. now destruct t.
  - apply has_char_cons_false in H. destruct H as [Ha Hpre].
    change (String a pre ++ fence_open ++ t)
      with (String a (pre ++ fence_open ++ t)).
    cbn [find_after].
    change fence_open with (String backtick ("``python" ++ nl)) at 1.
    cbn [Py.startswith]. rewrite Ha. cbn [andb]. now apply IH.
Qed.

(** C5 (amended): the extraction recognises only an opening fence tagged
    "python" (three backticks, "python", a newline).  A completion
    without such a fence, or in which no run of three backticks follows
    the first one, is used whole, stripped.  Otherwise the code is the
    text between the first tagged opening fence and the last run of three
    backticks of the completion, stripped: with prose free of backticks
    before a tagged block and no further run of three backticks after its
    closing fence, these are exactly the block's contents.  An empty
    result makes the unit's [try] block raise "Gemini returned a valid but
    empty response.", which the loop appends to the error list before
    going on with the next unit; and a non-empty result is what the stage
    records and, when the write succeeds, what the unit's test file
    holds. *)
Theorem C5_extraction_of_tagged_block :
  (forall completion,
      Py.contains fence_open completion = false ->
      cleaned_code_of completion = Py.strip completion)
  /\ (forall completion rest,
         find_after fence_open completion = Some rest ->
         (Py.contains fence_close rest = false ->
          cleaned_code_of completion = Py.strip completion)
         /\ (forall body post,
                rest = body ++ fence_close ++ post ->
                Py.contains fence_close ("``" ++ post) = false ->
                cleaned_code_of completion = Py.strip body))
  /\ (forall pre body post,
         has_char backtick pre = false ->
         Py.contains fence_close ("``" ++ post) = false ->
         cleaned_code_of (pre ++ fence_open ++ body ++ fence_close ++ post)
         = Py.strip body)
  /\ (forall w tests_path i code p gtd st response completion,
         generate_content w i code = Ok response ->
         candidates response <> [] ->
         text response = Ok completion ->
         let filename := basename p in
         let test_file :=
           path_join tests_path (parse_path ("test_gemini_" ++ filename)) in
         (cleaned_code_of completion = "" ->
          forall rest file_paths generated_files errors,
            nth_error file_paths i = Some p ->
            ai_loop w tests_path (code :: rest) file_paths i
              generated_files errors gtd st
            = ai_loop w tests_path rest file_paths (S i) generated_files
                (errors ++ [PDict [("file", PStr filename);
                                   ("error",
                                    PStr "Gemini returned a valid but empty response.")]])
                gtd st)
         /\ (cleaned_code_of completion <> "" ->
             exists r st',
               ai_try_body w tests_path i code filename gtd st
               = ((r, (gtd ++ [PDict [("filename", PStr filename);
                                      ("code", PStr (cleaned_code_of completion))]])%list),
                  st')
               /\ (r = Ok tt ->
                   read_text test_file (fs st') = Ok (cleaned_code_of completion)))).
Proof.
  assert (Hfirst : forall completion rest,
             find_after fence_open completion = Some rest ->
             (Py.contains fence_close rest = false ->
              cleaned_code_of completion = Py.strip completion)
             /\ (forall body post,
                    rest = body ++ fence_close ++ post ->
                    Py.contains fence_close ("``" ++ post) = false ->
                    cleaned_code_of completion = Py.strip body)).
  { intros completion rest Hf. unfold cleaned_code_of.
    rewrite re_search_fence_spec, Hf. split.
    - intros Hc. apply before_last_none_iff in Hc. now rewrite Hc.
    - intros body post -> Hp. now rewrite (before_last_last_close body post Hp). }
  split; [|split; [exact Hfirst|split]].
  - intros completion H. unfold cleaned_code_of.
    now rewrite (re_search_fence_none completion H).
  - intros pre body post Hpre Hpost.
    exact (proj2 (Hfirst _ _ (find_after_fence_skip pre _ Hpre)) body post
             eq_refl Hpost).
  - intros w tp i code p gtd st response completion Hg Hc Ht filename test_file.
    split.
    + intros Hempty rest file_paths g errs Hp.
      cbn [ai_loop]. unfold bind, lift, list_item. rewrite Hp.
      fold filename. unfold ai_try_body. rewrite Hg.
      destruct (candidates response) as [|c cs]; [congruence|].
      rewrite Ht, Hempty. reflexivity.
    + intros Hne. unfold ai_try_body. rewrite Hg.
      destruct (candidates response) as [|c cs]; [congruence|].
      rewrite Ht.
      destruct (Py.truthy (cleaned_code_of completion)) eqn:T;
        [|apply truthy_false_iff in T; contradiction].
      fold test_file. unfold on_fs.
      destruct (write_text test_file (cleaned_code_of completion) (fs st))
        as [[u|e] fs'] eqn:W.
      * eexists. eexists. split; [reflexivity|]. intros _. cbn [fs].
        destruct u. apply (write_then_read _ _ _ _ W).
      * eexists. eexists. split; [reflexivity|]. discriminate.
Qed.

Lemma C5_extraction_of_tagged_block_witness :
  cleaned_code_of ("Run `pytest` on this:" ++ nl ++ fence_open
                   ++ "def test_add(): assert add(1, 2) == 3" ++ nl
                   ++ fence_close ++ nl ++ "It uses `add`.")
  = "def test_add(): assert add(1, 2) == 3"
  /\ cleaned_code_of (fence_open ++ "assert add(1, 2) == 3" ++ nl)
     = "```python" ++ nl ++ "assert add(1, 2) == 3"
  /\ cleaned_code_of ("  no code at all  " ++ nl) = "no code at all".
Proof.
  destruct C5_extraction_of_tagged_block as (Hraw & Hfirst & _ & _).
  split; [|split].
  - destruct (Hfirst ("Run `pytest` on this:" ++ nl ++ fence_open
                      ++ "def test_add(): assert add(1, 2) == 3" ++ nl
                      ++ fence_close ++ nl ++ "It uses `add`.")
                     (("def test_add(): assert add(1, 2) == 3" ++ nl)
                      ++ fence_close ++ nl ++ "It uses `add`.") eq_refl)
      as [_ Hblock].
    exact (Hblock ("def test_add(): assert add(1, 2) == 3" ++ nl)
                  (nl ++ "It uses `add`.") eq_refl eq_refl).
  - destruct (Hfirst (fence_open ++ "assert add(1, 2) == 3" ++ nl)
                     ("assert add(1, 2) == 3" ++ nl) eq_refl) as [Hopen _].
    exact (Hopen eq_refl).
  - apply (Hraw ("  no code at all  " ++ nl)). reflexivity.
Defined.

(** ** The AI-prompted generator: per-unit error handling *)

Lemma list_item_lt :
  forall (l : list string) i, i < List.length l -> exists p, list_item l i = Ok p /\ nth_error l i = Some p.
Proof.
  intros l i H. unfold list_item.
  destruct (nth_error l i) as [p|] eqn:E.
  - exists p. split; reflexivity.
  - apply nth_error_None in E. lia.
Qed.

Lemma ai_loop_outcomes :
  forall w tp contents paths i g errs gtd st,
    List.length contents + i <= List.length paths ->
    let out := ai_outcomes w tp contents paths i gtd st in
    List.length out = List.length contents
    /\ exists gtd' st',
        ai_loop w tp contents paths i g errs gtd st
        = (Ok ((g + Z.of_nat (List.length (filter succeeded out)))%Z,
               (errs ++ errors_of out)%list, gtd'), st').
Proof.
  intros w tp contents paths.
  induction contents as [|code rest IH]; intros i g errs gtd st Hlen.
  - cbn. split; [reflexivity|]. exists gtd, st. unfold ret.
    rewrite app_nil_r, Z.add_0_r. reflexivity.
  - cbn [List.length] in Hlen.
    destruct (@list_item_lt paths i ltac:(lia)) as (p & Hp & _).
    cbn [ai_loop ai_outcomes]. unfold bind, lift. rewrite Hp.
    destruct (ai_try_body w tp i code (basename p) gtd st)
      as [[[u|e] gtd1] st1] eqn:E.
    + destruct (IH (S i) (g + 1)%Z errs gtd1 st1 ltac:(lia)) as (Hl & gtd' & st' & Hloop).
      cbn zeta in Hl, Hloop. split; [cbn; now rewrite Hl|].
      exists gtd', st'. rewrite Hloop. cbn [filter succeeded snd errors_of List.length].
      rewrite Nat2Z.inj_succ. do 4 f_equal. lia.
    + destruct (IH (S i) g (errs ++ [file_error (basename p) e])%list gtd1 st1
                  ltac:(lia)) as (Hl & gtd' & st' & Hloop).
      cbn zeta in Hl, Hloop. split; [cbn; now rewrite Hl|].
      exists gtd', st'. rewrite Hloop. cbn [filter succeeded snd errors_of].
      rewrite <- app_assoc. reflexivity.
Qed.

Lemma ai_outcomes_nth :
  forall w tp contents paths i0 gtd st j code p,
    nth_error contents j = Some code ->
    nth_error paths (i0 + j) = Some p ->
    List.length contents + i0 <= List.length paths ->
    exists gtd_j st_j,
      nth_error (ai_outcomes w tp contents paths i0 gtd st) j
      = Some (basename p,
              fst (fst (ai_try_body w tp (i0 + j) code (basename p) gtd_j st_j))).
Proof.
  intros w tp contents paths.
  induction contents as [|c rest IH]; intros i0 gtd st j code p Hc Hp Hlen.
  - destruct j; discriminate Hc.
  - cbn [List.length] in Hlen.
    destruct (@list_item_lt paths i0 ltac:(lia)) as (p0 & Hp0 & Hn0).
    cbn [ai_outcomes]. rewrite Hp0.
    destruct (ai_try_body w tp i0 c (basename p0) gtd st) as [[r gtd1] st1] eqn:E.
    destruct j as [|j].
    + cbn in Hc. injection Hc as ->. rewrite Nat.add_0_r in *.
      rewrite Hn0 in Hp. injection Hp as ->.
      exists gtd, st. rewrite E. reflexivity.
    + cbn [nth_error] in *.
      replace (i0 + S j) with (S i0 + j) in * by lia.
      apply (IH (S i0) gtd1 st1 j code p Hc Hp). lia.
Qed.

Lemma ai_try_body_blocked :
  forall w tp i code filename gtd st response,
    generate_content w i code = Ok response ->
    candidates response = [] ->
    ai_try_body w tp i code filename gtd st
    = ((Raise (ValueError (blocked_message response)), gtd), st).
Proof.
  intros w tp i code filename gtd st response Hg Hc.
  unfold ai_try_body. rewrite Hg, Hc. reflexivity.
Qed.

Lemma errors_of_In :
  forall out f e, In (f, Raise e) out -> In (file_error f e) (errors_of out).
Proof.
  induction out as [|[f0 [u|e0]] t IH]; intros f e H.
  - destruct H.
  - destruct H as [H|H]; [discriminate H|]. cbn. auto.
  - destruct H as [H|H].
    + injection H as -> ->. left; reflexivity.
    + right. auto.
Qed.

(** C6: with a credential configured and a path for every unit, the
    AI-prompted stage never raises and accounts for every unit: each unit
    ends either as a generated suite or as an entry of the error list, in
    order.  A unit whose response has no candidates contributes the entry
    [{"file": name, "error": "Response was blocked by safety filters.
    Reason: R"}] with R the block reason's name if there is one and
    "Unknown" otherwise; and the stage reports success as soon as one
    unit succeeded, whatever happened to the others. *)
Theorem C6_ai_stage_per_unit_errors :
  forall w tests_path code_contents file_paths st,
    key_is_set (GEMINI_API_KEY w) = true ->
    List.length code_contents <= List.length file_paths ->
    let outcomes := ai_outcomes w tests_path code_contents file_paths 0 [] st in
    exists report st',
      _run_ai_test_generation w tests_path code_contents file_paths st
      = (Ok report, st')
      /\ List.length outcomes = List.length code_contents
      /\ dict_get "errors" report = Some (PList (errors_of outcomes))
      /\ dict_get "test_suites_generated" report
         = Some (PInt (Z.of_nat (List.length (filter succeeded outcomes))))
      /\ (dict_get "success" report = Some (PBool true)
          <-> exists o, In o outcomes /\ succeeded o = true)
      /\ (forall i code p response,
             nth_error code_contents i = Some code ->
             nth_error file_paths i = Some p ->
             generate_content w i code = Ok response ->
             candidates response = [] ->
             let reason := match prompt_feedback response with
                           | Some (Some name) => name
                           | _ => "Unknown"
                           end in
             let error_text :=
               "Response was blocked by safety filters. Reason: " ++ reason in
             nth_error outcomes i = Some (basename p, Raise (ValueError error_text))
             /\ In (PDict [("file", PStr (basename p)); ("error", PStr error_text)])
                   (errors_of outcomes)
             /\ error_text <> "").
Proof.
  intros w tp contents paths st Hkey Hlen outcomes.
  destruct (@ai_loop_outcomes w tp contents paths 0 0%Z [] [] st ltac:(lia))
    as (Hl & gtd' & st' & Hloop).
  cbn zeta in Hl, Hloop. fold outcomes in Hl, Hloop.
  unfold _run_ai_test_generation. rewrite Hkey. cbn [negb].
  unfold bind. rewrite Hloop. unfold ret. eexists. eexists.
  split; [reflexivity|].
  cbn [dict_get String.eqb Ascii.eqb Bool.eqb app].
  split; [exact Hl|]. split; [reflexivity|]. split; [reflexivity|]. split.
  - split.
    + intros Hs. injection Hs as Hs.
      destruct (filter succeeded outcomes) as [|o l] eqn:F; [discriminate Hs|].
      exists o. apply filter_In. rewrite F. left; reflexivity.
    + intros (o & Hin & Ho). do 2 f_equal.
      assert (Hf : In o (filter succeeded outcomes)) by (apply filter_In; tauto).
      destruct (filter succeeded outcomes); [destruct Hf|].
      cbn [List.length]. rewrite Z.gtb_ltb. apply Z.ltb_lt. lia.
  - intros i code p response Hc Hp Hg Hcand.
    change ("Response was blocked by safety filters. Reason: "
            ++ match prompt_feedback response with
               | Some (Some name) => name
               | _ => "Unknown"
               end) with (blocked_message response).
    set (error_text := blocked_message response).
    destruct (@ai_outcomes_nth w tp contents paths 0 [] st i code p Hc Hp
                ltac:(lia)) as (gtd_i & st_i & Hnth).
    fold outcomes in Hnth. cbn [Nat.add] in Hnth.
    rewrite (ai_try_body_blocked w tp i code (basename p) gtd_i st_i response Hg Hcand)
      in Hnth.
    cbn [fst] in Hnth. split; [exact Hnth|]. split.
    + apply (errors_of_In outcomes (basename p) (ValueError error_text)).
      eapply nth_error_In. exact Hnth.
    + discriminate.
Qed.

Lemma C6_ai_stage_per_unit_errors_witness :
  let w := sample_world in
  let tests := path_join (project_root_of w) (parse_path "tests") in
  exists report st',
    _run_ai_test_generation w tests ["def add"; "def add"; "def add"]
      ["/proj/a.py"; "/proj/pkg/b.py"; "/proj/c.py"] (generation_state w)
    = (Ok report, st')
    /\ dict_get "success" report = Some (PBool true)
    /\ dict_get "errors" report
       = Some (PList
                 [PDict [("file", PStr "a.py");
                         ("error", PStr "Response was blocked by safety filters. Reason: SAFETY")];
                  PDict [("file", PStr "c.py");
                         ("error", PStr "Gemini returned a valid but empty response.")]]).
Proof.
  intros w tests.
  destruct (C6_ai_stage_per_unit_errors w tests ["def add"; "def add"; "def add"]
              ["/proj/a.py"; "/proj/pkg/b.py"; "/proj/c.py"] (generation_state w)
              eq_refl ltac:(cbn; lia))
    as (report & st' & Hrun & _ & Herr & _ & Hsucc & _).
  exists report, st'. split; [exact Hrun|]. split.
  - apply Hsucc. exists ("b.py", Ok tt). split; [|reflexivity].
    right. left. reflexivity.
  - rewrite Herr. reflexivity.
Defined.

(** ** The coverage runner *)

(** C8: with no eligible module the coverage runner returns the
    "No modules to cover." failure at once, leaving the state (and so the
    log of started processes) as it was; with eligible modules it starts
    exactly one process, the test runner whose coverage scope is the
    comma-joined list of those modules, from which the list can be read
    back when no module name holds a comma. *)
Theorem C8_coverage_runner :
  forall w project_path modules st,
    (filter Py.truthy modules = [] ->
       _run_coverage_analysis w project_path modules st
       = (Ok [("tool", PStr "pytest-cov"); ("success", PBool false);
              ("error", PStr "No modules to cover.")], st))
    /\ (filter Py.truthy modules <> [] ->
        calls (snd (_run_coverage_analysis w project_path modules st))
        = app (calls st)
            [["pytest";
              "--cov=" ++ Py.join "," (filter Py.truthy modules);
              "--cov-report=json:"
                ++ path_str (path_join project_path (parse_path "coverage.json"));
              path_str (path_join project_path (parse_path "tests"))]]
        /\ (Forall (fun m => has_char ","%char m = false) modules ->
            Py.split ","%char (Py.join "," (filter Py.truthy modules))
            = filter Py.truthy modules)).
Proof.
  intros w project_path modules st. unfold _run_coverage_analysis. split.
  - intros H. rewrite H. reflexivity.
  - intros H. split; [|intros Hc; apply (split_join ","%char); [exact H|];
                       now apply filter_keeps_Forall].
    rewrite (join_truthy "," _ H (filter_truthy_Forall modules)).
    cbn [negb]. unfold bind, subprocess_run, coverage_command.
    destruct (run_process w _ _ st) as [[result|e] fs'] eqn:E; cbn.
    + destruct (exists_ _ fs').
      * unfold lift, ret.
        destruct (read_text _ fs') as [content|e]; [|reflexivity].
        destruct (json_load w content) as [report|e]; [|reflexivity].
        destruct (py_get report "totals" _); [|reflexivity].
        destruct (py_get report "files" _); reflexivity.
      * reflexivity.
    + reflexivity.
Qed.

Lemma C8_coverage_runner_witness :
  _run_coverage_analysis quiet_world (project_root_of quiet_world) [""; ""]
    (enter_temp_dir quiet_world)
  = (Ok [("tool", PStr "pytest-cov"); ("success", PBool false);
         ("error", PStr "No modules to cover.")], enter_temp_dir quiet_world)
  /\ calls (snd (_run_coverage_analysis quiet_world (project_root_of quiet_world)
                   ["pkg.a"; ""; "b"] (enter_temp_dir quiet_world)))
     = [["pytest"; "--cov=pkg.a,b";
         "--cov-report=json:/tmp/tmpq3v8x1/coverage.json";
         "/tmp/tmpq3v8x1/tests"]].
Proof.
  split.
  - apply (C8_coverage_runner quiet_world (project_root_of quiet_world) [""; ""]
             (enter_temp_dir quiet_world)).
    reflexivity.
  - apply (C8_coverage_runner quiet_world (project_root_of quiet_world)
             ["pkg.a"; ""; "b"] (enter_temp_dir quiet_world)).
    discriminate.
Defined.

(** ** The mutation score *)

Lemma rstrip_space_suffix :
  forall s w, Py.all_space w = true -> Py.rstrip (s ++ w) = Py.rstrip s.
Proof.
  induction s as [|a s IH]; intros w H.
  - cbn [append]. now rewrite rstrip_all_space.
  - change (String a s ++ w) with (String a (s ++ w)). cbn [Py.rstrip].
    change (Py.all_space (String a (s ++ w)))
      with (Py.isspace a && Py.all_space (s ++ w)).
    change (Py.all_space (String a s)) with (Py.isspace a && Py.all_space s).
    rewrite all_space_app, H, andb_true_r. now rewrite IH.
Qed.

Lemma all_space_rstrip : forall s, Py.all_space (Py.rstrip s) = Py.all_space s.
Proof.
  induction s as [|a s IH]; [reflexivity|].
  cbn [Py.rstrip]. destruct (Py.all_space (String a s)) eqn:E; [reflexivity|].
  change (Py.all_space (String a (Py.rstrip s)))
    with (Py.isspace a && Py.all_space (Py.rstrip s)).
  rewrite IH. exact E.
Qed.

Lemma rstrip_idem : forall s, Py.rstrip (Py.rstrip s) = Py.rstrip s.
Proof.
  induction s as [|a s IH]; [reflexivity|].
  cbn [Py.rstrip]. destruct (Py.all_space (String a s)) eqn:E; [reflexivity|].
  cbn [Py.rstrip].
  change (Py.all_space (String a (Py.rstrip s)))
    with (Py.isspace a && Py.all_space (Py.rstrip s)).
  rewrite all_space_rstrip.
  change (Py.isspace a && Py.all_space s) with (Py.all_space (String a s)).
  now rewrite E, IH.
Qed.

Lemma last_item_cons :
  forall (x : string) t, t <> [] -> Py.last_item (x :: t) = Py.last_item t.
Proof.
  intros x t Ht. unfold Py.last_item. cbn [rev].
  destruct (rev t) as [|y r] eqn:E; [|reflexivity].
  exfalso. apply Ht. rewrite <- (rev_involutive t), E. reflexivity.
Qed.

Lemma split_single_no_sep :
  forall c s h, Py.split c s = [h] -> has_char c s = false.
Proof.
  intros c. induction s as [|a s IH]; intros h H; [reflexivity|].
  cbn [has_char]. destruct (Ascii.eqb a c) eqn:A.
  - apply Ascii.eqb_eq in A. subst a. rewrite split_sep_cons in H.
    injection H as _ H. now apply split_not_nil in H.
  - destruct (split_other_cons c a s A) as (h' & t & Hs & Hc).
    rewrite Hc in H. injection H as _ ->. cbn. now apply (IH h').
Qed.

Lemma last_item_In :
  forall (l : list string) x, Py.last_item l = Some x -> In x l.
Proof.
  intros l x H. unfold Py.last_item in H. apply in_rev.
  destruct (rev l) as [|y t]; [discriminate H|].
  injection H as ->. now left.
Qed.

Lemma str_app_inv_head : forall P x y : string, P ++ x = P ++ y -> x = y.
Proof.
  induction P as [|a P IH]; intros x y H; [exact H|].
  cbn in H. injection H as H. now apply IH.
Qed.

Lemma rstrip_app_nonblank :
  forall P b, Py.all_space b = false -> Py.rstrip (P ++ b) = P ++ Py.rstrip b.
Proof.
  induction P as [|a P IH]; intros b H; [reflexivity|].
  change (String a P ++ b) with (String a (P ++ b)). cbn [Py.rstrip].
  change (Py.all_space (String a (P ++ b)))
    with (Py.isspace a && Py.all_space (P ++ b)).
  rewrite all_space_app, H, !andb_false_r. cbn [append]. now rewrite IH.
Qed.

Lemma last_piece_suffix :
  forall c s b, Py.last_item (Py.split c s) = Some b -> exists P, s = P ++ b.
Proof.
  intros c. induction s as [|a s IH]; intros b H.
  - cbn in H. injection H as <-. now exists "".
  - destruct (Ascii.eqb a c) eqn:A.
    + apply Ascii.eqb_eq in A. subst a.
      rewrite split_sep_cons, last_item_cons in H by apply split_not_nil.
      destruct (IH b H) as (P & ->). now exists (String c P).
    + destruct (split_other_cons c a s A) as (h & t & Hs & Hc). rewrite Hc in H.
      destruct t as [|x t].
      * cbn in H. injection H as <-.
        pose proof (split_single_no_sep c s h Hs) as Hno.
        rewrite (split_no_sep c s Hno) in Hs. injection Hs as <-. now exists "".
      * rewrite last_item_cons in H by discriminate.
        rewrite Hs, (last_item_cons h (x :: t)) in IH by discriminate.
        destruct (IH b H) as (P & ->). now exists (String a P).
Qed.

Lemma last_line_rstripped :
  forall s b,
    Py.last_item (Py.split "010"%char (Py.rstrip s)) = Some b ->
    Py.all_space b = false -> Py.rstrip b = b.
Proof.
  intros s b H Hb. destruct (last_piece_suffix _ _ _ H) as (P & E).
  pose proof (rstrip_idem s) as I. rewrite E in I.
  rewrite (rstrip_app_nonblank P b Hb) in I. exact (str_app_inv_head P _ _ I).
Qed.

Lemma last_nonblank_line_nonblank :
  forall out line, last_nonblank_line out = Some line -> Py.all_space line = false.
Proof.
  intros out line H. unfold last_nonblank_line in H. apply last_item_In in H.
  apply filter_In in H. destruct H as [_ H]. now apply negb_true_iff in H.
Qed.

Lemma find_after_paren_space_prefix :
  forall w s, Py.all_space w = true -> find_after "(" (w ++ s) = find_after "(" s.
Proof.
  induction w as [|a w IH]; intros s H; [reflexivity|].
  cbn in H. apply andb_true_iff in H. destruct H as [Ha Hw].
  change (String a w ++ s) with (String a (w ++ s)).
  cbn [find_after].
  rewrite (startswith_space_false "("%char "" (w ++ s) a eq_refl Ha).
  now apply IH.
Qed.

Lemma find_after_paren_at :
  forall u x, has_char "("%char u = false ->
              find_after "(" (u ++ String "("%char x) = Some x.
Proof.
  induction u as [|a u IH]; intros x H.
  - cbn. now destruct x.
  - apply has_char_cons_false in H. destruct H as [Ha Hu].
    change (String a u ++ String "("%char x) with (String a (u ++ String "("%char x)).
    cbn [find_after Py.startswith]. rewrite Ha. cbn [andb]. now apply IH.
Qed.

Lemma find_after_paren_none :
  forall s, has_char "("%char s = false -> find_after "(" s = None.
Proof.
  induction s as [|a s IH]; intros H; [reflexivity|].
  apply has_char_cons_false in H. destruct H as [Ha Hs].
  cbn [find_after Py.startswith]. rewrite Ha. cbn [andb]. now apply IH.
Qed.

Lemma until_paren_free :
  forall s, has_char "("%char s = false -> has_char ")"%char s = false ->
            until_paren s = s.
Proof.
  induction s as [|a s IH]; intros H1 H2; [reflexivity|].
  apply has_char_sym_false in H1, H2.
  destruct H1 as [A1 H1]. destruct H2 as [A2 H2].
  cbn [until_paren]. rewrite A1, A2. cbn [orb]. now rewrite IH.
Qed.

Lemma until_paren_closed :
  forall token v,
    has_char "("%char token = false -> has_char ")"%char token = false ->
    until_paren (token ++ String ")"%char v) = token.
Proof.
  induction token as [|a token IH]; intros v H1 H2; [reflexivity|].
  apply has_char_sym_false in H1, H2.
  destruct H1 as [A1 H1]. destruct H2 as [A2 H2].
  change (String a token ++ String ")"%char v)
    with (String a (token ++ String ")"%char v)).
  cbn [until_paren]. rewrite A1, A2. cbn [orb]. now rewrite IH.
Qed.

Lemma has_char_rstrip :
  forall c s, has_char c s = false -> has_char c (Py.rstrip s) = false.
Proof.
  intros c. induction s as [|a s IH]; intros H; [reflexivity|].
  apply has_char_sym_false in H. destruct H as [Ha Hs].
  cbn [Py.rstrip]. destruct (Py.all_space (String a s)); [reflexivity|].
  cbn [has_char]. now rewrite Ha, IH.
Qed.

Lemma head_until_paren :
  forall rest,
    exists h t h' t',
      Py.split "("%char rest = h :: t
      /\ Py.split ")"%char h = h' :: t'
      /\ h' = until_paren rest.
Proof.
  induction rest as [|a rest IH].
  - exists "", [], "", []. repeat split.
  - destruct IH as (h & t & h' & t' & E1 & E2 & E3).
    destruct (Ascii.eqb a "("%char) eqn:A1.
    + apply Ascii.eqb_eq in A1. subst a. rewrite split_sep_cons.
      exists "", (Py.split "("%char rest), "", []. repeat split.
    + destruct (split_other_cons "("%char a rest A1) as (h0 & t0 & F1 & F2).
      rewrite F1 in E1. injection E1 as -> ->. rewrite F2.
      destruct (Ascii.eqb a ")"%char) eqn:A2.
      * apply Ascii.eqb_eq in A2. subst a.
        exists (String ")"%char h), t, "", (Py.split ")"%char h).
        split; [reflexivity|]. split; [apply split_sep_cons|reflexivity].
      * destruct (split_other_cons ")"%char a h A2) as (h1 & t1 & G1 & G2).
        rewrite G1 in E2. injection E2 as -> ->.
        exists (String a h), t, (String a h'), t'. split; [reflexivity|].
        split; [exact G2|]. cbn [until_paren]. rewrite A1, A2. cbn [orb].
        now rewrite E3.
Qed.

Lemma paren_score :
  forall b,
    (if Nat.ltb 1 (List.length (Py.split "("%char b)) then
       match list_item (Py.split "("%char b) 1 with
       | Raise e => Raise e
       | Ok p1 => list_item (Py.split ")"%char p1) 0
       end
     else Ok "N/A")
    = Ok (match find_after "(" b with
          | Some rest => until_paren rest
          | None => "N/A"
          end).
Proof.
  induction b as [|a b IH]; [reflexivity|].
  destruct (Ascii.eqb a "("%char) eqn:A.
  - apply Ascii.eqb_eq in A. subst a. rewrite split_sep_cons.
    destruct (head_until_paren b) as (h & t & h' & t' & E1 & E2 & E3).
    rewrite E1. cbn [List.length Nat.ltb Nat.leb list_item nth_error].
    rewrite E2. cbn [list_item nth_error].
    replace (find_after "(" (String "("%char b)) with (Some b)
      by (cbn; now destruct b).
    now rewrite E3.
  - destruct (split_other_cons "("%char a b A) as (h & t & F1 & F2).
    rewrite F2. rewrite F1 in IH.
    cbn [find_after Py.startswith]. rewrite Ascii.eqb_sym, A. cbn [andb].
    exact IH.
Qed.

(** C4, as stated, fails: on a line with "killed" whose parenthesis is
    never closed the text has no parenthesized token, yet the score is the
    text after the parenthesis, not "N/A". *)
Lemma C4_unclosed_parenthesis_is_scored :
  ~ (forall out, mutation_score out = Ok (score_as_specified out)).
Proof.
  intros H. specialize (H "3 killed (75.0%"). vm_compute in H. discriminate H.
Qed.

(** C4 (amended): the extraction never raises and reads the last
    non-blank line of the text.  The score is "N/A" when there is no such
    line, when the line does not contain "killed", or when it contains no
    opening parenthesis.  Otherwise it is the text that follows the first
    opening parenthesis of the line (trailing white space of the line
    apart) up to the next parenthesis of either kind: a parenthesized
    token gives the token, and a parenthesis that is never closed gives
    all the text after it, possibly none, not "N/A". *)
Theorem C4_mutation_score_extraction :
  forall out,
    (exists score, mutation_score out = Ok score)
    /\ (last_nonblank_line out = None -> mutation_score out = Ok "N/A")
    /\ (forall line,
           last_nonblank_line out = Some line ->
           mutation_score out = Ok (score_of_line line)
           /\ (Py.contains "killed" line = false -> mutation_score out = Ok "N/A")
           /\ (Py.contains "killed" line = true ->
               has_char "("%char line = false ->
               mutation_score out = Ok "N/A")
           /\ (Py.contains "killed" line = true ->
               forall u token v,
                 line = u ++ "(" ++ token ++ ")" ++ v ->
                 has_char "("%char u = false ->
                 has_char "("%char token = false ->
                 has_char ")"%char token = false ->
                 mutation_score out = Ok token)
           /\ (Py.contains "killed" line = true ->
               forall u rest,
                 line = u ++ "(" ++ rest ->
                 has_char "("%char u = false ->
                 has_char "("%char rest = false ->
                 has_char ")"%char rest = false ->
                 mutation_score out = Ok (Py.rstrip rest))).
Proof.
  intros out. split; [apply mutation_score_total|].
  destruct (strip_last_line out) as [Hblank Hline].
  destruct (Py.all_space out) eqn:S.
  - destruct (Hblank eq_refl) as [Hnone Hstrip].
    split; [intros _; unfold mutation_score; rewrite Hstrip; reflexivity|].
    intros line Hl. rewrite Hnone in Hl. discriminate Hl.
  - destruct (Hline eq_refl) as (b & w1 & w2 & Hlast & Hnb & Hw1 & Hw2).
    split; [intros Hn; rewrite Hnb in Hn; discriminate Hn|].
    intros line Hl.
    pose proof (last_nonblank_line_nonblank out line Hl) as Hnonblank.
    rewrite Hnb in Hl. injection Hl as <-.
    assert (Hb : Py.all_space b = false).
    { rewrite !all_space_app, Hw1, Hw2, andb_true_r in Hnonblank. exact Hnonblank. }
    assert (Hrs : Py.rstrip (w1 ++ b ++ w2) = w1 ++ b).
    { rewrite <- str_app_assoc, (rstrip_space_suffix (w1 ++ b) w2 Hw2).
      rewrite (rstrip_app_nonblank w1 b Hb).
      unfold Py.strip in Hlast. now rewrite (last_line_rstripped _ b Hlast Hb). }
    assert (Hscore : mutation_score out = Ok (score_of_line (w1 ++ b ++ w2))).
    { rewrite (mutation_score_of_last_line out b Hlast). unfold score_of_line.
      rewrite (contains_killed_strip w1 b w2 Hw1 Hw2), Hrs.
      rewrite (find_after_paren_space_prefix w1 b Hw1).
      destruct (Py.contains "killed" b); [apply paren_score|reflexivity]. }
    split; [exact Hscore|]. rewrite Hscore. unfold score_of_line.
    split; [intros ->; reflexivity|]. split; [|split].
    + intros -> Hparen.
      now rewrite (find_after_paren_none _ (has_char_rstrip _ _ Hparen)).
    + intros -> u token v E Hu Ht1 Ht2.
      change (u ++ "(" ++ token ++ ")" ++ v)
        with (u ++ String "("%char (token ++ String ")"%char v)) in E.
      destruct (space_prefix_of_marked w1 (b ++ w2) u "("%char _ Hw1 eq_refl E)
        as (u' & -> & E').
      rewrite has_char_app in Hu. apply orb_false_iff in Hu. destruct Hu as [_ Hu'].
      assert (E2 : b ++ w2 = (u' ++ String "("%char token) ++ String ")"%char v)
        by (rewrite E', str_app_assoc; reflexivity).
      destruct (space_suffix_of_marked b w2 _ ")"%char v Hw2 eq_refl E2)
        as (v' & -> & ->).
      rewrite Hrs, (find_after_paren_space_prefix w1 _ Hw1), str_app_assoc.
      change (String "("%char token ++ String ")"%char v')
        with (String "("%char (token ++ String ")"%char v')).
      rewrite (find_after_paren_at u' _ Hu').
      now rewrite (until_paren_closed token v' Ht1 Ht2).
    + intros -> u rest E Hu Hr1 Hr2.
      change (u ++ "(" ++ rest) with (u ++ String "("%char rest) in E.
      rewrite E.
      assert (Hp : Py.all_space (String "("%char rest) = false) by reflexivity.
      rewrite (rstrip_app_nonblank u _ Hp).
      replace (Py.rstrip (String "("%char rest))
        with (String "("%char (Py.rstrip rest)) by reflexivity.
      rewrite (find_after_paren_at u _ Hu).
      now rewrite (until_paren_free _ (has_char_rstrip _ _ Hr1)
                     (has_char_rstrip _ _ Hr2)).
Qed.

Lemma C4_mutation_score_extraction_witness :
  let out := "Legend for output:" ++ nl ++ "  12/16 killed (75.0%)  " ++ nl ++ nl in
  last_nonblank_line out = Some "  12/16 killed (75.0%)  "
  /\ mutation_score out = Ok "75.0%"
  /\ mutation_score ("survived: 4" ++ nl) = Ok "N/A"
  /\ mutation_score ("3 killed (75.0%  " ++ nl) = Ok "75.0%"
  /\ mutation_score "3 killed (" = Ok "".
Proof.
  intros out.
  destruct (C4_mutation_score_extraction out) as (_ & _ & Hline).
  destruct (Hline "  12/16 killed (75.0%)  " eq_refl) as (_ & _ & _ & Htoken & _).
  split; [reflexivity|]. split; [|split; [|split]].
  - apply (Htoken eq_refl "  12/16 killed " "75.0%" "  "); reflexivity.
  - destruct (C4_mutation_score_extraction ("survived: 4" ++ nl)) as (_ & _ & Hl2).
    destruct (Hl2 "survived: 4" eq_refl) as (_ & Hnk & _). apply Hnk. reflexivity.
  - destruct (C4_mutation_score_extraction ("3 killed (75.0%  " ++ nl))
      as (_ & _ & Hl3).
    destruct (Hl3 "3 killed (75.0%  " eq_refl) as (_ & _ & _ & _ & Hopen).
    apply (Hopen eq_refl "3 killed " "75.0%  "); reflexivity.
  - destruct (C4_mutation_score_extraction "3 killed (") as (_ & _ & Hl4).
    destruct (Hl4 "3 killed (" eq_refl) as (_ & _ & _ & _ & Hopen).
    apply (Hopen eq_refl "3 killed " ""); reflexivity.
Defined.

(** ** The Pipeline Coordinator *)

Lemma calls_extend_Forall {A} {P : list string -> Prop} (m : M A) st :
  calls_extend P m -> Forall P (calls st) -> Forall P (calls (snd (m st))).
Proof.
  intros Hm Hst. destruct (Hm st) as (l & E & F).
  rewrite E. apply Forall_app. auto.
Qed.

(** C1: whenever both generation entries of the returned report are
    unsuccessful, the report's overall status is "Failure", the coverage
    and mutation entries are still the initial "did not run" placeholders
    and no process other than the search-based generator was ever
    started; and a report whose overall status is "Success" never has two
    unsuccessful generation entries.  When both runners return with a
    false [success], the report is exactly their two results under the
    failure summary of the gate. *)
Theorem C1_both_generators_failed_aborts :
  forall w code_files_content file_paths,
    let final := run_testing_pipeline w code_files_content file_paths in
    let st_end := snd (run_testing_pipeline_in w code_files_content file_paths) in
    (both_generators_failed final = true ->
       overall_status final = Some (PStr "Failure")
       /\ dict_get "coverage_analysis" final
          = Some (did_not_run "Coverage step did not run.")
       /\ dict_get "mutation_testing" final
          = Some (did_not_run "Mutation step did not run.")
       /\ Forall is_pynguin (calls st_end))
    /\ (overall_status final = Some (PStr "Success") ->
        both_generators_failed final = false)
    /\ (forall source_paths module_names st1 st2 st3 st4 pynguin_report gemini_report,
           let root := project_root_of w in
           let tests := path_join root (parse_path "tests") in
           _setup_project_structure root code_files_content file_paths
             (enter_temp_dir w) = (Ok (source_paths, module_names), st1) ->
           source_paths <> [] ->
           on_fs (mkdir tests) st1 = (Ok tt, st2) ->
           _run_test_generation w root tests module_names st2
             = (Ok pynguin_report, st3) ->
           _run_ai_test_generation w tests code_files_content file_paths st3
             = (Ok gemini_report, st4) ->
           not_get "success" pynguin_report = true ->
           not_get "success" gemini_report = true ->
           final
           = dict_set "summary"
               (PDict [("overall_status", PStr "Failure");
                       ("message",
                        PStr "All test generation methods failed, cannot proceed.")])
               (dict_set "gemini_test_generation" (PDict gemini_report)
                  (dict_set "pynguin_test_generation" (PDict pynguin_report)
                     initial_report))).
Proof.
  intros w contents paths final st_end.
  assert (Hmain :
    (both_generators_failed final = true ->
       overall_status final = Some (PStr "Failure")
       /\ dict_get "coverage_analysis" final
          = Some (did_not_run "Coverage step did not run.")
       /\ dict_get "mutation_testing" final
          = Some (did_not_run "Mutation step did not run.")
       /\ Forall is_pynguin (calls st_end))
    /\ (overall_status final = Some (PStr "Success") ->
        both_generators_failed final = false)).
  { subst final st_end.
    unfold run_testing_pipeline, run_testing_pipeline_in, try_body.
    assert (H0 : Forall is_pynguin (calls (enter_temp_dir w))) by constructor.
    pose proof (calls_extend_Forall
                  (_setup_project_structure (project_root_of w) contents paths)
                  (enter_temp_dir w) (setup_calls _ _ _ _) H0) as H1.
    destruct (_setup_project_structure _ _ _ _) as [[[sp mn]|e] st1];
      cbn [snd] in H1; [|cbn; split; [intros _; auto|discriminate]].
    destruct sp as [|s0 sp]; [cbn; split; [intros _; auto|discriminate]|].
    pose proof (calls_extend_Forall
                  (on_fs (mkdir (path_join (project_root_of w) (parse_path "tests"))))
                  st1 (calls_extend_on_fs _ _ _) H1) as H2.
    destruct (on_fs _ st1) as [[u|e] st2];
      cbn [snd] in H2; [|cbn; split; [intros _; auto|discriminate]].
    pose proof (calls_extend_Forall
                  (_run_test_generation w (project_root_of w)
                     (path_join (project_root_of w) (parse_path "tests")) mn)
                  st2 (run_test_generation_calls _ _ _ _) H2) as H3.
    destruct (_run_test_generation _ _ _ _ st2) as [[pr|e] st3];
      cbn [snd] in H3; [|cbn; split; [intros _; auto|discriminate]].
    pose proof (calls_extend_Forall
                  (_run_ai_test_generation w
                     (path_join (project_root_of w) (parse_path "tests"))
                     contents paths)
                  st3 (run_ai_test_generation_calls _ _ _ _ _) H3) as H4.
    destruct (_run_ai_test_generation _ _ _ _ st3) as [[gr|e] st4];
      cbn [snd] in H4; [|cbn; split; [intros _; auto|discriminate]].
    destruct (not_get "success" pr && not_get "success" gr) eqn:Gate;
      [cbn; split; [intros _; auto|discriminate]|].
    destruct (_run_coverage_analysis _ _ _ st4) as [[cr|e] st5];
      [|cbn; rewrite Gate; split; [discriminate|reflexivity]].
    destruct (_run_mutation_testing _ _ st5) as [[mr|e] st6];
      [|cbn; rewrite Gate; split; [discriminate|reflexivity]].
    destruct (py_get _ _ _) as [cov|e];
      cbn; rewrite Gate; split; [discriminate|reflexivity|discriminate|reflexivity]. }
  destruct Hmain as [Ha Hb]. split; [exact Ha|]. split; [exact Hb|].
  intros sp mn st1 st2 st3 st4 pr gr root tests Hsetup Hsp Hmk Hp Hg Hpf Hgf.
  subst final. unfold run_testing_pipeline, run_testing_pipeline_in, try_body.
  fold root. rewrite Hsetup.
  destruct sp as [|s0 sp]; [congruence|].
  fold tests. rewrite Hmk, Hp, Hg, Hpf, Hgf. reflexivity.
Qed.

Lemma C1_both_generators_failed_aborts_witness :
  let final :=
    run_testing_pipeline failing_world ["x = 1"; "y = 2"]
      ["/proj/a.py"; "/proj/pkg/b.py"] in
  both_generators_failed final = true
  /\ overall_status final = Some (PStr "Failure")
  /\ dict_get "coverage_analysis" final
     = Some (did_not_run "Coverage step did not run.")
  /\ summary_message final
     = Some (PStr "All test generation methods failed, cannot proceed.").
Proof.
  intros final.
  destruct (C1_both_generators_failed_aborts failing_world ["x = 1"; "y = 2"]
              ["/proj/a.py"; "/proj/pkg/b.py"]) as (Hgate & _ & _).
  assert (Hboth : both_generators_failed final = true) by reflexivity.
  destruct (Hgate Hboth) as (Hs & Hc & _).
  split; [exact Hboth|]. split; [exact Hs|]. split; [exact Hc|reflexivity].
Defined.

Ltac step_try_body :=
  match goal with
  | |- context [match _setup_project_structure ?a ?b ?c ?d with _ => _ end] =>
      destruct (_setup_project_structure a b c d) as [[[[|? ?] ?]|?] ?]
  | |- context [match on_fs ?a ?b with _ => _ end] =>
      destruct (on_fs a b) as [[?|?] ?]
  | |- context [match _run_test_generation ?a ?b ?c ?d ?e with _ => _ end] =>
      destruct (_run_test_generation a b c d e) as [[?|?] ?]
  | |- context [match _run_ai_test_generation ?a ?b ?c ?d ?e with _ => _ end] =>
      destruct (_run_ai_test_generation a b c d e) as [[?|?] ?]
  | |- context [if not_get ?k ?a && not_get ?k ?b then _ else _] =>
      destruct (not_get k a && not_get k b)
  | |- context [match _run_coverage_analysis ?a ?b ?c ?d with _ => _ end] =>
      destruct (_run_coverage_analysis a b c d) as [[?|?] ?]
  | |- context [match _run_mutation_testing ?a ?b ?c with _ => _ end] =>
      destruct (_run_mutation_testing a b c) as [[?|?] ?]
  | |- context [match py_get ?a ?b ?c with _ => _ end] =>
      destruct (py_get a b c) as [?|?]
  end.

(** C3, as stated, fails: when both generators fail the summary message
    is the text of the exception alone; the category name "RuntimeError"
    is printed to the console but is not part of the report. *)
Lemma C3_message_lacks_category_name :
  ~ (forall w code_files_content file_paths final_report e st,
        try_body w code_files_content file_paths initial_report (enter_temp_dir w)
        = ((final_report, Some e), st) ->
        exists message,
          summary_message (run_testing_pipeline w code_files_content file_paths)
          = Some (PStr message)
          /\ Py.contains (exn_type e) message = true
          /\ Py.contains (exn_str e) message = true).
Proof.
  intros H.
  destruct (H failing_world ["x = 1"; "y = 2"] ["/proj/a.py"; "/proj/pkg/b.py"]
              _ _ _ eq_refl) as (message & Hm & Htype & _).
  vm_compute in Hm. injection Hm as <-.
  vm_compute in Htype. discriminate Htype.
Qed.

(** C3 (amended): the report handed to [return] always holds the summary
    and the four stage entries, and the call returns it unless removing
    the temporary directory raises, the only exception that can reach the
    caller.  Whenever a stage raises, the summary is
    [{"overall_status": "Failure", "message": str(e)}] for the exception
    that stopped the run (its message, without its category name); the
    result of every stage that had completed by then is in the report
    under its key, and the entries of the stages that did not complete are
    the initial placeholders.  When nothing raises, all four stages have
    completed and the overall status is "Success". *)
Theorem C3_abort_keeps_completed_stages :
  forall w code_files_content file_paths,
    let final := run_testing_pipeline w code_files_content file_paths in
    let st_end := snd (run_testing_pipeline_in w code_files_content file_paths) in
    let completed := fst (pipeline_trace w code_files_content file_paths) in
    let stopped := snd (pipeline_trace w code_files_content file_paths) in
    (remove_temp_dir w st_end = None ->
       run_testing_pipeline_call w code_files_content file_paths = Ok final)
    /\ (forall e,
           run_testing_pipeline_call w code_files_content file_paths = Raise e ->
           remove_temp_dir w st_end = Some e)
    /\ (forall k, In k report_keys -> dict_get k final <> None)
    /\ (forall k r, In (k, r) completed -> dict_get k final = Some (PDict r))
    /\ (forall k,
           In k report_keys -> k <> "summary" ->
           (forall r, ~ In (k, r) completed) ->
           dict_get k final = dict_get k initial_report)
    /\ (forall e,
           stopped = Some e ->
           dict_get "summary" final
           = Some (PDict [("overall_status", PStr "Failure");
                          ("message", PStr (exn_str e))]))
    /\ (stopped = None ->
        overall_status final = Some (PStr "Success")
        /\ map fst completed
           = ["pynguin_test_generation"; "gemini_test_generation";
              "coverage_analysis"; "mutation_testing"]).
Proof.
  intros w contents paths final st_end completed stopped.
  split; [|split].
  - intros Hrm. subst final st_end.
    unfold run_testing_pipeline_call, run_testing_pipeline.
    destruct (run_testing_pipeline_in w contents paths) as [report st].
    cbn [fst snd] in *. now rewrite Hrm.
  - intros e He. subst st_end. unfold run_testing_pipeline_call in He.
    destruct (run_testing_pipeline_in w contents paths) as [report st].
    cbn [snd]. destruct (remove_temp_dir w st); congruence.
  - subst final completed stopped.
    unfold run_testing_pipeline, run_testing_pipeline_in, try_body, pipeline_trace.
    repeat step_try_body; cbn [fst snd app];
      (split; [intros k Hk; cbn in Hk |- *;
               repeat (destruct Hk as [<-|Hk]; [cbn; discriminate|]); destruct Hk|]);
      (split; [intros k r Hin; cbn in Hin;
               repeat (destruct Hin as [Hin|Hin];
                       [injection Hin as <- <-; reflexivity|]);
               destruct Hin|]);
      (split; [intros k Hk Hs Hnot; cbn in Hk, Hnot;
               repeat (destruct Hk as [<-|Hk];
                       [first [congruence | reflexivity
                              | exfalso; eapply Hnot; eauto 6]|]);
               destruct Hk|]);
      (split; [intros e0 He0; first [discriminate He0
                                    | injection He0 as <-; reflexivity]|]);
      intros Hnone; first [discriminate Hnone | split; reflexivity].
Qed.

Lemma C3_abort_keeps_completed_stages_witness :
  let w := mutmut_missing_world in
  let final := run_testing_pipeline w ["x = 1"; "y = 2"]
                 ["/proj/a.py"; "/proj/pkg/b.py"] in
  run_testing_pipeline_call w ["x = 1"; "y = 2"] ["/proj/a.py"; "/proj/pkg/b.py"]
  = Ok final
  /\ dict_get "coverage_analysis" final
     = Some (PDict [("tool", PStr "pytest-cov"); ("success", PBool false);
                    ("error", PStr "")])
  /\ dict_get "mutation_testing" final
     = Some (did_not_run "Mutation step did not run.")
  /\ dict_get "summary" final
     = Some (PDict [("overall_status", PStr "Failure");
                    ("message",
                     PStr "[Errno 2] No such file or directory: 'mutmut'")]).
Proof.
  intros w final.
  destruct (C3_abort_keeps_completed_stages w ["x = 1"; "y = 2"]
              ["/proj/a.py"; "/proj/pkg/b.py"])
    as (Hcall & _ & _ & Hdone & Hnot & Hstop & _).
  split; [exact (Hcall eq_refl)|]. split; [|split].
  - apply Hdone. vm_compute. right. right. left. reflexivity.
  - apply (Hnot "mutation_testing").
    + vm_compute. tauto.
    + discriminate.
    + intros r Hin. vm_compute in Hin.
      repeat (destruct Hin as [Hin|Hin]; [discriminate Hin|]). exact Hin.
  - exact (Hstop (mkExn "FileNotFoundError"
                    "[Errno 2] No such file or directory: 'mutmut'") eq_refl).
Defined.

(** ** The analysis scorer *)

(** C9, as stated, fails: a score of 95 is at least 75 and is graded
    "A (Excellent)", not "B (Good)". *)
Lemma C9_grade_B_fails_at_95 :
  ~ (forall score : Z, (score >= 75)%Z -> get_grade score = "B (Good)").
Proof.
  intros H. specialize (H 95%Z). cbv in H.
  assert (E : (95 >= 75)%Z) by lia. specialize (H E). discriminate H.
Qed.

(** C9 (amended): for non-negative severity counts the score is
    100 - 10*high - 5*medium - 2*low floored at 0, one finding of each
    severity scores 83, every score in [75, 90) is graded "B (Good)" and
    every score in [60, 75) is graded "C (Fair)". *)
Theorem C9_security_score_and_grades :
  forall high medium low : Z,
    (0 <= high)%Z -> (0 <= medium)%Z -> (0 <= low)%Z ->
    security_score high medium low
      = Z.max 0 (100 - 10 * high - 5 * medium - 2 * low)%Z
    /\ (0 <= security_score high medium low <= 100)%Z
    /\ security_score 1 1 1 = 83%Z
    /\ get_grade (security_score 1 1 1) = "B (Good)"
    /\ (forall score, (75 <= score < 90)%Z -> get_grade score = "B (Good)")
    /\ (forall score, (60 <= score < 75)%Z -> get_grade score = "C (Fair)").
Proof.
  intros high medium low Hh Hm Hl.
  split; [unfold security_score; f_equal; lia|].
  split; [unfold security_score; lia|].
  split; [reflexivity|]. split; [reflexivity|].
  split; intros score Hs; unfold get_grade.
  - destruct (Z.geb_spec score 90); [lia|].
    destruct (Z.geb_spec score 75); [reflexivity|lia].
  - destruct (Z.geb_spec score 90); [lia|].
    destruct (Z.geb_spec score 75); [lia|].
    destruct (Z.geb_spec score 60); [reflexivity|lia].
Qed.

Lemma C9_security_score_and_grades_witness :
  security_score 2 0 3 = 74%Z /\ get_grade 74 = "C (Fair)".
Proof.
  destruct (C9_security_score_and_grades 2%Z 0%Z 3%Z) as (_ & _ & _ & _ & _ & HC);
    [lia | lia | lia |].
  split; [reflexivity | apply HC; lia].
Defined.

(* ================================================================== *)
(** * Part III. Further properties of the code                          *)
(* ================================================================== *)

(** ** The order used by [min] and [max] in [os.path.commonpath] *)

Lemma nat_of_ascii_inj : forall a b, nat_of_ascii a = nat_of_ascii b -> a = b.
Proof.
  intros a b H. rewrite <- (ascii_nat_embedding a), <- (ascii_nat_embedding b).
  now rewrite H.
Qed.

Lemma str_ltb_irrefl : forall s, str_ltb s s = false.
Proof.
  induction s as [|a s IH]; [reflexivity|].
  cbn. now rewrite Ascii.eqb_refl.
Qed.

Lemma str_ltb_total :
  forall s t, str_ltb s t = false -> str_ltb t s = false -> s = t.
Proof.
  induction s as [|a s IH]; intros [|b t] H1 H2; try reflexivity; try discriminate.
  cbn in H1, H2. rewrite (Ascii.eqb_sym b a) in H2.
  destruct (Ascii.eqb_spec a b) as [->|Hne].
  - f_equal. now apply IH.
  - apply Nat.ltb_ge in H1. apply Nat.ltb_ge in H2.
    exfalso. apply Hne, nat_of_ascii_inj. lia.
Qed.

Lemma str_ltb_trans :
  forall s t u, str_ltb s t = true -> str_ltb t u = true -> str_ltb s u = true.
Proof.
  induction s as [|a s IH]; intros [|b t] [|c u] H1 H2;
    try discriminate; try reflexivity.
  cbn in *.
  destruct (Ascii.eqb_spec a b) as [->|Hab].
  - destruct (Ascii.eqb_spec b c) as [->|Hbc]; [eapply IH; eassumption|exact H2].
  - destruct (Ascii.eqb_spec b c) as [->|Hbc].
    + destruct (Ascii.eqb_spec a c); [contradiction|exact H1].
    + apply Nat.ltb_lt in H1. apply Nat.ltb_lt in H2.
      destruct (Ascii.eqb_spec a c) as [->|Hac]; [lia|].
      apply Nat.ltb_lt. lia.
Qed.

Lemma list_ltb_irrefl : forall l, list_ltb l l = false.
Proof.
  induction l as [|a l IH]; [reflexivity|].
  cbn. now rewrite String.eqb_refl.
Qed.

Lemma list_ltb_total :
  forall l m, list_ltb l m = false -> list_ltb m l = false -> l = m.
Proof.
  induction l as [|a l IH]; intros [|b m] H1 H2; try reflexivity; try discriminate.
  cbn in H1, H2. rewrite (String.eqb_sym b a) in H2.
  destruct (String.eqb_spec a b) as [->|Hne].
  - f_equal. now apply IH.
  - exfalso. apply Hne. now apply str_ltb_total.
Qed.

Lemma list_ltb_trans :
  forall l m n, list_ltb l m = true -> list_ltb m n = true -> list_ltb l n = true.
Proof.
  induction l as [|a l IH]; intros [|b m] [|c n] H1 H2;
    try discriminate; try reflexivity.
  cbn in *.
  destruct (String.eqb_spec a b) as [->|Hab].
  - destruct (String.eqb_spec b c) as [->|Hbc]; [eapply IH; eassumption|exact H2].
  - destruct (String.eqb_spec b c) as [->|Hbc].
    + destruct (String.eqb_spec a c); [contradiction|exact H1].
    + destruct (String.eqb_spec a c) as [->|Hac].
      * pose proof (str_ltb_trans _ _ _ H2 H1) as H.
        now rewrite str_ltb_irrefl in H.
      * eapply str_ltb_trans; eassumption.
Qed.

(** [l <= m] for the order of lists: [m] is not below [l]. *)
Lemma list_le_trans :
  forall l m n,
    list_ltb m l = false -> list_ltb n m = false -> list_ltb n l = false.
Proof.
  intros l m n H1 H2. destruct (list_ltb n l) eqn:H; [|reflexivity].
  destruct (list_ltb l m) eqn:Hlm.
  - now rewrite (list_ltb_trans _ _ _ H Hlm) in H2.
  - rewrite (list_ltb_total l m Hlm H1) in H. congruence.
Qed.

Lemma list_min_spec :
  forall xs m,
    list_ltb m (list_min m xs) = false
    /\ (forall y, In y xs -> list_ltb y (list_min m xs) = false)
    /\ In (list_min m xs) (m :: xs).
Proof.
  unfold list_min. induction xs as [|x xs IH]; intros m; cbn [fold_left].
  - split; [apply list_ltb_irrefl|]. split; [intros y []|now left].
  - set (m' := if list_ltb x m then x else m).
    destruct (IH m') as (H1 & H2 & H3).
    assert (Hm : list_ltb m m' = false).
    { subst m'. destruct (list_ltb x m) eqn:E; [|apply list_ltb_irrefl].
      destruct (list_ltb m x) eqn:E'; [|reflexivity].
      pose proof (list_ltb_trans _ _ _ E E') as H.
      now rewrite list_ltb_irrefl in H. }
    assert (Hx : list_ltb x m' = false).
    { subst m'. destruct (list_ltb x m) eqn:E; [apply list_ltb_irrefl|exact E]. }
    split; [exact (list_le_trans _ _ _ H1 Hm)|]. split.
    + intros y [<-|Hy]; [exact (list_le_trans _ _ _ H1 Hx)|now apply H2].
    + destruct H3 as [H3|H3]; [|now right; right].
      rewrite <- H3. subst m'. destruct (list_ltb x m); [right; now left|now left].
Qed.

Lemma list_max_spec :
  forall xs m,
    list_ltb (list_max m xs) m = false
    /\ (forall y, In y xs -> list_ltb (list_max m xs) y = false)
    /\ In (list_max m xs) (m :: xs).
Proof.
  unfold list_max. induction xs as [|x xs IH]; intros m; cbn [fold_left].
  - split; [apply list_ltb_irrefl|]. split; [intros y []|now left].
  - set (m' := if list_ltb m x then x else m).
    destruct (IH m') as (H1 & H2 & H3).
    assert (Hm : list_ltb m' m = false).
    { subst m'. destruct (list_ltb m x) eqn:E; [|apply list_ltb_irrefl].
      destruct (list_ltb x m) eqn:E'; [|reflexivity].
      pose proof (list_ltb_trans _ _ _ E E') as H.
      now rewrite list_ltb_irrefl in H. }
    assert (Hx : list_ltb m' x = false).
    { subst m'. destruct (list_ltb m x) eqn:E; [apply list_ltb_irrefl|exact E]. }
    split; [exact (list_le_trans _ _ _ Hm H1)|]. split.
    + intros y [<-|Hy]; [exact (list_le_trans _ _ _ Hx H1)|now apply H2].
    + destruct H3 as [H3|H3]; [|now right; right].
      rewrite <- H3. subst m'. destruct (list_ltb m x); [right; now left|now left].
Qed.

(** ** [os.path.commonpath] on several paths *)

Lemma common_components_ok :
  forall s1 s2, list_ltb s2 s1 = false -> exists c, common_components s1 s2 = Ok c.
Proof.
  induction s1 as [|a s1 IH]; intros s2 H; [eexists; reflexivity|].
  destruct s2 as [|b s2]; [discriminate H|].
  cbn in *. rewrite (String.eqb_sym b a) in H.
  destruct (String.eqb a b); [|eexists; reflexivity].
  destruct (IH s2 H) as (c & ->). eexists; reflexivity.
Qed.

Lemma common_components_between :
  forall s1 s2 c y,
    common_components s1 s2 = Ok c ->
    list_ltb y s1 = false -> list_ltb s2 y = false ->
    is_prefix c y = true.
Proof.
  induction s1 as [|a s1 IH]; intros s2 c y Hc H1 H2.
  - cbn in Hc. injection Hc as <-. reflexivity.
  - destruct s2 as [|b s2]; [discriminate Hc|]. cbn in Hc.
    destruct (String.eqb_spec a b) as [<-|Hab]; [|injection Hc as <-; reflexivity].
    destruct (common_components s1 s2) as [c'|e] eqn:E; [|discriminate Hc].
    injection Hc as <-.
    destruct y as [|d y]; [discriminate H1|].
    cbn in H1, H2 |- *.
    destruct (String.eqb_spec d a) as [->|Hda].
    + rewrite String.eqb_refl in *. cbn. eapply IH; eassumption.
    + destruct (String.eqb_spec a d) as [->|_]; [contradiction|].
      exfalso. apply Hda. now apply str_ltb_total.
Qed.

Lemma is_prefix_strip :
  forall c l, is_prefix c l = true ->
              exists rest, strip_prefix c l = Some rest /\ l = (c ++ rest)%list.
Proof.
  induction c as [|a c IH]; intros l H; [exists l; auto|].
  destruct l as [|b l]; [discriminate H|].
  cbn in H. apply andb_true_iff in H. destruct H as [Hab H].
  cbn. rewrite Hab. apply String.eqb_eq in Hab. subst b.
  destruct (IH l H) as (rest & -> & ->). exists rest. auto.
Qed.

Lemma is_prefix_Forall :
  forall (P : string -> Prop) c l,
    is_prefix c l = true -> Forall P l -> Forall P c.
Proof.
  intros P. induction c as [|a c IH]; intros l H HF; [constructor|].
  destruct l as [|b l]; [discriminate H|].
  cbn in H. apply andb_true_iff in H. destruct H as [Hab H].
  apply String.eqb_eq in Hab. subst b. inversion HF; subst.
  constructor; [assumption|eapply IH; eassumption].
Qed.

(** X1: for paths that are all absolute or all relative, [commonpath]
    returns (it never runs past the end of the greatest path), and its
    result, read as a path, is a prefix of every given path: each path that
    does not start with exactly two slashes is relative to it, so the
    materializer's [relative_to] cannot fail on such an input. *)
Theorem commonpath_is_common_prefix :
  forall p0 ps,
    (forall p, In p ps -> isabs p = isabs p0) ->
    exists common,
      commonpath (p0 :: ps) = Ok common
      /\ forall p, In p (p0 :: ps) ->
           is_prefix (parts (parse_path common)) (parts (parse_path p)) = true
           /\ (anchor (parse_path p) <> "//" ->
               exists rel,
                 relative_to (parse_path p) (parse_path common) = Ok (mkPath "" rel)
                 /\ parts (parse_path p) = (parts (parse_path common) ++ rel)%list).
Proof.
  intros p0 ps Hkind.
  set (components := fun p => filter keep_component (Py.split slash p)).
  destruct (list_min_spec (map components ps) (components p0)) as (Hm0 & Hm & Hmin).
  destruct (list_max_spec (map components ps) (components p0)) as (HM0 & HM & HMin).
  set (s1 := list_min (components p0) (map components ps)) in *.
  set (s2 := list_max (components p0) (map components ps)) in *.
  assert (Hle : forall y, In y (components p0 :: map components ps) ->
                          list_ltb y s1 = false /\ list_ltb s2 y = false).
  { intros y [<-|Hy]; [split; assumption|]. split; [now apply Hm|now apply HM]. }
  destruct (common_components_ok s1 s2 (proj1 (Hle s2 HMin))) as (c & Hc).
  assert (Hall : forallb (fun p => Bool.eqb (isabs p) (isabs p0)) ps = true).
  { apply forallb_forall. intros p Hp. rewrite (Hkind p Hp). apply Bool.eqb_reflx. }
  assert (Hclean : Forall (fun x => has_char slash x = false) c
                   /\ Forall (fun x => keep_component x = true) c).
  { pose proof (common_components_between s1 s2 c s1 Hc (list_ltb_irrefl s1)
                  (proj2 (Hle s1 Hmin))) as Hpre.
    assert (Hs1 : exists q, s1 = components q).
    { destruct Hmin as [<-|Hin]; [now exists p0|].
      apply in_map_iff in Hin. destruct Hin as (q & <- & _). now exists q. }
    destruct Hs1 as (q & Hq). rewrite Hq in Hpre.
    destruct (components_clean q) as [C1 C2].
    split; eapply is_prefix_Forall; eassumption. }
  destruct Hclean as [C1 C2].
  exists ((if isabs p0 then "/" else "") ++ Py.join "/" c). split.
  - unfold commonpath. cbv zeta. rewrite Hall.
    match goal with
    | |- context [common_components ?a ?b] =>
        change (common_components a b) with (common_components s1 s2)
    end.
    now rewrite Hc.
  - intros p Hp. rewrite (parse_join_components (isabs p0) c C1 C2).
    cbn [parts anchor]. rewrite parse_path_parts. fold (components p).
    assert (Hpre : is_prefix c (components p) = true).
    { assert (Hin : In (components p) (components p0 :: map components ps)).
      { destruct Hp as [<-|Hp]; [now left|right; now apply in_map]. }
      destruct (Hle _ Hin). eapply common_components_between; eassumption. }
    split; [exact Hpre|]. intros Ha.
    destruct (is_prefix_strip c (components p) Hpre) as (rel & Hs & Hr).
    exists rel. split; [|exact Hr].
    unfold relative_to. cbn [anchor parts].
    assert (Hk : isabs p = isabs p0) by (destruct Hp as [<-|Hp]; auto).
    destruct (parse_path_anchor p) as [E|E]; [contradiction|].
    rewrite E, Hk, String.eqb_refl, parse_path_parts. fold (components p).
    now rewrite Hs.
Qed.

Lemma commonpath_is_common_prefix_witness :
  exists common,
    commonpath ["/proj/pkg/a.py"; "/proj/pkg/sub/b.py"; "/proj/main.py"] = Ok common
    /\ relative_to (parse_path "/proj/pkg/sub/b.py") (parse_path common)
       = Ok (mkPath "" ["pkg"; "sub"; "b.py"]).
Proof.
  destruct (commonpath_is_common_prefix "/proj/pkg/a.py"
              ["/proj/pkg/sub/b.py"; "/proj/main.py"]) as (common & Hc & Hall).
  - intros p [<-|[<-|[]]]; reflexivity.
  - exists common. split; [exact Hc|].
    destruct (Hall "/proj/pkg/sub/b.py" (or_intror (or_introl eq_refl))) as [_ Hrel].
    destruct Hrel as (rel & Hr & Hparts); [discriminate|].
    rewrite Hr. f_equal. f_equal.
    assert (E : common = "/proj") by (vm_compute in Hc; congruence).
    subst common. vm_compute in Hparts. injection Hparts as <-. reflexivity.
Defined.

(** X2: when the selection mixes absolute and relative paths,
    [commonpath] raises before any unit is looked at, and the pipeline
    returns the initial report with the failure summary "Can't mix
    absolute and relative paths". *)
Theorem mixed_paths_fail_the_pipeline :
  forall w code_files_content p0 ps p,
    In p ps -> isabs p <> isabs p0 ->
    commonpath (p0 :: ps) = Raise (ValueError "Can't mix absolute and relative paths")
    /\ run_testing_pipeline w code_files_content (p0 :: ps)
       = dict_set "summary"
           (PDict [("overall_status", PStr "Failure");
                   ("message", PStr "Can't mix absolute and relative paths")])
           initial_report.
Proof.
  intros w contents p0 ps p Hin Hne.
  assert (Hc : commonpath (p0 :: ps)
               = Raise (ValueError "Can't mix absolute and relative paths")).
  { unfold commonpath.
    destruct (forallb (fun q => Bool.eqb (isabs q) (isabs p0)) ps) eqn:E;
      [|reflexivity].
    rewrite forallb_forall in E. specialize (E p Hin).
    apply Bool.eqb_prop in E. contradiction. }
  split; [exact Hc|].
  unfold run_testing_pipeline, run_testing_pipeline_in, try_body,
    _setup_project_structure.
  rewrite Hc. reflexivity.
Qed.

Lemma mixed_paths_fail_the_pipeline_witness :
  summary_message (run_testing_pipeline quiet_world ["x = 1"; "y = 2"]
                     ["/proj/a.py"; "scripts/b.py"])
  = Some (PStr "Can't mix absolute and relative paths").
Proof.
  destruct (mixed_paths_fail_the_pipeline quiet_world ["x = 1"; "y = 2"]
              "/proj/a.py" ["scripts/b.py"] "scripts/b.py") as [_ H].
  - now left.
  - discriminate.
  - rewrite H. reflexivity.
Defined.

(** ** Edge cases of the materializer *)

Lemma setup_loop_short_paths :
  forall root common contents paths i sp mn st,
    i <= List.length paths ->
    List.length paths < i + List.length contents ->
    exists e st', setup_loop root common contents paths i sp mn st = (Raise e, st').
Proof.
  intros root common contents paths.
  induction contents as [|content rest IH]; intros i sp mn st Hi Hlen.
  - cbn in Hlen. lia.
  - cbn [setup_loop List.length] in *. cbv [bind lift]. unfold list_item.
    destruct (nth_error paths i) as [p|] eqn:Hp; [|eexists; eexists; reflexivity].
    assert (Hlt : i < List.length paths) by (apply nth_error_Some; congruence).
    destruct (negb _); [apply IH; lia|].
    destruct (relative_to _ _) as [rel|e]; [|eexists; eexists; reflexivity].
    destruct (on_fs (mkdir_parents _) st) as [[u|e] st1];
      [|eexists; eexists; reflexivity].
    destruct (on_fs (write_text _ _) st1) as [[u2|e] st2];
      [|eexists; eexists; reflexivity].
    destruct (with_suffix_empty rel) as [stem|e]; [|eexists; eexists; reflexivity].
    apply IH; lia.
Qed.

(** X3: a selection with fewer paths than contents is never
    materialized: the loop runs past the end of the path list (or fails
    before), so the materializer raises and the pipeline reports
    "Failure". *)
Theorem fewer_paths_than_contents_fails :
  forall w code_files_content file_paths,
    List.length file_paths < List.length code_files_content ->
    (exists e st',
        _setup_project_structure (project_root_of w) code_files_content file_paths
          (enter_temp_dir w) = (Raise e, st'))
    /\ overall_status (run_testing_pipeline w code_files_content file_paths)
       = Some (PStr "Failure").
Proof.
  intros w contents paths Hlen.
  assert (H : exists e st',
             _setup_project_structure (project_root_of w) contents paths
               (enter_temp_dir w) = (Raise e, st')).
  { unfold _setup_project_structure. cbv [bind lift].
    destruct (match paths with [] => Ok "." | _ :: _ => commonpath paths end)
      as [common_base|e]; [|eexists; eexists; reflexivity].
    destruct (setup_loop_short_paths (project_root_of w) (parse_path common_base)
                contents paths 0 [] [] (enter_temp_dir w)) as (e & st' & ->);
      [lia | lia |].
    eexists; eexists; reflexivity. }
  split; [exact H|].
  destruct H as (e & st' & H).
  apply (pipeline_fails_without_sources w contents paths st').
  left. exists e. exact H.
Qed.

Lemma fewer_paths_than_contents_fails_witness :
  summary_message (run_testing_pipeline quiet_world ["notes"; "x = 1"]
                     ["/proj/README.md"])
  = Some (PStr "list index out of range")
  /\ overall_status (run_testing_pipeline quiet_world ["notes"; "x = 1"]
                       ["/proj/README.md"])
     = Some (PStr "Failure").
Proof.
  split; [reflexivity|].
  apply (fewer_paths_than_contents_fails quiet_world ["notes"; "x = 1"]
           ["/proj/README.md"]).
  cbn. lia.
Defined.

Lemma setup_loop_no_python :
  forall root common contents paths i sp mn st,
    List.length contents + i <= List.length paths ->
    Forall (fun p => is_python_path p = false)
           (firstn (List.length contents) (skipn i paths)) ->
    setup_loop root common contents paths i sp mn st = (Ok (sp, mn), st).
Proof.
  intros root common contents paths.
  induction contents as [|content rest IH]; intros i sp mn st Hlen Hnone;
    [reflexivity|].
  cbn [List.length] in *.
  destruct (@list_item_lt paths i ltac:(lia)) as (p & Hp & Hn).
  rewrite (skipn_nth_error paths i p Hn) in Hnone. cbn [firstn] in Hnone.
  inversion Hnone as [|? ? Hpy Hrest]; subst.
  cbn [setup_loop]. cbv [bind lift]. rewrite Hp.
  unfold is_python_path in Hpy. rewrite Hpy. cbn [negb].
  apply IH; [lia|exact Hrest].
Qed.

(** X4: when every unit has a path, the paths are all absolute or all
    relative and none of the units' paths carries the .py suffix, the
    materializer writes no unit, no process is started, and the pipeline
    returns the initial report under the failure summary "Setup failed: No
    valid Python modules found in selection." *)
Theorem no_python_unit_fails_setup :
  forall w code_files_content file_paths,
    List.length code_files_content <= List.length file_paths ->
    (forall p0 ps p, file_paths = p0 :: ps -> In p ps -> isabs p = isabs p0) ->
    Forall (fun p => is_python_path p = false)
           (firstn (List.length code_files_content) file_paths) ->
    run_testing_pipeline w code_files_content file_paths
    = dict_set "summary"
        (PDict [("overall_status", PStr "Failure");
                ("message",
                 PStr "Setup failed: No valid Python modules found in selection.")])
        initial_report
    /\ calls (snd (run_testing_pipeline_in w code_files_content file_paths)) = [].
Proof.
  intros w contents paths Hlen Hkind Hnone.
  assert (Hc : exists common_base,
             match paths with [] => Ok "." | _ :: _ => commonpath paths end
             = Ok common_base).
  { destruct paths as [|p0 ps]; [eexists; reflexivity|].
    destruct (commonpath_is_common_prefix p0 ps) as (common & Hc & _);
      [intros p Hp; now apply (Hkind p0 ps)|].
    exists common. exact Hc. }
  destruct Hc as (common_base & Hc).
  unfold run_testing_pipeline, run_testing_pipeline_in, try_body,
    _setup_project_structure.
  rewrite Hc. cbv [bind lift].
  rewrite (setup_loop_no_python (project_root_of w) (parse_path common_base)
             contents paths 0 [] [] (enter_temp_dir w));
    [|lia|exact Hnone].
  split; reflexivity.
Qed.

Lemma no_python_unit_fails_setup_witness :
  summary_message (run_testing_pipeline sample_world ["notes"; "[tool]"]
                     ["/proj/README.md"; "/proj/cfg/.py"])
  = Some (PStr "Setup failed: No valid Python modules found in selection.").
Proof.
  destruct (no_python_unit_fails_setup sample_world ["notes"; "[tool]"]
              ["/proj/README.md"; "/proj/cfg/.py"]) as [H _].
  - cbn. lia.
  - intros p0 ps p E Hin. injection E as <- <-.
    destruct Hin as [<-|[]]. reflexivity.
  - repeat constructor.
  - rewrite H. reflexivity.
Defined.



(** ** The search-based generator: invocations and accounting *)

Lemma subprocess_run_calls :
  forall w command cwd st r st',
    subprocess_run w command cwd st = (r, st') ->
    calls st' = (calls st ++ [command])%list.
Proof.
  intros w command cwd st r st' H. unfold subprocess_run in H.
  destruct (run_process w command cwd st) as [r0 fs']. now injection H as _ <-.
Qed.

Lemma take_length : forall n s, String.length (Py.take n s) <= n.
Proof.
  induction n as [|n IH]; intros s; [reflexivity|].
  destruct s as [|a s]; cbn; [lia|]. specialize (IH s). lia.
Qed.

Lemma pynguin_loop_log :
  forall w pp op modules g errs st g' errs' st',
    pynguin_loop w pp op modules g errs st = (Ok (g', errs'), st') ->
    calls st' = (calls st ++ map (pynguin_command pp op) modules)%list
    /\ exists new,
        errs' = (errs ++ new)%list
        /\ (g' + Z.of_nat (List.length new) = g + Z.of_nat (List.length modules))%Z
        /\ (g <= g')%Z
        /\ Forall (truncated_error modules) new.
Proof.
  intros w pp op modules.
  induction modules as [|m rest IH]; intros g errs st g' errs' st' H.
  - cbn in H. unfold ret in H. injection H as <- <- <-. cbn.
    split; [now rewrite app_nil_r|]. exists []. rewrite app_nil_r.
    repeat split; try lia; constructor.
  - cbn [pynguin_loop] in H. unfold bind in H.
    destruct (subprocess_run w (pynguin_command pp op m) None st)
      as [[p|e] st1] eqn:Hrun; [|discriminate H].
    apply subprocess_run_calls in Hrun.
    assert (Hweak : forall new, Forall (truncated_error rest) new ->
                                Forall (truncated_error (m :: rest)) new).
    { intros new HF. eapply Forall_impl; [|exact HF].
      intros entry (module & text & Hin & E & Hl).
      exists module, text. split; [now right|auto]. }
    destruct (returncode p =? 0)%Z.
    + apply IH in H. destruct H as (Hc & new & -> & Hg & Hle & HF).
      split; [rewrite Hc, Hrun, <- app_assoc; reflexivity|].
      exists new. cbn [List.length]. repeat split; try lia. now apply Hweak.
    + apply IH in H. destruct H as (Hc & new & -> & Hg & Hle & HF).
      split; [rewrite Hc, Hrun, <- app_assoc; reflexivity|].
      eexists. rewrite <- app_assoc. split; [reflexivity|].
      cbn [app List.length]. repeat split; try lia.
      constructor; [|now apply Hweak].
      exists m, (Py.take 500 (stderr p)).
      split; [now left|]. split; [reflexivity|apply take_length].
Qed.

(** X6: when the search-based stage returns, it has started exactly one
    process per module, in the order of the module list, each with the
    project path, the output path, the module's name and the search budget
    of 60. *)
Theorem search_based_stage_invocations :
  forall w project_path output_path modules st report st',
    _run_test_generation w project_path output_path modules st = (Ok report, st') ->
    calls st'
    = (calls st
       ++ map (fun module =>
                 ["pynguin"; "--project-path"; path_str project_path;
                  "--output-path"; path_str output_path;
                  "--module-name"; module; "--maximum-search-time"; "60"])
              modules)%list.
Proof.
  intros w pp op modules st report st' H.
  unfold _run_test_generation, bind in H.
  destruct (pynguin_loop w pp op modules 0 [] st) as [[[g errs]|e] st1] eqn:E;
    [|discriminate H].
  unfold ret in H. injection H as _ <-.
  apply pynguin_loop_log in E. destruct E as [Hc _]. exact Hc.
Qed.

Lemma search_based_stage_invocations_witness :
  let w := failing_world in
  let root := project_root_of w in
  let tests := path_join root (parse_path "tests") in
  calls (snd (_run_test_generation w root tests ["a"; "pkg.b"] (enter_temp_dir w)))
  = [["pynguin"; "--project-path"; "/tmp/tmpq3v8x1";
      "--output-path"; "/tmp/tmpq3v8x1/tests";
      "--module-name"; "a"; "--maximum-search-time"; "60"];
     ["pynguin"; "--project-path"; "/tmp/tmpq3v8x1";
      "--output-path"; "/tmp/tmpq3v8x1/tests";
      "--module-name"; "pkg.b"; "--maximum-search-time"; "60"]].
Proof.
  intros w root tests.
  exact (search_based_stage_invocations w root tests ["a"; "pkg.b"]
           (enter_temp_dir w) _ _ eq_refl).
Defined.

Lemma pynguin_loop_errors :
  forall w pp op modules g errs st g' errs' st',
    pynguin_loop w pp op modules g errs st = (Ok (g', errs'), st') ->
    errs' = (errs ++ pynguin_error_entries modules
                       (pynguin_runs w pp op modules st))%list.
Proof.
  intros w pp op modules.
  induction modules as [|m rest IH]; intros g errs st g' errs' st' H.
  - cbn in H. unfold ret in H. injection H as _ <- _. cbn. now rewrite app_nil_r.
  - cbn [pynguin_loop pynguin_runs] in *. unfold bind in H.
    destruct (subprocess_run w (pynguin_command pp op m) None st)
      as [[p|e] st1]; [|discriminate H].
    cbn [pynguin_error_entries].
    destruct (returncode p =? 0)%Z.
    + exact (IH _ _ _ _ _ _ H).
    + rewrite (IH _ _ _ _ _ _ H), <- app_assoc. reflexivity.
Qed.

(** X7: when the search-based stage returns, every module is accounted
    for exactly once: the number of generated suites plus the number of
    error entries is the number of modules tested, and the error list
    holds, in order, one entry for every module whose process exited with
    a status other than 0: the module's name and the first 500 characters
    of that process's standard error followed by "...". *)
Theorem search_based_stage_accounting :
  forall w project_path output_path modules st report st',
    _run_test_generation w project_path output_path modules st = (Ok report, st') ->
    exists generated errors,
      dict_get "modules_tested" report = Some (PInt (Z.of_nat (List.length modules)))
      /\ dict_get "test_suites_generated" report = Some (PInt generated)
      /\ dict_get "errors" report = Some (PList errors)
      /\ (0 <= generated)%Z
      /\ (generated + Z.of_nat (List.length errors)
          = Z.of_nat (List.length modules))%Z
      /\ Forall (truncated_error modules) errors
      /\ errors
         = pynguin_error_entries modules
             (pynguin_runs w project_path output_path modules st).
Proof.
  intros w pp op modules st report st' H.
  unfold _run_test_generation, bind in H.
  destruct (pynguin_loop w pp op modules 0 [] st) as [[[g errs]|e] st1] eqn:E;
    [|discriminate H].
  unfold ret in H. injection H as <- _.
  pose proof (pynguin_loop_errors _ _ _ _ _ _ _ _ _ _ E) as Herrs.
  apply pynguin_loop_log in E. destruct E as (_ & new & -> & Hg & Hle & HF).
  exists g, new. cbn [app] in *.
  repeat split; try reflexivity; try lia; assumption.
Qed.

Lemma search_based_stage_accounting_witness :
  let w := failing_world in
  let root := project_root_of w in
  let tests := path_join root (parse_path "tests") in
  let report :=
    match fst (_run_test_generation w root tests ["a"; "pkg.b"] (enter_temp_dir w)) with
    | Ok r => r
    | Raise _ => []
    end in
  exists generated errors,
    dict_get "test_suites_generated" report = Some (PInt generated)
    /\ dict_get "errors" report = Some (PList errors)
    /\ (generated + Z.of_nat (List.length errors) = 2)%Z
    /\ errors
       = [PDict [("module", PStr "a");
                 ("error", PStr "error: search budget exhausted...")];
          PDict [("module", PStr "pkg.b");
                 ("error", PStr "error: search budget exhausted...")]].
Proof.
  intros w root tests report.
  destruct (search_based_stage_accounting w root tests ["a"; "pkg.b"]
              (enter_temp_dir w) _ _ eq_refl)
    as (generated & errors & _ & Hg & He & _ & Hsum & _ & Hexact).
  exists generated, errors. split; [exact Hg|]. split; [exact He|].
  split; [exact Hsum|exact Hexact].
Defined.

(** ** The AI-prompted generator: what it writes *)

Lemma walk_app :
  forall fs0 a b cur,
    walk fs0 cur (a ++ b)
    = match walk fs0 cur a with
      | inr k => walk fs0 k b
      | inl e => inl e
      end.
Proof.
  intros fs0 a b. induction a as [|c a IH]; intros cur; [reflexivity|].
  cbn [app walk]. destruct (fs0 cur) as [[|content]|]; try reflexivity. apply IH.
Qed.

Lemma basename_no_slash : forall p, has_char slash (basename p) = false.
Proof.
  intros p. unfold basename.
  destruct (Py.last_item (Py.split slash p)) as [b|] eqn:E; [|reflexivity].
  apply last_item_In in E.
  pose proof (split_pieces_no_sep slash p) as HF.
  rewrite Forall_forall in HF. now apply HF.
Qed.

Lemma parse_path_single :
  forall s, has_char slash s = false -> keep_component s = true ->
            parse_path s = mkPath "" [s].
Proof.
  intros s Hs Hk. unfold parse_path, splitroot.
  destruct s as [|a s']; [discriminate Hk|].
  destruct (has_char_sym_false slash a s' Hs) as [Ha _]. rewrite Ha.
  rewrite (split_no_sep slash _ Hs). cbn [filter]. now rewrite Hk.
Qed.

Lemma test_file_path_parts :
  forall tests filename,
    has_char slash filename = false ->
    path_join tests (parse_path ("test_gemini_" ++ filename))
    = mkPath (anchor tests) (parts tests ++ ["test_gemini_" ++ filename]).
Proof.
  intros tests filename H.
  rewrite parse_path_single; [reflexivity| exact H | reflexivity].
Qed.

Lemma write_text_into_dir :
  forall a dparts name content fs1 r fs2,
    String.eqb name ".." = false ->
    write_text (mkPath a (dparts ++ [name])) content fs1 = (r, fs2) ->
    (forall q, fs2 q = fs1 q)
    \/ exists k,
        walk fs1 [] dparts = inr k
        /\ fs1 (k ++ [name])%list <> Some Dir
        /\ forall q, fs2 q = fs_set fs1 (k ++ [name]) (File content) q.
Proof.
  intros a dparts name content fs1 r fs2 Hname H.
  unfold write_text in H. cbn [parts] in H. rewrite walk_app in H.
  destruct (walk fs1 [] dparts) as [e|k]; [injection H as _ <-; now left|].
  cbn [walk] in H. rewrite Hname in H.
  destruct (fs1 k) as [[|c]|]; try (injection H as _ <-; now left).
  destruct (fs1 (k ++ [name])%list) as [[|c]|] eqn:E;
    injection H as _ <-; [now left| |];
    right; exists k; rewrite E; repeat split; congruence.
Qed.

Lemma ai_try_body_frame :
  forall w tests i code p gtd st r gtd' st',
    ai_try_body w tests i code (basename p) gtd st = ((r, gtd'), st') ->
    (forall q, fs st' q = fs st q)
    \/ exists k content,
        walk (fs st) [] (parts tests) = inr k
        /\ fs st (k ++ [("test_gemini_" ++ basename p)%string])%list <> Some Dir
        /\ forall q, fs st' q
                     = fs_set (fs st) (k ++ [("test_gemini_" ++ basename p)%string])
                         (File content) q.
Proof.
  intros w tests i code p gtd st r gtd' st' H. unfold ai_try_body in H.
  destruct (generate_content w i code) as [response|e];
    [|injection H as _ _ <-; now left].
  destruct (candidates response); [injection H as _ _ <-; now left|].
  destruct (text response) as [test_code|e]; [|injection H as _ _ <-; now left].
  destruct (Py.truthy _); [|injection H as _ _ <-; now left].
  rewrite (test_file_path_parts tests (basename p) (basename_no_slash p)) in H.
  unfold on_fs in H.
  destruct (write_text _ (cleaned_code_of test_code) (fs st)) as [ru fs2] eqn:W.
  assert (Hfs : fs st' = fs2) by (destruct ru; injection H as _ _ <-; reflexivity).
  rewrite Hfs.
  destruct (write_text_into_dir (anchor tests) (parts tests)
              ("test_gemini_" ++ basename p) _ _ _ _ eq_refl W)
    as [Hsame|(k & Hw & Hd & Hset)].
  - now left.
  - right. exists k, (cleaned_code_of test_code). auto.
Qed.

Lemma only_adds_files_step :
  forall before mid after dir prefix file_paths p k content,
    only_adds_files before mid dir prefix file_paths ->
    In p file_paths ->
    walk mid [] (parts dir) = inr k ->
    mid (k ++ [(prefix ++ basename p)%string])%list <> Some Dir ->
    (forall q, after q = fs_set mid (k ++ [(prefix ++ basename p)%string]) (File content) q) ->
    only_adds_files before after dir prefix file_paths.
Proof.
  intros before mid after dir prefix file_paths p k content Hinv Hp Hw Hd Hset q Hq.
  assert (Hdirs : forall x, mid x = Some Dir -> before x = Some Dir).
  { intros x Hx.
    destruct (before x) as [[|c]|] eqn:B; [reflexivity| |];
      destruct (Hinv x) as (k0 & p0 & c0 & _ & _ & _ & Hf & _); congruence. }
  rewrite Hset in Hq |- *. unfold fs_set in *.
  destruct (key_eqb (k ++ [(prefix ++ basename p)%string]) q) eqn:K.
  - apply key_eqb_eq in K. subst q.
    exists k, p, content. split; [exact (walk_preserved mid before _ _ _ Hdirs Hw)|].
    repeat split; auto.
    intros Hb. destruct (Hinv (k ++ [(prefix ++ basename p)%string])%list)
      as (k0 & p0 & c0 & _ & _ & _ & _ & Hnd); congruence.
  - destruct (Hinv q Hq) as (k0 & p0 & c0 & H1 & H2 & H3 & H4 & H5).
    exists k0, p0, c0. auto.
Qed.

Lemma only_adds_files_same :
  forall before mid after dir prefix file_paths,
    only_adds_files before mid dir prefix file_paths ->
    (forall q, after q = mid q) ->
    only_adds_files before after dir prefix file_paths.
Proof.
  intros before mid after dir prefix file_paths Hinv Hsame q Hq.
  rewrite Hsame in Hq |- *. now apply Hinv.
Qed.

Lemma ai_loop_frame :
  forall w tests contents paths i g errs gtd st0 st r st',
    only_adds_files (fs st0) (fs st) tests "test_gemini_" paths ->
    ai_loop w tests contents paths i g errs gtd st = (r, st') ->
    only_adds_files (fs st0) (fs st') tests "test_gemini_" paths.
Proof.
  intros w tests contents paths.
  induction contents as [|code rest IH]; intros i g errs gtd st0 st r st' Hinv H.
  - cbn in H. unfold ret in H. now injection H as _ <-.
  - cbn [ai_loop] in H. unfold bind, lift, list_item in H.
    destruct (nth_error paths i) as [p|] eqn:Hp; [|now injection H as _ <-].
    apply nth_error_In in Hp.
    destruct (ai_try_body w tests i code (basename p) gtd st)
      as [[ru gtd1] st1] eqn:E.
    assert (Hinv1 : only_adds_files (fs st0) (fs st1) tests "test_gemini_" paths).
    { destruct (ai_try_body_frame _ _ _ _ _ _ _ _ _ _ E)
        as [Hsame|(k & content & Hw & Hd & Hset)].
      - eapply only_adds_files_same; eassumption.
      - eapply only_adds_files_step; eassumption. }
    destruct ru as [u|e]; eapply IH; eassumption.
Qed.

(** X8: whatever the model answers, the AI-prompted stage starts no
    process and changes the file system only by creating or overwriting
    regular files named "test_gemini_" followed by the base name of a
    selected path, directly inside the tests directory; nothing else (no
    source file, no directory, no test file of the other generator) is
    touched. *)
Theorem ai_stage_only_adds_its_test_files :
  forall w tests_path code_contents file_paths st r st',
    _run_ai_test_generation w tests_path code_contents file_paths st = (r, st') ->
    calls st' = calls st
    /\ only_adds_files (fs st) (fs st') tests_path "test_gemini_" file_paths.
Proof.
  intros w tests contents paths st r st' H. split.
  - destruct (run_ai_test_generation_calls (fun _ => False) w tests contents paths st)
      as (l & Hl & HF).
    rewrite H in Hl. cbn [snd] in Hl. rewrite Hl.
    destruct l as [|c l]; [apply app_nil_r|]. inversion HF; contradiction.
  - unfold _run_ai_test_generation in H.
    destruct (negb _).
    + unfold ret in H. injection H as _ <-. intros q Hq. congruence.
    + unfold bind in H.
      destruct (ai_loop w tests contents paths 0 0 [] [] st) as [rl st1] eqn:E.
      assert (Hst : st' = st1).
      { destruct rl as [[[g errs] gtd]|e]; [unfold ret in H|];
          now injection H as _ <-. }
      subst st1. eapply ai_loop_frame; [|exact E].
      intros q Hq. congruence.
Qed.

Lemma ai_stage_only_adds_its_test_files_witness :
  let w := sample_world in
  let tests := path_join (project_root_of w) (parse_path "tests") in
  let st' := snd (_run_ai_test_generation w tests ["def add"; "def add"]
                    ["/proj/a.py"; "/proj/pkg/b.py"] (generation_state w)) in
  calls st' = []
  /\ fs st' ["tmp"; "tmpq3v8x1"; "tests"; "test_gemini_b.py"]
     = Some (File "def test_add(): assert add(1, 2) == 3").
Proof.
  intros w tests st'.
  destruct (ai_stage_only_adds_its_test_files w tests ["def add"; "def add"]
              ["/proj/a.py"; "/proj/pkg/b.py"] (generation_state w) _ _ eq_refl)
    as [Hcalls _].
  split; [exact Hcalls|reflexivity].
Defined.

(** ** What the materializer returns *)

Lemma drop_length :
  forall i s, String.length (Py.drop i s) = String.length s - i.
Proof.
  induction i as [|i IH]; intros s; [cbn; lia|].
  destruct s as [|a s]; [reflexivity|]. cbn. apply IH.
Qed.

Lemma rfind_dot_lt :
  forall name i, rfind_dot name = Some i -> i < String.length name.
Proof.
  induction name as [|a name IH]; intros i H; [discriminate H|].
  cbn in H. destruct (rfind_dot name) as [j|].
  - injection H as <-. specialize (IH j eq_refl). cbn. lia.
  - destruct (Ascii.eqb a dot); [injection H as <-; cbn; lia|discriminate H].
Qed.

Lemma suffix_shorter :
  forall name, Py.truthy name = true ->
               String.length (suffix_of_name name) < String.length name.
Proof.
  intros name Hn. unfold suffix_of_name.
  assert (Hpos : 0 < String.length name) by (destruct name; [discriminate|cbn; lia]).
  destruct (rfind_dot name) as [i|] eqn:E; [|exact Hpos].
  destruct (Nat.ltb 0 i && Nat.ltb i (String.length name - 1)) eqn:C; [|exact Hpos].
  apply andb_true_iff in C. destruct C as [C1 C2].
  apply Nat.ltb_lt in C1. rewrite drop_length. lia.
Qed.

Lemma take_truthy :
  forall n s, 0 < n -> Py.truthy s = true -> Py.truthy (Py.take n s) = true.
Proof.
  intros [|n] [|a s] Hn Hs; try lia; try discriminate. reflexivity.
Qed.

Lemma truthy_app_r :
  forall a b, Py.truthy b = true -> Py.truthy (a ++ b) = true.
Proof. intros [|c a] b H; [exact H|reflexivity]. Qed.

Lemma join_last_truthy :
  forall sep l x, Py.truthy x = true -> Py.truthy (Py.join sep (l ++ [x])) = true.
Proof.
  intros sep l x Hx. induction l as [|y l IH]; [exact Hx|].
  cbn [app]. destruct (l ++ [x])%list as [|z t] eqn:E;
    [now destruct l|].
  change (Py.join sep (y :: z :: t)) with (y ++ sep ++ Py.join sep (z :: t)).
  now apply truthy_app_r, truthy_app_r.
Qed.

Lemma with_suffix_empty_module_name :
  forall rel stem,
    with_suffix_empty rel = Ok stem ->
    Py.truthy (Py.join "." (parts stem)) = true.
Proof.
  intros rel stem H. unfold with_suffix_empty in H.
  destruct (Py.truthy (path_name rel)) eqn:Hn; [|discriminate H].
  injection H as <-. cbn [parts]. apply join_last_truthy, take_truthy; [|exact Hn].
  pose proof (suffix_shorter (path_name rel) Hn). lia.
Qed.

Lemma setup_loop_module_names :
  forall root common contents paths i sp mn st sp' mn' st',
    setup_loop root common contents paths i sp mn st = (Ok (sp', mn'), st') ->
    Forall (fun m => Py.truthy m = true) mn ->
    Forall (fun m => Py.truthy m = true) mn'.
Proof.
  intros root common contents paths.
  induction contents as [|content rest IH]; intros i sp mn st sp' mn' st' H HF.
  - cbn in H. unfold ret in H. now injection H as _ <- _.
  - cbn [setup_loop] in H. cbv [bind lift] in H.
    destruct (list_item paths i) as [p|e]; [|discriminate H].
    destruct (negb _); [eapply IH; eassumption|].
    destruct (relative_to _ _) as [rel|e]; [|discriminate H].
    destruct (on_fs (mkdir_parents _) st) as [[u|e] st1]; [|discriminate H].
    destruct (on_fs (write_text _ _) st1) as [[u2|e] st2]; [|discriminate H].
    destruct (with_suffix_empty rel) as [stem|e] eqn:Hstem; [|discriminate H].
    eapply IH; [exact H|]. apply Forall_app. split; [exact HF|].
    constructor; [|constructor].
    eapply with_suffix_empty_module_name, Hstem.
Qed.

Lemma filter_truthy_id :
  forall l, Forall (fun m => Py.truthy m = true) l -> filter Py.truthy l = l.
Proof.
  intros l H. apply forallb_filter_id, forallb_forall.
  rewrite Forall_forall in H. exact H.
Qed.

Lemma coverage_runner_calls :
  forall w project_path modules st,
    filter Py.truthy modules <> [] ->
    calls (snd (_run_coverage_analysis w project_path modules st))
    = (calls st
       ++ [coverage_command project_path (Py.join "," (filter Py.truthy modules))])%list.
Proof.
  intros w pp modules st H. unfold _run_coverage_analysis.
  rewrite (join_truthy "," _ H (filter_truthy_Forall modules)).
  cbn [negb]. unfold bind.
  destruct (subprocess_run w _ (Some (path_str pp)) st) as [[result|e] st1] eqn:E;
    apply subprocess_run_calls in E; [|exact E].
  destruct (exists_ _ (fs st1)); [|exact E].
  unfold lift, ret.
  destruct (read_text _ (fs st1)) as [content|e]; [|exact E].
  destruct (json_load w content) as [report|e]; [|exact E].
  destruct (py_get report "totals" _); [|exact E].
  destruct (py_get report "files" _); exact E.
Qed.

(** X9: the two lists the materializer returns are parallel and every
    module name in them is non-empty; so, once the pipeline has found a
    source path, the coverage runner's scope is the whole module list, its
    "No modules to cover." guard cannot fire and the test runner is always
    started. *)
Theorem materializer_names_are_usable :
  forall root contents paths st source_paths module_names st',
    _setup_project_structure root contents paths st
    = (Ok (source_paths, module_names), st') ->
    List.length source_paths = List.length module_names
    /\ Forall (fun m => m <> "") module_names
    /\ (source_paths <> [] ->
        forall w project_path st2,
          calls (snd (_run_coverage_analysis w project_path module_names st2))
          = app (calls st2)
              [["pytest"; "--cov=" ++ Py.join "," module_names;
                "--cov-report=json:"
                  ++ path_str (path_join project_path (parse_path "coverage.json"));
                path_str (path_join project_path (parse_path "tests"))]]).
Proof.
  intros root contents paths st sp mn st' H.
  unfold _setup_project_structure in H. cbv [bind lift] in H.
  destruct (match paths with [] => Ok "." | _ :: _ => commonpath paths end)
    as [common_base|e]; [|discriminate H].
  destruct (setup_loop root (parse_path common_base) contents paths 0 [] [] st)
    as [[[sp0 mn0]|e] st1] eqn:Hloop; [|discriminate H].
  unfold on_fs, ret in H. injection H as <- <- _.
  pose proof (setup_loop_lengths _ _ _ _ _ _ _ _ _ _ _ Hloop) as [Hmn Hsp].
  pose proof (setup_loop_module_names _ _ _ _ _ _ _ _ _ _ _ Hloop (Forall_nil _))
    as Htruthy.
  cbn [List.length] in Hmn, Hsp.
  split; [lia|]. split.
  - eapply Forall_impl; [|exact Htruthy]. intros m Hm E. subst m. discriminate Hm.
  - intros Hne w pp st2.
    rewrite coverage_runner_calls; rewrite (filter_truthy_id mn0 Htruthy).
    + reflexivity.
    + destruct sp0; [congruence|]. destruct mn0; [cbn in *; lia|discriminate].
Qed.

Lemma materializer_names_are_usable_witness :
  let r := fst (_setup_project_structure (project_root_of quiet_world)
                  ["x = 1"; "y = 2"; "notes"]
                  ["/proj/a.py"; "/proj/pkg/b.py"; "/proj/README.md"]
                  (enter_temp_dir quiet_world)) in
  r = Ok (["/tmp/tmpq3v8x1/a.py"; "/tmp/tmpq3v8x1/pkg/b.py"], ["a"; "pkg.b"])
  /\ Forall (fun m => m <> "") ["a"; "pkg.b"].
Proof.
  intros r. split; [reflexivity|].
  destruct (materializer_names_are_usable (project_root_of quiet_world)
              ["x = 1"; "y = 2"; "notes"]
              ["/proj/a.py"; "/proj/pkg/b.py"; "/proj/README.md"]
              (enter_temp_dir quiet_world) _ _ _ eq_refl) as (_ & H & _).
  exact H.
Defined.

(** ** The sequence of processes behind a successful report *)

Lemma calls_unchanged :
  forall A (m : M A) st,
    calls_extend (fun _ => False) m -> calls (snd (m st)) = calls st.
Proof.
  intros A m st H. destruct (H st) as (l & E & F). rewrite E.
  destruct l as [|c l]; [apply app_nil_r|]. inversion F; contradiction.
Qed.

Lemma setup_names :
  forall root contents paths st sp mn st',
    _setup_project_structure root contents paths st = (Ok (sp, mn), st') ->
    List.length sp = List.length mn /\ Forall (fun m => Py.truthy m = true) mn.
Proof.
  intros root contents paths st sp mn st' H.
  unfold _setup_project_structure in H. cbv [bind lift] in H.
  destruct (match paths with [] => Ok "." | _ :: _ => commonpath paths end)
    as [common_base|e]; [|discriminate H].
  destruct (setup_loop root (parse_path common_base) contents paths 0 [] [] st)
    as [[[sp0 mn0]|e] st1] eqn:Hloop; [|discriminate H].
  unfold on_fs, ret in H. injection H as <- <- _.
  pose proof (setup_loop_lengths _ _ _ _ _ _ _ _ _ _ _ Hloop) as [Hmn Hsp].
  cbn [List.length] in Hmn, Hsp. split; [lia|].
  exact (setup_loop_module_names _ _ _ _ _ _ _ _ _ _ _ Hloop (Forall_nil _)).
Qed.

Lemma run_test_generation_log :
  forall w pp op modules st report st',
    _run_test_generation w pp op modules st = (Ok report, st') ->
    calls st' = (calls st ++ map (pynguin_command pp op) modules)%list.
Proof.
  intros w pp op modules st report st' H.
  unfold _run_test_generation, bind in H.
  destruct (pynguin_loop w pp op modules 0 [] st) as [[[g errs]|e] st1] eqn:E;
    [|discriminate H].
  unfold ret in H. injection H as _ <-.
  now apply pynguin_loop_log in E.
Qed.

Lemma mutation_runner_log :
  forall w pp st report st',
    _run_mutation_testing w pp st = (Ok report, st') ->
    calls st' = (calls st ++ [["mutmut"; "run"; "--paths-to-mutate"; "."];
                              ["mutmut"; "results"]])%list
    /\ exists result score,
        mutation_score (stdout result) = Ok score
        /\ report = [("tool", PStr "mutmut");
                     ("success", PBool (returncode result =? 0)%Z);
                     ("score", PStr score);
                     ("raw_report", PStr (stdout result))].
Proof.
  intros w pp st report st' H. unfold _run_mutation_testing, bind in H.
  destruct (on_fs _ st) as [[u|e] st1] eqn:E1; [|discriminate H].
  assert (C1 : calls st1 = calls st).
  { unfold on_fs in E1. destruct (write_text _ _ (fs st)) as [r0 fs1].
    now injection E1 as _ <-. }
  destruct (subprocess_run w _ _ st1) as [[r1|e] st2] eqn:E2; [|discriminate H].
  apply subprocess_run_calls in E2.
  destruct (subprocess_run w _ _ st2) as [[result|e] st3] eqn:E3; [|discriminate H].
  apply subprocess_run_calls in E3.
  unfold lift in H.
  destruct (mutation_score (stdout result)) as [score|e] eqn:S; [|discriminate H].
  unfold ret in H. injection H as <- <-.
  split; [rewrite E3, E2, C1, <- app_assoc; reflexivity|].
  exists result, score. auto.
Qed.

Lemma coverage_runner_tool :
  forall w pp modules st report st',
    _run_coverage_analysis w pp modules st = (Ok report, st') ->
    dict_get "tool" report = Some (PStr "pytest-cov").
Proof.
  intros w pp modules st report st' H. unfold _run_coverage_analysis in H.
  destruct (negb _); [unfold ret in H; now injection H as <- _|].
  unfold bind in H.
  destruct (subprocess_run w _ _ st) as [[result|e] st1]; [|discriminate H].
  destruct (exists_ _ (fs st1)); [|unfold ret in H; now injection H as <- _].
  unfold lift, ret in H.
  destruct (read_text _ (fs st1)) as [content|e]; [|discriminate H].
  destruct (json_load w content) as [rep|e]; [|discriminate H].
  destruct (py_get rep "totals" _); [|discriminate H].
  destruct (py_get rep "files" _); [|discriminate H].
  now injection H as <- _.
Qed.

(** X10: a report with overall status "Success" is always backed by a
    complete run: the materializer, the creation of the tests directory
    and the four stage runners all returned, each started in the state
    that the previous one left, and the four stage entries of the report
    are exactly what the four runners returned.  The processes started
    are one search-based generator run per materialized module, in order,
    then the coverage run scoped to all of these modules, then
    [mutmut run] and [mutmut results]; and the summary's mutation score
    is the score of the mutation entry. *)
Theorem success_report_process_trace :
  forall w code_files_content file_paths,
    let final := run_testing_pipeline w code_files_content file_paths in
    let root := project_root_of w in
    let tests := path_join root (parse_path "tests") in
    overall_status final = Some (PStr "Success") ->
    exists source_paths module_names st1 st2 pynguin st3 gemini st4
           coverage st5 mutation st6 score,
      _setup_project_structure root code_files_content file_paths (enter_temp_dir w)
      = (Ok (source_paths, module_names), st1)
      /\ module_names <> []
      /\ on_fs (mkdir tests) st1 = (Ok tt, st2)
      /\ _run_test_generation w root tests module_names st2 = (Ok pynguin, st3)
      /\ _run_ai_test_generation w tests code_files_content file_paths st3
         = (Ok gemini, st4)
      /\ _run_coverage_analysis w root module_names st4 = (Ok coverage, st5)
      /\ _run_mutation_testing w root st5 = (Ok mutation, st6)
      /\ snd (run_testing_pipeline_in w code_files_content file_paths) = st6
      /\ calls st6
         = (map (pynguin_command root tests) module_names
            ++ [coverage_command root (Py.join "," module_names);
                ["mutmut"; "run"; "--paths-to-mutate"; "."];
                ["mutmut"; "results"]])%list
      /\ dict_get "pynguin_test_generation" final = Some (PDict pynguin)
      /\ dict_get "gemini_test_generation" final = Some (PDict gemini)
      /\ dict_get "coverage_analysis" final = Some (PDict coverage)
      /\ dict_get "mutation_testing" final = Some (PDict mutation)
      /\ dict_get "tool" coverage = Some (PStr "pytest-cov")
      /\ dict_get "score" mutation = Some (PStr score)
      /\ match dict_get "summary" final with
         | Some (PDict summary) => dict_get "mutation_score" summary = Some (PStr score)
         | _ => False
         end.
Proof.
  intros w contents paths final root tests H. subst final.
  unfold run_testing_pipeline, run_testing_pipeline_in, try_body in *.
  fold root in H |- *. fold tests in H |- *.
  pose proof (calls_unchanged _ (_setup_project_structure root contents paths)
                (enter_temp_dir w) (setup_calls _ _ _ _)) as C1.
  destruct (_setup_project_structure root contents paths (enter_temp_dir w))
    as [[[sp mn]|e] st1] eqn:Hsetup; [|discriminate H].
  destruct (setup_names _ _ _ _ _ _ _ Hsetup) as [Hlen Htruthy].
  destruct sp as [|s0 sp]; [discriminate H|].
  assert (Hmn : mn <> []) by (destruct mn; [discriminate Hlen|discriminate]).
  pose proof (calls_unchanged _ (on_fs (mkdir tests)) st1
                (calls_extend_on_fs _ _ _)) as C2.
  destruct (on_fs (mkdir tests) st1) as [[[]|e] st2] eqn:Hmk; [|discriminate H].
  destruct (_run_test_generation w root tests mn st2) as [[pr|e] st3] eqn:Hp;
    [|discriminate H].
  pose proof (run_test_generation_log _ _ _ _ _ _ _ Hp) as C3.
  pose proof (calls_unchanged _ (_run_ai_test_generation w tests contents paths)
                st3 (run_ai_test_generation_calls _ _ _ _ _)) as C4.
  destruct (_run_ai_test_generation w tests contents paths st3) as [[gr|e] st4]
    eqn:Hg; [|discriminate H].
  destruct (not_get "success" pr && not_get "success" gr); [discriminate H|].
  pose proof (coverage_runner_calls w root mn st4) as C5.
  rewrite (filter_truthy_id mn Htruthy) in C5. specialize (C5 Hmn).
  destruct (_run_coverage_analysis w root mn st4) as [[cr|e] st5] eqn:Hcov;
    [|discriminate H].
  pose proof (coverage_runner_tool _ _ _ _ _ _ Hcov) as Htool.
  destruct (_run_mutation_testing w root st5) as [[mr|e] st6] eqn:Hmut;
    [|discriminate H].
  destruct (mutation_runner_log _ _ _ _ _ Hmut) as (C6 & result & score & Hscore & Hmr).
  destruct (py_get _ _ _) as [cov|e]; [|discriminate H].
  exists (s0 :: sp), mn, st1, st2, pr, st3, gr, st4, cr, st5, mr, st6, score.
  cbn [snd fst] in *.
  split; [reflexivity|]. split; [exact Hmn|].
  split; [exact Hmk|]. split; [exact Hp|]. split; [exact Hg|].
  split; [exact Hcov|]. split; [exact Hmut|]. split; [reflexivity|].
  split.
  - rewrite C6, C5, C4, C3, C2, C1. cbn [enter_temp_dir calls app].
    now rewrite <- app_assoc.
  - subst mr. repeat split; try reflexivity. exact Htool.
Qed.

Lemma success_report_process_trace_witness :
  let w := mkWorld ["tmp"; "tmpq3v8x1"] empty_fs None
             (fun _ _ st => (Ok (mkProc 0 ("3/4 killed (75.0%)" ++ nl) ""), fs st))
             no_model no_json removal_succeeds in
  let final := run_testing_pipeline w ["x = 1"; "y = 2"]
                 ["/proj/a.py"; "/proj/pkg/b.py"] in
  calls (snd (run_testing_pipeline_in w ["x = 1"; "y = 2"]
                ["/proj/a.py"; "/proj/pkg/b.py"]))
  = [["pynguin"; "--project-path"; "/tmp/tmpq3v8x1";
      "--output-path"; "/tmp/tmpq3v8x1/tests";
      "--module-name"; "a"; "--maximum-search-time"; "60"];
     ["pynguin"; "--project-path"; "/tmp/tmpq3v8x1";
      "--output-path"; "/tmp/tmpq3v8x1/tests";
      "--module-name"; "pkg.b"; "--maximum-search-time"; "60"];
     ["pytest"; "--cov=a,pkg.b";
      "--cov-report=json:/tmp/tmpq3v8x1/coverage.json"; "/tmp/tmpq3v8x1/tests"];
     ["mutmut"; "run"; "--paths-to-mutate"; "."];
     ["mutmut"; "results"]]
  /\ dict_get "mutation_testing" final
     = Some (PDict [("tool", PStr "mutmut"); ("success", PBool true);
                    ("score", PStr "75.0%");
                    ("raw_report", PStr ("3/4 killed (75.0%)" ++ nl))]).
Proof.
  intros w final.
  destruct (success_report_process_trace w ["x = 1"; "y = 2"]
              ["/proj/a.py"; "/proj/pkg/b.py"] eq_refl)
    as (sp & mn & st1 & st2 & pr & st3 & gr & st4 & cr & st5 & mr & st6 & score
        & Hsetup & _ & _ & _ & _ & _ & _ & Hend & Hcalls & _ & _ & _ & Hm & _).
  split.
  - rewrite Hend, Hcalls.
    assert (E : mn = ["a"; "pkg.b"]) by (vm_compute in Hsetup; congruence).
    subst mn. reflexivity.
  - reflexivity.
Defined.

(** ** More on the mutation score *)

Lemma lstrip_space_prefix :
  forall w s, Py.all_space w = true -> Py.lstrip (w ++ s) = Py.lstrip s.
Proof.
  induction w as [|a w IH]; intros s H; [reflexivity|].
  cbn in H. apply andb_true_iff in H. destruct H as [Ha Hw].
  cbn. rewrite Ha. now apply IH.
Qed.

Lemma lstrip_app_nonblank :
  forall s w, Py.all_space s = false -> Py.lstrip (s ++ w) = Py.lstrip s ++ w.
Proof.
  induction s as [|a s IH]; intros w H; [discriminate H|].
  cbn in H |- *. destruct (Py.isspace a); [|reflexivity].
  apply IH. exact H.
Qed.

Lemma strip_surrounding_space :
  forall w1 out w2,
    Py.all_space w1 = true -> Py.all_space w2 = true ->
    Py.strip (w1 ++ out ++ w2) = Py.strip out.
Proof.
  intros w1 out w2 H1 H2. unfold Py.strip.
  rewrite (lstrip_space_prefix w1 _ H1).
  destruct (Py.all_space out) eqn:S.
  - rewrite (lstrip_space_prefix out w2 S), (lstrip_all_space w2 H2),
      (lstrip_all_space out S). reflexivity.
  - rewrite (lstrip_app_nonblank out w2 S). now apply rstrip_space_suffix.
Qed.

Lemma split_pieces_keep_absent :
  forall c d s, has_char d s = false ->
                Forall (fun x => has_char d x = false) (Py.split c s).
Proof.
  intros c d. induction s as [|a s IH]; intros H; [repeat constructor|].
  apply has_char_sym_false in H. destruct H as [Ha Hs]. specialize (IH Hs).
  cbn [Py.split]. destruct (Ascii.eqb a c).
  - constructor; [reflexivity|exact IH].
  - destruct (Py.split c s) as [|h t]; [repeat constructor; cbn; now rewrite Ha|].
    inversion IH; subst. constructor; [cbn; now rewrite Ha|assumption].
Qed.

Lemma list_item_In :
  forall (l : list string) i x, list_item l i = Ok x -> In x l.
Proof.
  intros l i x H. unfold list_item in H.
  destruct (nth_error l i) as [y|] eqn:E; [|discriminate H].
  injection H as <-. eapply nth_error_In, E.
Qed.

(** X11: the mutation score does not depend on white space or blank
    lines around the summary output, and it is either "N/A" or a text
    without any parenthesis. *)
Theorem mutation_score_shape :
  forall out,
    (forall w1 w2,
        Py.all_space w1 = true -> Py.all_space w2 = true ->
        mutation_score (w1 ++ out ++ w2) = mutation_score out)
    /\ (forall score,
           mutation_score out = Ok score ->
           score = "N/A"
           \/ (has_char "("%char score = false /\ has_char ")"%char score = false)).
Proof.
  intros out. split.
  - intros w1 w2 H1 H2. unfold mutation_score.
    now rewrite (strip_surrounding_space w1 out w2 H1 H2).
  - intros score H.
    destruct (Py.last_item (Py.split "010"%char (Py.strip out))) as [b|] eqn:L.
    + rewrite (mutation_score_of_last_line out b L) in H.
      destruct (Py.contains "killed" b); [|injection H as <-; now left].
      destruct (Nat.ltb 1 _); [|injection H as <-; now left].
      destruct (list_item (Py.split "("%char b) 1) as [p1|e] eqn:P; [|discriminate H].
      right. apply list_item_In in P. apply list_item_In in H.
      pose proof (split_pieces_no_sep "("%char b) as F1.
      rewrite Forall_forall in F1. specialize (F1 p1 P).
      pose proof (split_pieces_keep_absent ")"%char "("%char p1 F1) as F2.
      pose proof (split_pieces_no_sep ")"%char p1) as F3.
      rewrite Forall_forall in F2, F3. auto.
    + unfold mutation_score in H.
      destruct (Py.split "010"%char (Py.strip out)) as [|l0 ls] eqn:E;
        [injection H as <-; now left|].
      rewrite L in H. discriminate H.
Qed.

Lemma mutation_score_shape_witness :
  mutation_score (nl ++ "  " ++ ("2/8 killed (25%)" ++ nl) ++ "   " ++ nl)
  = mutation_score ("2/8 killed (25%)" ++ nl)
  /\ mutation_score ("2/8 killed (25%)" ++ nl) = Ok "25%".
Proof.
  destruct (mutation_score_shape ("2/8 killed (25%)" ++ nl)) as [Hspace _].
  split; [|reflexivity].
  change (nl ++ "  " ++ ("2/8 killed (25%)" ++ nl) ++ "   " ++ nl)
    with ((nl ++ "  ") ++ ("2/8 killed (25%)" ++ nl) ++ ("   " ++ nl)).
  apply Hspace; reflexivity.
Defined.

(** ** The shape of the report *)

(** X12: whatever happens, the report has exactly the five entries of the
    initial report, in the same order: a stage result replaces its
    placeholder and nothing is added or lost. *)
Theorem report_always_has_the_five_entries :
  forall w code_files_content file_paths,
    map fst (run_testing_pipeline w code_files_content file_paths)
    = ["summary"; "pynguin_test_generation"; "gemini_test_generation";
       "coverage_analysis"; "mutation_testing"].
Proof.
  intros w contents paths.
  unfold run_testing_pipeline, run_testing_pipeline_in, try_body.
  repeat step_try_body; reflexivity.
Qed.

(** ** The security grade *)

(** X13: the grade of the security scan as a function of the findings:
    with the penalty 10 per high, 5 per medium and 2 per low severity
    issue, the grade is A up to a penalty of 10, B up to 25, C up to 40,
    D up to 60 and F beyond. *)
Theorem security_grade_by_penalty :
  forall high medium low : Z,
    (0 <= high)%Z -> (0 <= medium)%Z -> (0 <= low)%Z ->
    let penalty := (10 * high + 5 * medium + 2 * low)%Z in
    get_grade (security_score high medium low)
    = if (penalty <=? 10)%Z then "A (Excellent)"
      else if (penalty <=? 25)%Z then "B (Good)"
      else if (penalty <=? 40)%Z then "C (Fair)"
      else if (penalty <=? 60)%Z then "D (Poor)"
      else "F (Critical)".
Proof.
  intros high medium low Hh Hm Hl penalty.
  unfold get_grade, security_score.
  destruct (Z.leb_spec penalty 10); [|destruct (Z.leb_spec penalty 25);
    [|destruct (Z.leb_spec penalty 40); [|destruct (Z.leb_spec penalty 60)]]];
  repeat match goal with
         | |- context [(?a >=? ?b)%Z] => destruct (Z.geb_spec a b); try lia
         end; reflexivity.
Qed.

Lemma security_grade_by_penalty_witness :
  get_grade (security_score 2 1 3) = "C (Fair)".
Proof.
  exact (security_grade_by_penalty 2%Z 1%Z 3%Z ltac:(lia) ltac:(lia) ltac:(lia)).
Defined.

(** ** Which units are Python units *)

Lemma rfind_dot_none :
  forall t, rfind_dot t = None <-> has_char dot t = false.
Proof.
  induction t as [|a t IH]; [split; reflexivity|].
  cbn. destruct (rfind_dot t) as [j|].
  - split; [discriminate|]. intros H. apply orb_false_iff in H.
    destruct H as [_ H]. apply IH in H. discriminate H.
  - destruct (Ascii.eqb a dot); [split; discriminate|].
    cbn. split; intros _; [now apply IH|reflexivity].
Qed.

Lemma rfind_dot_app :
  forall s t, has_char dot t = false ->
              rfind_dot (s ++ String dot t) = Some (String.length s).
Proof.
  intros s t Ht. induction s as [|a s IH].
  - cbn. apply rfind_dot_none in Ht. rewrite Ht. reflexivity.
  - cbn [append rfind_dot String.length]. now rewrite IH.
Qed.

Lemma rfind_dot_split :
  forall name i,
    rfind_dot name = Some i ->
    exists stem t,
      name = stem ++ String dot t
      /\ String.length stem = i /\ has_char dot t = false.
Proof.
  induction name as [|a name IH]; intros i H; [discriminate H|].
  cbn in H. destruct (rfind_dot name) as [j|] eqn:E.
  - injection H as <-. destruct (IH j eq_refl) as (stem & t & -> & <- & Ht).
    exists (String a stem), t. repeat split; assumption.
  - destruct (Ascii.eqb a dot) eqn:A; [|discriminate H].
    injection H as <-. apply Ascii.eqb_eq in A. subst a.
    exists "", name. split; [reflexivity|]. split; [reflexivity|].
    now apply rfind_dot_none.
Qed.

Lemma drop_app_length :
  forall s t, Py.drop (String.length s) (s ++ t) = t.
Proof. induction s as [|a s IH]; intros t; [now destruct t|]. cbn. apply IH. Qed.


Lemma str_length_app :
  forall s t, String.length (s ++ t) = String.length s + String.length t.
Proof. induction s as [|a s IH]; intros t; [reflexivity|]. cbn. now rewrite IH. Qed.

Lemma suffix_py_iff :
  forall name,
    suffix_of_name name = ".py"
    <-> exists stem, stem <> "" /\ name = stem ++ ".py".
Proof.
  intros name. unfold suffix_of_name. split.
  - destruct (rfind_dot name) as [i|] eqn:E; [|discriminate].
    destruct (Nat.ltb 0 i && Nat.ltb i (String.length name - 1)) eqn:C;
      [|discriminate].
    apply andb_true_iff in C. destruct C as [C _]. apply Nat.ltb_lt in C.
    destruct (rfind_dot_split name i E) as (stem & t & -> & <- & _).
    rewrite drop_app_length. intros H. exists stem. split.
    + intros ->. cbn in C. lia.
    + now rewrite H.
  - intros (stem & Hstem & ->).
    change (stem ++ ".py") with (stem ++ String dot "py").
    rewrite (rfind_dot_app stem "py" eq_refl), str_length_app, drop_app_length.
    assert (Hpos : 0 < String.length stem)
      by (destruct stem; [congruence|cbn; lia]).
    replace (Nat.ltb 0 (String.length stem)) with true
      by (symmetry; apply Nat.ltb_lt; exact Hpos).
    replace (Nat.ltb (String.length stem)
               (String.length stem + String.length (String dot "py") - 1))
      with true by (symmetry; apply Nat.ltb_lt; cbn; lia).
    reflexivity.
Qed.

Lemma strip_prefix_app :
  forall pre l rest, strip_prefix pre l = Some rest -> l = (pre ++ rest)%list.
Proof.
  induction pre as [|a pre IH]; intros l rest H.
  - cbn in H. now injection H as ->.
  - destruct l as [|b l]; [discriminate H|]. cbn in H.
    destruct (String.eqb a b) eqn:E; [|discriminate H].
    apply String.eqb_eq in E. subst b. cbn. f_equal. now apply IH.
Qed.





(** ** The endpoint's check and the materializer's filter *)

Lemma last_item_filter :
  forall (f : string -> bool) l x,
    Py.last_item l = Some x -> f x = true -> Py.last_item (filter f l) = Some x.
Proof.
  intros f l x H Hf. unfold Py.last_item in H.
  destruct (rev l) as [|y r] eqn:E; [discriminate H|]. injection H as ->.
  assert (Hl : l = (rev r ++ [x])%list)
    by (rewrite <- (rev_involutive l), E; reflexivity).
  rewrite Hl, filter_app. cbn [filter]. rewrite Hf. apply last_item_app_one.
Qed.

Lemma basename_is_last_piece :
  forall p, Py.last_item (Py.split slash p) = Some (basename p).
Proof.
  intros p. unfold basename, Py.last_item.
  destruct (rev (Py.split slash p)) as [|y r] eqn:E; [|reflexivity].
  exfalso. apply (split_not_nil slash p).
  rewrite <- (rev_involutive (Py.split slash p)), E. reflexivity.
Qed.

Lemma name_is_basename :
  forall p, keep_component (basename p) = true ->
            path_name (parse_path p) = basename p.
Proof.
  intros p Hk. unfold path_name. rewrite parse_path_parts.
  now rewrite (last_item_filter keep_component _ _ (basename_is_last_piece p) Hk).
Qed.

Lemma basename_cons_slash :
  forall s, basename (String slash s) = basename s.
Proof.
  intros s. unfold basename. rewrite split_sep_cons, last_item_cons;
    [reflexivity|apply split_not_nil].
Qed.

Lemma basename_cons_other :
  forall a s, Ascii.eqb a slash = false ->
              basename (String a s)
              = if has_char slash s then basename s else String a s.
Proof.
  intros a s A. unfold basename.
  destruct (split_other_cons slash a s A) as (h & t & Hs & Hc). rewrite Hc, Hs.
  destruct (has_char slash s) eqn:S.
  - assert (Ht : t <> [])
      by (intros ->; apply split_single_no_sep in Hs; congruence).
    now rewrite (last_item_cons (String a h) t Ht), (last_item_cons h t Ht).
  - rewrite (split_no_sep slash s S) in Hs. injection Hs as <- <-. reflexivity.
Qed.

Lemma eqb_with_slash :
  forall s t, has_char slash s = true -> has_char slash t = false ->
              String.eqb s t = false.
Proof.
  intros s t Hs Ht. apply String.eqb_neq. intros ->. congruence.
Qed.

Lemma endswith_basename :
  forall t p, has_char slash t = false -> endswith t p = endswith t (basename p).
Proof.
  intros t p Ht. induction p as [|a p IH]; [reflexivity|].
  destruct (Ascii.eqb a slash) eqn:A.
  - apply Ascii.eqb_eq in A. subst a. rewrite basename_cons_slash, <- IH.
    cbn [endswith]. rewrite eqb_with_slash; [reflexivity| |exact Ht].
    reflexivity.
  - rewrite (basename_cons_other a p A).
    destruct (has_char slash p) eqn:S; [|reflexivity].
    rewrite <- IH. cbn [endswith]. rewrite eqb_with_slash; [reflexivity| |exact Ht].
    cbn. now rewrite S, orb_true_r.
Qed.

Lemma endswith_iff :
  forall t s, endswith t s = true <-> exists a, s = a ++ t.
Proof.
  intros t. induction s as [|c s IH].
  - cbn. rewrite orb_false_r. split.
    + intros H. destruct t; [|discriminate H]. now exists "".
    + intros ([|x a] & H); [cbn in H; now subst t|discriminate H].
  - cbn [endswith]. rewrite orb_true_iff, IH, String.eqb_eq. split.
    + intros [->|(a & ->)]; [now exists ""|now exists (String c a)].
    + intros ([|x a] & H); [left; exact H|].
      right. injection H as _ ->. now exists a.
Qed.

Lemma endswith_py_name :
  forall b, endswith ".py" b
            = String.eqb (suffix_of_name b) ".py" || String.eqb b ".py".
Proof.
  intros b.
  destruct (String.eqb (suffix_of_name b) ".py") eqn:S.
  - apply String.eqb_eq, suffix_py_iff in S. destruct S as (stem & _ & ->).
    apply endswith_iff. now exists stem.
  - destruct (String.eqb b ".py") eqn:B.
    + apply String.eqb_eq in B. subst b. reflexivity.
    + destruct (endswith ".py" b) eqn:E; [|reflexivity].
      apply endswith_iff in E. destruct E as (a & ->).
      destruct a as [|x a]; [discriminate B|].
      assert (H : suffix_of_name (String x a ++ ".py") = ".py")
        by (apply suffix_py_iff; exists (String x a); split; [discriminate|reflexivity]).
      rewrite H in S. discriminate S.
Qed.

Lemma endswith_py_path :
  forall p, keep_component (basename p) = true ->
            endswith ".py" p = is_python_path p || String.eqb (basename p) ".py".
Proof.
  intros p Hk. rewrite (endswith_basename ".py" p eq_refl), endswith_py_name.
  unfold is_python_path, path_suffix. now rewrite (name_is_basename p Hk).
Qed.

(** X15: on a selection of file paths (paths whose text after the last
    slash is a file name), the endpoint's check lets the request through
    exactly when some path is a Python unit for the materializer or some
    file is named ".py": only files named ".py" pass the check without
    being units. *)
Theorem endpoint_check_vs_python_units :
  forall file_paths,
    Forall (fun p => keep_component (basename p) = true) file_paths ->
    has_python_file file_paths
    = existsb (fun p => is_python_path p || String.eqb (basename p) ".py")
        file_paths.
Proof.
  intros file_paths H. unfold has_python_file.
  induction H as [|p ps Hp _ IH]; [reflexivity|].
  cbn [existsb]. now rewrite IH, (endswith_py_path p Hp).
Qed.

Lemma endpoint_check_vs_python_units_witness :
  has_python_file ["/proj/README.md"; "/proj/conf/.py"] = true
  /\ filter is_python_path ["/proj/README.md"; "/proj/conf/.py"] = [].
Proof.
  split; [|reflexivity].
  rewrite (endpoint_check_vs_python_units ["/proj/README.md"; "/proj/conf/.py"]).
  - reflexivity.
  - repeat constructor.
Defined.

(** ** What the coverage runner reports *)

(** X16: once the test runner has been started and has come back, the
    coverage runner's outcome depends on the report file alone, not on
    the runner's exit status: it reports success exactly when
    coverage.json exists afterwards, then with the "totals" of the
    decoded report as summary; without the file it reports the runner's
    diagnostic output, or its standard output if that is empty; and it
    raises only when the file exists but cannot be read, cannot be
    decoded, or does not decode to a dictionary. *)
Theorem coverage_outcome_follows_report_file :
  forall w project_path modules st result st',
    filter Py.truthy modules <> [] ->
    subprocess_run w
      (coverage_command project_path (Py.join "," (filter Py.truthy modules)))
      (Some (path_str project_path)) st = (Ok result, st') ->
    let cov_json_path := path_join project_path (parse_path "coverage.json") in
    let outcome := _run_coverage_analysis w project_path modules st in
    snd outcome = st'
    /\ match fst outcome with
       | Ok report =>
           dict_get "success" report
           = Some (PBool (exists_ cov_json_path (fs st')))
           /\ (exists_ cov_json_path (fs st') = false ->
               dict_get "error" report
               = Some (PStr (if Py.truthy (stderr result) then stderr result
                             else stdout result)))
           /\ (exists_ cov_json_path (fs st') = true ->
               exists content data,
                 read_text cov_json_path (fs st') = Ok content
                 /\ json_load w content = Ok (PDict data)
                 /\ dict_get "summary" report
                    = Some (dict_get_default "totals" (PDict []) data))
       | Raise e =>
           exists_ cov_json_path (fs st') = true
           /\ (read_text cov_json_path (fs st') = Raise e
               \/ exists content,
                   read_text cov_json_path (fs st') = Ok content
                   /\ (json_load w content = Raise e
                       \/ exists v, json_load w content = Ok v
                                    /\ py_get v "totals" (PDict []) = Raise e))
       end.
Proof.
  intros w project_path modules st result st' Hm Hrun cov outcome.
  subst outcome. unfold _run_coverage_analysis.
  rewrite (join_truthy "," _ Hm (filter_truthy_Forall modules)).
  cbn [negb]. unfold bind, lift, ret. rewrite Hrun. fold cov.
  destruct (exists_ cov (fs st')) eqn:Ex.
  - destruct (read_text cov (fs st')) as [content|e] eqn:R;
      [|cbn; split; [reflexivity|]; split; [reflexivity|now left]].
    destruct (json_load w content) as [v|e] eqn:J;
      [|cbn; split; [reflexivity|]; split; [reflexivity|];
        right; exists content; split; [reflexivity|now left]].
    destruct v as [| | | | |l|data];
      try (cbn; split; [reflexivity|]; split; [reflexivity|];
           right; exists content; split; [reflexivity|];
           right; eexists; split; [exact J|reflexivity]).
    cbn. split; [reflexivity|]. split; [reflexivity|].
    split; [discriminate|]. intros _. exists content, data. auto.
  - cbn. split; [reflexivity|]. split; [reflexivity|].
    split; [reflexivity|discriminate].
Qed.

Lemma coverage_outcome_follows_report_file_witness :
  let w := partial_coverage_world in
  exists report,
    fst (_run_coverage_analysis w (project_root_of w) ["a"] (enter_temp_dir w))
    = Ok report
    /\ dict_get "success" report = Some (PBool true)
    /\ dict_get "summary" report
       = Some (PDict [("percent_covered_display", PStr "50")]).
Proof.
  intros w.
  pose proof (coverage_outcome_follows_report_file w (project_root_of w) ["a"]
                (enter_temp_dir w) (mkProc 1 "" "1 failed") _
                ltac:(discriminate) eq_refl) as H.
  cbv zeta in H. destruct H as [_ H].
  destruct (fst (_run_coverage_analysis w (project_root_of w) ["a"]
                   (enter_temp_dir w))) as [report|e] eqn:E;
    [|discriminate E].
  exists report. split; [reflexivity|].
  destruct H as (Hs & _ & _). split; [exact Hs|].
  injection E as <-. reflexivity.
Defined.

(** ** The tests returned by the AI-prompted generator *)

Lemma lstrip_cases :
  forall s, Py.lstrip s = ""
            \/ exists a r, Py.lstrip s = String a r /\ Py.isspace a = false.
Proof.
  induction s as [|a s IH]; [now left|].
  cbn [Py.lstrip]. destruct (Py.isspace a) eqn:A; [exact IH|].
  right. now exists a, s.
Qed.

Lemma strip_idem : forall s, Py.strip (Py.strip s) = Py.strip s.
Proof.
  intros s. unfold Py.strip.
  destruct (lstrip_cases s) as [->|(a & r & -> & A)]; [reflexivity|].
  assert (E : Py.rstrip (String a r) = String a (Py.rstrip r))
    by (cbn; now rewrite A).
  rewrite E. cbn [Py.lstrip]. rewrite A, <- E. apply rstrip_idem.
Qed.

Lemma cleaned_code_is_stripped :
  forall test_code, Py.strip (cleaned_code_of test_code) = cleaned_code_of test_code.
Proof.
  intros test_code. unfold cleaned_code_of.
  destruct (re_search_fence test_code); apply strip_idem.
Qed.

Lemma write_text_raise_fs :
  forall p content fs1 e fs2,
    write_text p content fs1 = (Raise e, fs2) -> fs2 = fs1.
Proof.
  intros p content fs1 e fs2 H. unfold write_text in H.
  destruct (walk fs1 [] (parts p)); [now injection H as _ <-|].
  destruct (fs1 l) as [[|c]|]; try discriminate H. now injection H as _ <-.
Qed.

Lemma ai_try_body_entry :
  forall w tests i code p gtd st r gtd' st',
    ai_try_body w tests i code (basename p) gtd st = ((r, gtd'), st') ->
    (gtd' = gtd /\ st' = st /\ exists e, r = Raise e)
    \/ exists c,
        gtd' = (gtd ++ [PDict [("filename", PStr (basename p));
                               ("code", PStr c)]])%list
        /\ c <> "" /\ Py.strip c = c
        /\ ((r = Ok tt
             /\ write_text (mkPath (anchor tests)
                              (parts tests ++ ["test_gemini_" ++ basename p]))
                  c (fs st) = (Ok tt, fs st'))
            \/ (fs st' = fs st /\ exists e, r = Raise e)).
Proof.
  intros w tests i code p gtd st r gtd' st' H. unfold ai_try_body in H.
  destruct (generate_content w i code) as [response|e];
    [|injection H as <- <- <-; left; eauto].
  destruct (candidates response); [injection H as <- <- <-; left; eauto|].
  destruct (text response) as [test_code|e];
    [|injection H as <- <- <-; left; eauto].
  destruct (Py.truthy (cleaned_code_of test_code)) eqn:T;
    [|injection H as <- <- <-; left; eauto].
  right. exists (cleaned_code_of test_code).
  rewrite (test_file_path_parts tests (basename p) (basename_no_slash p)) in H.
  unfold on_fs in H.
  destruct (write_text _ (cleaned_code_of test_code) (fs st)) as [ru fs2] eqn:W.
  split; [destruct ru; now injection H as _ <- _|].
  split; [intros E; rewrite E in T; discriminate T|].
  split; [apply cleaned_code_is_stripped|].
  destruct ru as [[]|e].
  - left. injection H as <- _ <-. split; reflexivity.
  - right. injection H as <- _ <-. cbn [fs].
    split; [exact (write_text_raise_fs _ _ _ _ _ W)|eauto].
Qed.

Lemma write_text_ok_key :
  forall a d n c fs1 fs2,
    String.eqb n ".." = false ->
    write_text (mkPath a (d ++ [n])) c fs1 = (Ok tt, fs2) ->
    exists k,
      walk fs1 [] d = inr k /\ fs1 k = Some Dir
      /\ fs1 (k ++ [n])%list <> Some Dir
      /\ fs2 = fs_set fs1 (k ++ [n]) (File c).
Proof.
  intros a d n c fs1 fs2 Hn H.
  unfold write_text in H. cbn [parts] in H. rewrite walk_app in H.
  destruct (walk fs1 [] d) as [e|k]; [discriminate H|].
  cbn [walk] in H. rewrite Hn in H.
  destruct (fs1 k) as [[|c0]|] eqn:K; try discriminate H.
  exists k. split; [reflexivity|]. split; [exact K|].
  destruct (fs1 (k ++ [n])%list) as [[|c0]|] eqn:E; [discriminate H| |];
    injection H as <-; split; congruence.
Qed.

Lemma read_text_key :
  forall a d n fs1 c,
    String.eqb n ".." = false ->
    read_text (mkPath a (d ++ [n])) fs1 = Ok c ->
    exists k, walk fs1 [] d = inr k /\ fs1 k = Some Dir
              /\ fs1 (k ++ [n])%list = Some (File c).
Proof.
  intros a d n fs1 c Hn H.
  unfold read_text in H. cbn [parts] in H. rewrite walk_app in H.
  destruct (walk fs1 [] d) as [e|k]; [discriminate H|].
  cbn [walk] in H. rewrite Hn in H.
  destruct (fs1 k) as [[|c0]|] eqn:K; try discriminate H.
  exists k. split; [reflexivity|]. split; [exact K|].
  destruct (fs1 (k ++ [n])%list) as [[|c0]|]; try discriminate H.
  now injection H as ->.
Qed.

Lemma key_in_dir_neq :
  forall k (n1 n2 : string), n1 <> n2 -> key_eqb (k ++ [n1]) (k ++ [n2]) = false.
Proof.
  intros k n1 n2 Hn. unfold key_eqb.
  destruct (list_eq_dec string_dec (k ++ [n1]) (k ++ [n2])) as [E|]; [|reflexivity].
  apply app_inv_head in E. injection E as E. contradiction.
Qed.

Lemma fs_set_file_keeps_dirs :
  forall (fs1 : FS) key c q,
    fs1 key <> Some Dir -> fs1 q = Some Dir ->
    fs_set fs1 key (File c) q = Some Dir.
Proof.
  intros fs1 key c q Hk Hq. unfold fs_set.
  destruct (key_eqb key q) eqn:Q; [|exact Hq].
  apply key_eqb_eq in Q. subst q. contradiction.
Qed.

Lemma read_other_file_after_write :
  forall a d n1 n2 c1 c2 fs1 fs2,
    String.eqb n1 ".." = false -> String.eqb n2 ".." = false -> n1 <> n2 ->
    write_text (mkPath a (d ++ [n1])) c1 fs1 = (Ok tt, fs2) ->
    read_text (mkPath a (d ++ [n2])) fs1 = Ok c2 ->
    read_text (mkPath a (d ++ [n2])) fs2 = Ok c2.
Proof.
  intros a d n1 n2 c1 c2 fs1 fs2 H1 H2 Hn W R.
  destruct (write_text_ok_key a d n1 c1 fs1 fs2 H1 W) as (k & Hw & Hk & Hd & ->).
  destruct (read_text_key a d n2 fs1 c2 H2 R) as (k' & Hw' & _ & Hf).
  assert (k' = k) by congruence. subst k'.
  unfold read_text. cbn [parts]. rewrite walk_app.
  rewrite (walk_preserved fs1 (fs_set fs1 (k ++ [n1]) (File c1)) d [] k
             (fun q => fs_set_file_keeps_dirs fs1 _ c1 q Hd) Hw).
  cbn [walk]. rewrite H2.
  rewrite (fs_set_file_keeps_dirs fs1 _ c1 k Hd Hk).
  unfold fs_set. rewrite (key_in_dir_neq k n1 n2 Hn), Hf. reflexivity.
Qed.

Lemma ai_loop_tests :
  forall w tests contents paths i g errs gtd st g' errs' gtd' st',
    ai_loop w tests contents paths i g errs gtd st = (Ok (g', errs', gtd'), st') ->
    exists new,
      gtd' = (gtd ++ new)%list
      /\ (0 <= g' - g <= Z.of_nat (List.length new))%Z
      /\ List.length new <= List.length contents
      /\ Forall (clean_test_entry paths) new
      /\ ((g' - g = Z.of_nat (List.length new))%Z ->
          forall f,
            match last_code f new with
            | Some c =>
                read_text (mkPath (anchor tests)
                             (parts tests ++ ["test_gemini_" ++ f])) (fs st')
                = Ok c
            | None =>
                forall c,
                  read_text (mkPath (anchor tests)
                               (parts tests ++ ["test_gemini_" ++ f])) (fs st)
                  = Ok c ->
                  read_text (mkPath (anchor tests)
                               (parts tests ++ ["test_gemini_" ++ f])) (fs st')
                  = Ok c
            end).
Proof.
  intros w tests contents paths.
  induction contents as [|code rest IH];
    intros i g errs gtd st g' errs' gtd' st' H.
  - cbn in H. unfold ret in H. injection H as <- _ <- <-.
    exists []. rewrite app_nil_r. split; [reflexivity|].
    split; [cbn; lia|]. split; [reflexivity|]. split; [constructor|].
    intros _ f. cbn. auto.
  - cbn [ai_loop] in H. unfold bind, lift, list_item in H.
    destruct (nth_error paths i) as [p|] eqn:Hp; [|discriminate H].
    apply nth_error_In in Hp.
    destruct (ai_try_body w tests i code (basename p) gtd st)
      as [[ru gtd1] st1] eqn:E.
    destruct (ai_try_body_entry _ _ _ _ _ _ _ _ _ _ E)
      as [(-> & -> & e & ->)|(c & -> & Hc & Hstrip & Hw)].
    + destruct (IH _ _ _ _ _ _ _ _ _ H) as (new & -> & Hb & Hl & HF & Hdisk).
      exists new. split; [reflexivity|]. split; [exact Hb|].
      split; [cbn [List.length]; lia|]. split; [exact HF|exact Hdisk].
    + assert (Hentry : clean_test_entry paths
                         (PDict [("filename", PStr (basename p)); ("code", PStr c)]))
        by (exists p, c; auto).
      set (entry := PDict [("filename", PStr (basename p)); ("code", PStr c)]) in *.
      destruct Hw as [(-> & W)|(Hfs & e & ->)].
      * destruct (IH _ _ _ _ _ _ _ _ _ H) as (new & -> & Hb & Hl & HF & Hdisk).
        exists (entry :: new). split; [now rewrite <- app_assoc|].
        split; [cbn [List.length]; lia|]. split; [cbn [List.length]; lia|].
        split; [now constructor|].
        intros Heq f.
        assert (Heq' : (g' - (g + 1) = Z.of_nat (List.length new))%Z)
          by (cbn [List.length] in Heq; lia).
        specialize (Hdisk Heq' f).
        change (last_code f (entry :: new))
          with (match last_code f new with
                | Some code => Some code
                | None => if String.eqb (basename p) f then Some c else None
                end).
        destruct (last_code f new) as [c'|]; [exact Hdisk|].
        destruct (String.eqb (basename p) f) eqn:F.
        -- apply String.eqb_eq in F. subst f. apply Hdisk.
           exact (write_then_read _ _ _ _ W).
        -- intros c0 R. apply Hdisk.
           apply String.eqb_neq in F.
           apply (read_other_file_after_write (anchor tests) (parts tests)
                    ("test_gemini_" ++ basename p) ("test_gemini_" ++ f)
                    c c0 (fs st) (fs st1) eq_refl eq_refl); [|exact W|exact R].
           intros E0. apply F. now injection E0.
      * destruct (IH _ _ _ _ _ _ _ _ _ H) as (new & -> & Hb & Hl & HF & Hdisk).
        exists (entry :: new). split; [now rewrite <- app_assoc|].
        split; [cbn [List.length]; lia|]. split; [cbn [List.length]; lia|].
        split; [now constructor|].
        intros Heq. cbn [List.length] in Heq. lia.
Qed.

(** X17: every entry of the "generated_tests" list the AI-prompted stage
    returns names a selected file and carries code that is not empty and
    has no white space around it; the list is at least as long as the
    count of generated suites (a test that could not be written to disk
    is still returned) and at most as long as the list of units. *)
Theorem ai_generated_tests_are_clean :
  forall w tests_path code_contents file_paths st report st',
    key_is_set (GEMINI_API_KEY w) = true ->
    _run_ai_test_generation w tests_path code_contents file_paths st
    = (Ok report, st') ->
    exists suites tests,
      dict_get "test_suites_generated" report = Some (PInt suites)
      /\ dict_get "generated_tests" report = Some (PList tests)
      /\ (0 <= suites <= Z.of_nat (List.length tests))%Z
      /\ List.length tests <= List.length code_contents
      /\ Forall (clean_test_entry file_paths) tests.
Proof.
  intros w tests contents paths st report st' Hkey H.
  unfold _run_ai_test_generation in H. rewrite Hkey in H. cbn [negb] in H.
  unfold bind in H.
  destruct (ai_loop w tests contents paths 0 0 [] [] st)
    as [[[[g errs] gtd]|e] st1] eqn:L; [|discriminate H].
  unfold ret in H. injection H as <- <-.
  destruct (ai_loop_tests _ _ _ _ _ _ _ _ _ _ _ _ _ L)
    as (new & -> & Hb & Hl & HF & _).
  exists g, new. cbn [app].
  split; [reflexivity|]. split; [reflexivity|].
  split; [lia|]. split; assumption.
Qed.

Lemma ai_generated_tests_are_clean_witness :
  let w := numbering_world in
  let tests_path := path_join (project_root_of w) (parse_path "tests") in
  let file_paths := ["/proj/a/util.py"; "/proj/b/util.py"] in
  let report :=
    match fst (_run_ai_test_generation w tests_path ["x = 1"; "y = 2"]
                 file_paths (generation_state w)) with
    | Ok r => r
    | Raise _ => []
    end in
  exists tests,
    dict_get "generated_tests" report = Some (PList tests)
    /\ Forall (clean_test_entry file_paths) tests
    /\ tests = [PDict [("filename", PStr "util.py"); ("code", PStr "assert 1")];
                PDict [("filename", PStr "util.py"); ("code", PStr "assert 2")]].
Proof.
  intros w tests_path file_paths report.
  destruct (ai_generated_tests_are_clean w tests_path ["x = 1"; "y = 2"]
              file_paths (generation_state w) _ _ eq_refl eq_refl)
    as (suites & l & _ & Hl & _ & _ & HF).
  exists l. split; [exact Hl|]. split; [exact HF|].
  vm_compute in Hl. now injection Hl as <-.
Defined.

(** X18: when every generated test could be written (the count of suites
    equals the length of "generated_tests"), the test file of each file
    name holds, after the stage, the code of the last returned test with
    that name: tests of units that share a base name overwrite each other
    on disk, although all of them are returned. *)
Theorem ai_test_files_hold_last_code :
  forall w tests_path code_contents file_paths st report st' tests,
    key_is_set (GEMINI_API_KEY w) = true ->
    _run_ai_test_generation w tests_path code_contents file_paths st
    = (Ok report, st') ->
    dict_get "generated_tests" report = Some (PList tests) ->
    dict_get "test_suites_generated" report
    = Some (PInt (Z.of_nat (List.length tests))) ->
    forall p code,
      last_code (basename p) tests = Some code ->
      read_text (path_join tests_path (parse_path ("test_gemini_" ++ basename p)))
        (fs st')
      = Ok code.
Proof.
  intros w tests contents paths st report st' l Hkey H Hl Hs p code Hlast.
  unfold _run_ai_test_generation in H. rewrite Hkey in H. cbn [negb] in H.
  unfold bind in H.
  destruct (ai_loop w tests contents paths 0 0 [] [] st)
    as [[[[g errs] gtd]|e] st1] eqn:L; [|discriminate H].
  unfold ret in H. injection H as <- <-.
  destruct (ai_loop_tests _ _ _ _ _ _ _ _ _ _ _ _ _ L)
    as (new & -> & _ & _ & _ & Hdisk).
  cbn in Hl, Hs. injection Hl as <-. injection Hs as ->.
  rewrite (test_file_path_parts tests (basename p) (basename_no_slash p)).
  specialize (Hdisk ltac:(lia) (basename p)). rewrite Hlast in Hdisk. exact Hdisk.
Qed.

Lemma ai_test_files_hold_last_code_witness :
  let w := numbering_world in
  let tests := path_join (project_root_of w) (parse_path "tests") in
  let st' := snd (_run_ai_test_generation w tests ["x = 1"; "y = 2"]
                    ["/proj/a/util.py"; "/proj/b/util.py"] (generation_state w)) in
  read_text (parse_path "/tmp/tmpq3v8x1/tests/test_gemini_util.py") (fs st')
  = Ok "assert 2".
Proof.
  intros w tests st'.
  exact (ai_test_files_hold_last_code w tests ["x = 1"; "y = 2"]
           ["/proj/a/util.py"; "/proj/b/util.py"] (generation_state w) _ _ _
           eq_refl eq_refl eq_refl eq_refl "/proj/a/util.py" "assert 2" eq_refl).
Defined.

(** ** The analyzer's staging of the selection *)

Lemma string_of_uint_no_slash :
  forall d, has_char slash (NilEmpty.string_of_uint d) = false.
Proof. induction d; cbn; assumption || reflexivity. Qed.

Lemma normpath_rev_Forall :
  forall (P : string -> Prop) comps acc,
    Forall P comps -> Forall P acc -> Forall P (normpath_rev acc comps).
Proof.
  intros P. induction comps as [|c rest IH]; intros acc Hc Ha; [exact Ha|].
  inversion Hc; subst. cbn [normpath_rev].
  destruct (keep_component c); [|now apply IH].
  destruct (String.eqb c "..").
  - apply IH; [assumption|]. destruct acc; [constructor|]. now inversion Ha.
  - apply IH; [assumption|]. now constructor.
Qed.

Lemma normpath_rev_keep :
  forall comps acc,
    Forall (fun c => keep_component c = true) acc ->
    Forall (fun c => keep_component c = true) (normpath_rev acc comps).
Proof.
  induction comps as [|c rest IH]; intros acc Ha; [exact Ha|].
  cbn [normpath_rev]. destruct (keep_component c) eqn:K; [|now apply IH].
  destruct (String.eqb c "..").
  - apply IH. destruct acc; [constructor|]. now inversion Ha.
  - apply IH. now constructor.
Qed.

Lemma join_app_one :
  forall sep l x, l <> [] -> Py.join sep (l ++ [x]) = Py.join sep l ++ sep ++ x.
Proof.
  intros sep l x. induction l as [|y l IH]; intros H; [congruence|].
  destruct l as [|z t]; [reflexivity|].
  change (Py.join sep ((y :: z :: t) ++ [x]))
    with (y ++ sep ++ Py.join sep ((z :: t) ++ [x])).
  rewrite IH by discriminate.
  change (Py.join sep (y :: z :: t)) with (y ++ sep ++ Py.join sep (z :: t)).
  now rewrite !str_app_assoc.
Qed.

Lemma basename_app_slash : forall a, basename (a ++ "/") = "".
Proof.
  induction a as [|c a IH]; [reflexivity|].
  change (String c a ++ "/") with (String c (a ++ "/")).
  destruct (Ascii.eqb c slash) eqn:C.
  - apply Ascii.eqb_eq in C. subst c. now rewrite basename_cons_slash.
  - rewrite (basename_cons_other c _ C), has_char_app.
    replace (has_char slash "/") with true by reflexivity.
    now rewrite orb_true_r.
Qed.

Lemma root_text_not_endswith_slash :
  forall R,
    R <> [] ->
    Forall (fun c => has_char slash c = false) R ->
    Forall (fun c => keep_component c = true) R ->
    endswith "/" (String slash (Py.join "/" R)) = false.
Proof.
  intros R HR Hs Hk.
  destruct (endswith "/" (String slash (Py.join "/" R))) eqn:E; [|reflexivity].
  exfalso. apply endswith_iff in E. destruct E as (a & E).
  pose proof (basename_is_last_piece (String slash (Py.join "/" R))) as B.
  assert (B2 : basename (String slash (Py.join "/" R)) = "")
    by (rewrite E; apply basename_app_slash).
  rewrite B2, split_sep_cons in B.
  change (Py.join "/" R) with (Py.join (String slash "") R) in B.
  rewrite (split_join slash R HR Hs) in B.
  rewrite (last_item_cons "" R HR) in B.
  apply last_item_In in B. rewrite Forall_forall in Hk.
  specialize (Hk "" B). discriminate Hk.
Qed.

Lemma startswith_slash_false :
  forall n, has_char slash n = false -> Py.startswith "/" n = false.
Proof.
  intros [|c n] H; [reflexivity|].
  apply has_char_cons_false in H. destruct H as [H _].
  cbn [Py.startswith]. change "/"%char with slash. now rewrite H.
Qed.

Lemma parse_staged_path :
  forall R n,
    Forall (fun c => has_char slash c = false) R ->
    Forall (fun c => keep_component c = true) R ->
    has_char slash n = false -> keep_component n = true ->
    parse_path (os_path_join (String slash (Py.join "/" R)) n)
    = mkPath "/" (R ++ [n]).
Proof.
  intros R n Hs Hk Hn Hkn. unfold os_path_join.
  rewrite (startswith_slash_false n Hn).
  assert (Hs' : Forall (fun c => has_char slash c = false) (R ++ [n]))
    by (apply Forall_app; split; [exact Hs|now constructor]).
  assert (Hk' : Forall (fun c => keep_component c = true) (R ++ [n]))
    by (apply Forall_app; split; [exact Hk|now constructor]).
  destruct R as [|r R'].
  - exact (parse_join_components true [n] Hs' Hk').
  - rewrite (root_text_not_endswith_slash (r :: R') ltac:(discriminate) Hs Hk).
    cbn [Py.truthy negb orb].
    replace (String slash (Py.join "/" (r :: R')) ++ "/" ++ n)
      with ("/" ++ Py.join "/" ((r :: R') ++ [n])).
    + exact (parse_join_components true _ Hs' Hk').
    + rewrite join_app_one by discriminate. reflexivity.
Qed.

Lemma original_filename_names_a_file :
  forall file_paths i,
    Forall names_a_file file_paths ->
    has_char slash (original_filename file_paths i) = false
    /\ keep_component (original_filename file_paths i) = true
    /\ String.eqb (original_filename file_paths i) ".." = false.
Proof.
  intros file_paths i H. unfold original_filename.
  destruct (Nat.ltb i (List.length file_paths)) eqn:L.
  - apply Nat.ltb_lt in L.
    rewrite Forall_forall in H.
    destruct (H (nth i file_paths "") (nth_In _ _ L)) as [Hk Hd].
    split; [apply basename_no_slash|]. split; assumption.
  - split; [|split; reflexivity].
    rewrite !has_char_app. unfold str_of_nat.
    rewrite string_of_uint_no_slash. reflexivity.
Qed.

Lemma is_prefix_longer :
  forall R (n : string), is_prefix (R ++ [n]) R = false.
Proof.
  induction R as [|r R IH]; intros n; [reflexivity|].
  cbn. now rewrite IH, andb_false_r.
Qed.

Lemma open_write_into_dir :
  forall R n content (fs1 : FS),
    Forall (fun c => has_char slash c = false) R ->
    Forall (fun c => keep_component c = true) R ->
    has_char slash n = false -> keep_component n = true ->
    String.eqb n ".." = false ->
    walk fs1 [] R = inr R -> fs1 R = Some Dir ->
    fs1 (R ++ [n])%list <> Some Dir ->
    open_write (os_path_join (String slash (Py.join "/" R)) n) content fs1
    = (Ok tt, fs_set fs1 (R ++ [n]) (File content)).
Proof.
  intros R n content fs1 Hs Hk Hn Hkn Hdd Hw Hd Hnd. unfold open_write.
  rewrite (parse_staged_path R n Hs Hk Hn Hkn). cbn [parts].
  rewrite walk_app, Hw. cbn [walk]. rewrite Hd, Hdd.
  destruct (fs1 (R ++ [n])%list) as [[|c]|]; [contradiction| |]; reflexivity.
Qed.

Lemma analyze_codebase_loop_staged :
  forall R file_paths,
    Forall (fun c => has_char slash c = false) R ->
    Forall (fun c => keep_component c = true) R ->
    Forall names_a_file file_paths ->
    forall code_files_content i temp_file_paths st,
      walk (fs st) [] R = inr R -> fs st R = Some Dir ->
      (forall n, fs st (R ++ [n])%list <> Some Dir) ->
      exists st',
        analyze_codebase_loop (String slash (Py.join "/" R)) code_files_content
          file_paths i temp_file_paths st
        = (Ok (temp_file_paths
               ++ map (fun j => os_path_join (String slash (Py.join "/" R))
                                  (original_filename file_paths j))
                    (seq i (List.length code_files_content)))%list, st')
        /\ calls st' = calls st
        /\ (forall name,
               fs st' (R ++ [name])%list
               = match last_staged file_paths i code_files_content name with
                 | Some c => Some (File c)
                 | None => fs st (R ++ [name])%list
                 end)
        /\ (forall q, (forall name, q <> (R ++ [name])%list) -> fs st' q = fs st q).
Proof.
  intros R file_paths Hs Hk Hp.
  induction code_files_content as [|content rest IH];
    intros i acc st Hw Hd Hnd.
  - exists st. cbn. rewrite app_nil_r. auto.
  - destruct (original_filename_names_a_file file_paths i Hp) as (Hn & Hkn & Hdd).
    set (n := original_filename file_paths i) in *.
    cbn [analyze_codebase_loop]. fold n. cbv zeta.
    unfold bind at 1. unfold on_fs.
    rewrite (open_write_into_dir R n content (fs st) Hs Hk Hn Hkn Hdd Hw Hd (Hnd n)).
    set (st1 := mkState (fs_set (fs st) (R ++ [n]) (File content)) (calls st)).
    assert (Hdirs : forall q, fs st q = Some Dir -> fs st1 q = Some Dir)
      by (intros q Hq; exact (fs_set_file_keeps_dirs (fs st) _ content q (Hnd n) Hq)).
    destruct (IH (S i) (acc ++ [os_path_join (String slash (Py.join "/" R)) n])%list st1)
      as (st' & Hrun & Hcalls & Hfiles & Hframe).
    + exact (walk_preserved (fs st) (fs st1) R [] R Hdirs Hw).
    + now apply Hdirs.
    + intros m. cbn [st1 fs]. unfold fs_set.
      destruct (key_eqb (R ++ [n]) (R ++ [m])); [discriminate|apply Hnd].
    + exists st'. split; [|split; [exact Hcalls|split]].
      * rewrite Hrun. cbn [List.length seq map]. fold n.
        now rewrite <- app_assoc.
      * intros name. rewrite Hfiles. cbn [last_staged]. fold n.
        destruct (last_staged file_paths (S i) rest name); [reflexivity|].
        cbn [st1 fs]. unfold fs_set.
        destruct (String.eqb n name) eqn:N.
        -- apply String.eqb_eq in N. subst name. now rewrite key_eqb_refl.
        -- apply String.eqb_neq in N. now rewrite (key_in_dir_neq R n name N).
      * intros q Hq. rewrite (Hframe q Hq). cbn [st1 fs]. unfold fs_set.
        destruct (key_eqb (R ++ [n]) q) eqn:K; [|reflexivity].
        apply key_eqb_eq in K. now destruct (Hq n).
Qed.

(** X19: the analyzer stages every unit directly in its temporary
    directory, under the base name of the unit's path, or under
    "file_<i>.py" when the list of paths is too short (it never fails for
    want of a path).  The directories of the selection are dropped, so
    units that share a base name are staged at the same path and the
    scanner sees the content of the last of them; nothing else in the
    file system changes and no process is started. *)
Theorem analysis_staging_flattens_selection :
  forall w code_files_content file_paths,
    Forall (fun c => has_char slash c = false) (temp_dir w) ->
    Forall names_a_file file_paths ->
    let temp := path_str (project_root_of w) in
    exists st',
      analyze_codebase_loop temp code_files_content file_paths 0 []
        (enter_temp_dir w)
      = (Ok (map (fun i => os_path_join temp (original_filename file_paths i))
               (seq 0 (List.length code_files_content))), st')
      /\ calls st' = []
      /\ (forall name,
             fs st' (parts (project_root_of w) ++ [name])%list
             = match last_staged file_paths 0 code_files_content name with
               | Some c => Some (File c)
               | None => None
               end)
      /\ (forall q,
             (forall name, q <> (parts (project_root_of w) ++ [name])%list) ->
             fs st' q = fs (enter_temp_dir w) q).
Proof.
  intros w contents paths Hs Hp temp.
  set (R := parts (project_root_of w)).
  assert (HsR : Forall (fun c => has_char slash c = false) R).
  { unfold R, project_root_of, normpath. cbn [parts].
    apply Forall_rev, normpath_rev_Forall; [exact Hs|constructor]. }
  assert (HkR : Forall (fun c => keep_component c = true) R).
  { unfold R, project_root_of, normpath. cbn [parts].
    apply Forall_rev, normpath_rev_keep. constructor. }
  assert (Hnone : forall n, fs (enter_temp_dir w) (R ++ [n])%list = None).
  { intros n. cbn [enter_temp_dir fs]. fold R.
    now rewrite is_prefix_longer, is_prefix_app. }
  destruct (analyze_codebase_loop_staged R paths HsR HkR Hp contents 0 []
              (enter_temp_dir w))
    as (st' & Hrun & Hcalls & Hfiles & Hframe).
  - exact (walk_inside_temp_dir w R [] (is_prefix_refl R) (normpath_clean (temp_dir w))).
  - apply temp_dir_prefix_is_dir, is_prefix_refl.
  - intros n. rewrite Hnone. discriminate.
  - exists st'. split; [exact Hrun|]. split; [exact Hcalls|].
    split; [|exact Hframe].
    intros name. rewrite Hfiles, Hnone. reflexivity.
Qed.

Lemma analysis_staging_flattens_selection_witness :
  let w := quiet_world in
  exists st',
    analyze_codebase_loop "/tmp/tmpq3v8x1" ["x = 1"; "y = 2"; "z = 3"]
      ["/proj/a/util.py"; "/proj/b/util.py"] 0 [] (enter_temp_dir w)
    = (Ok ["/tmp/tmpq3v8x1/util.py"; "/tmp/tmpq3v8x1/util.py";
           "/tmp/tmpq3v8x1/file_2.py"], st')
    /\ fs st' ["tmp"; "tmpq3v8x1"; "util.py"] = Some (File "y = 2")
    /\ fs st' ["tmp"; "tmpq3v8x1"; "file_2.py"] = Some (File "z = 3").
Proof.
  intros w.
  destruct (analysis_staging_flattens_selection w ["x = 1"; "y = 2"; "z = 3"]
              ["/proj/a/util.py"; "/proj/b/util.py"])
    as (st' & Hrun & _ & Hfiles & _).
  - repeat constructor.
  - repeat constructor.
  - exists st'. split; [exact Hrun|]. split.
    + exact (Hfiles "util.py").
    + exact (Hfiles "file_2.py").
Defined.

(** ** The materializer stays inside the workspace *)

Lemma is_prefix_trans :
  forall a b c, is_prefix a b = true -> is_prefix b c = true -> is_prefix a c = true.
Proof.
  induction a as [|x a IH]; intros b c H1 H2; [reflexivity|].
  destruct b as [|y b]; [discriminate H1|].
  destruct c as [|z c]; [discriminate H2|].
  cbn in *. apply andb_true_iff in H1, H2.
  destruct H1 as [E1 H1]. destruct H2 as [E2 H2].
  apply String.eqb_eq in E1, E2. subst y z.
  now rewrite String.eqb_refl, (IH b c H1 H2).
Qed.

Lemma is_prefix_comparable :
  forall l a b,
    is_prefix a l = true -> is_prefix b l = true ->
    is_prefix a b = true \/ is_prefix b a = true.
Proof.
  induction l as [|z l IH]; intros a b Ha Hb.
  - destruct a; [now left|discriminate Ha].
  - destruct a as [|x a]; [now left|]. destruct b as [|y b]; [now right|].
    cbn in *. apply andb_true_iff in Ha, Hb.
    destruct Ha as [E1 Ha]. destruct Hb as [E2 Hb].
    apply String.eqb_eq in E1, E2. subst x y. rewrite String.eqb_refl.
    exact (IH a b Ha Hb).
Qed.

Lemma walk_no_dotdot :
  forall (fs0 : FS) comps cur k,
    Forall not_dotdot comps -> walk fs0 cur comps = inr k -> k = (cur ++ comps)%list.
Proof.
  intros fs0. induction comps as [|c rest IH]; intros cur k Hc H.
  - cbn in H. injection H as <-. now rewrite app_nil_r.
  - inversion Hc as [|? ? Hd Hrest]; subst. cbn [walk] in H.
    destruct (fs0 cur) as [[|f]|]; try discriminate H.
    unfold not_dotdot in Hd. rewrite Hd in H.
    rewrite (IH _ _ Hrest H). now rewrite <- app_assoc.
Qed.

Lemma fs_set_cases :
  forall (fs0 : FS) k n q, fs_set fs0 k n q = fs0 q \/ q = k.
Proof.
  intros fs0 k n q. unfold fs_set.
  destruct (key_eqb k q) eqn:K; [right; symmetry; now apply key_eqb_eq|now left].
Qed.

Lemma os_mkdir_change :
  forall p fs0 r fs1,
    Forall not_dotdot (parts p) ->
    os_mkdir p fs0 = (r, fs1) ->
    forall q, fs1 q = fs0 q \/ (fs0 q = None /\ q = parts p).
Proof.
  intros p fs0 r fs1 Hp H q. unfold os_mkdir in H.
  destruct (walk fs0 [] (parts p)) as [e|k] eqn:W; [injection H as _ <-; now left|].
  destruct (fs0 k) as [n|] eqn:K; injection H as _ <-; [now left|].
  destruct (fs_set_cases fs0 k Dir q) as [E| ->]; [now left|].
  right. split; [exact K|]. exact (walk_no_dotdot fs0 _ [] k Hp W).
Qed.

Lemma mkdir_exist_ok_change :
  forall p fs0 r fs1,
    Forall not_dotdot (parts p) ->
    mkdir_exist_ok p fs0 = (r, fs1) ->
    forall q, fs1 q = fs0 q \/ (fs0 q = None /\ q = parts p).
Proof.
  intros p fs0 r fs1 Hp H q. unfold mkdir_exist_ok in H.
  destruct (os_mkdir p fs0) as [[e|u] fs2] eqn:M.
  - destruct e; try (destruct (is_dir p fs0)); injection H as _ <-; now left.
  - injection H as _ <-. exact (os_mkdir_change p fs0 _ _ Hp M q).
Qed.

Lemma mkdir_parents_rev_change :
  forall a rparts fs0 r fs1,
    Forall not_dotdot rparts ->
    mkdir_parents_rev a rparts fs0 = (r, fs1) ->
    forall q, fs1 q = fs0 q \/ (fs0 q = None /\ is_prefix q (rev rparts) = true).
Proof.
  intros a. induction rparts as [|c rparent IH]; intros fs0 r fs1 Hp H q.
  - cbn [mkdir_parents_rev] in H. cbv zeta in H.
    destruct (os_mkdir (mkPath a (rev [])) fs0) as [[e|u] fs2] eqn:M.
    + destruct e; try (destruct (is_dir _ fs0)); injection H as _ <-; now left.
    + injection H as _ <-.
      destruct (os_mkdir_change (mkPath a (rev [])) fs0 _ _ (Forall_nil _) M q)
        as [E|[E ->]]; [now left|now right].
  - assert (Hrev : Forall not_dotdot (rev (c :: rparent))) by now apply Forall_rev.
    inversion Hp as [|? ? _ Hparent]; subst.
    cbn [mkdir_parents_rev] in H. cbv zeta in H.
    destruct (os_mkdir (mkPath a (rev (c :: rparent))) fs0) as [[e|u] fs2] eqn:M.
    + destruct e; try (destruct (is_dir _ fs0); injection H as _ <-; now left).
      destruct (mkdir_parents_rev a rparent fs0) as [[u|e] fs3] eqn:P;
        [|injection H as _ <-].
      * destruct (IH _ _ _ Hparent P q) as [E1|[E1 Q1]];
          destruct (mkdir_exist_ok_change (mkPath a (rev (c :: rparent)))
                      fs3 _ _ Hrev H q) as [E2|[E2 Q2]].
        -- left. congruence.
        -- right. split; [congruence|]. cbn [parts] in Q2. subst q.
           apply is_prefix_refl.
        -- right. split; [exact E1|]. cbn [rev].
           eapply is_prefix_trans; [exact Q1|apply is_prefix_app].
        -- right. split; [exact E1|]. cbn [parts] in Q2. subst q.
           apply is_prefix_refl.
      * destruct (IH _ _ _ Hparent P q) as [E1|[E1 Q1]]; [now left|].
        right. split; [exact E1|]. cbn [rev].
        eapply is_prefix_trans; [exact Q1|apply is_prefix_app].
    + injection H as _ <-.
      destruct (os_mkdir_change (mkPath a (rev (c :: rparent))) fs0 _ _ Hrev M q)
        as [E|[E ->]]; [now left|right; split; [exact E|apply is_prefix_refl]].
Qed.

Lemma write_text_change :
  forall p content fs0 r fs1,
    Forall not_dotdot (parts p) ->
    write_text p content fs0 = (r, fs1) ->
    forall q, fs1 q = fs0 q \/ (fs0 q <> Some Dir /\ q = parts p).
Proof.
  intros p content fs0 r fs1 Hp H q. unfold write_text in H.
  destruct (walk fs0 [] (parts p)) as [e|k] eqn:W; [injection H as _ <-; now left|].
  pose proof (walk_no_dotdot fs0 _ [] k Hp W) as Hk. cbn [app] in Hk.
  destruct (fs0 k) as [[|c]|] eqn:K; injection H as _ <-; [now left| |];
    (destruct (fs_set_cases fs0 k (File content) q) as [E| ->]; [now left|]);
    right; (split; [congruence|exact Hk]).
Qed.

Lemma adds_below_refl : forall root fs0, adds_below root fs0 fs0.
Proof. intros root fs0 q. now left. Qed.

Lemma adds_below_trans :
  forall root fs0 fs1 fs2,
    adds_below root fs0 fs1 -> adds_below root fs1 fs2 -> adds_below root fs0 fs2.
Proof.
  intros root fs0 fs1 fs2 H1 H2 q.
  destruct (H1 q) as [E1|[D1 P1]]; [|right; now split].
  destruct (H2 q) as [E2|[D2 P2]]; [left; congruence|].
  right. split; [congruence|exact P2].
Qed.

Lemma adds_below_keeps_dirs :
  forall root fs0 fs1 q,
    adds_below root fs0 fs1 -> fs0 q = Some Dir -> fs1 q = Some Dir.
Proof.
  intros root fs0 fs1 q H Hq. destruct (H q) as [E|[D _]]; congruence.
Qed.

Lemma touch_init_files_below :
  forall root fs0, adds_below (parts root) fs0 (touch_init_files root fs0).
Proof.
  intros root fs0 q. unfold touch_init_files.
  destruct (fs0 q) as [n|] eqn:Q; [now left|].
  destruct (Py.last_item q) as [name|]; [|now left].
  destruct (String.eqb name "__init__.py" && is_prefix (parts root) (removelast q)
            && reachable_dir fs0 (removelast q)) eqn:C; [|now left].
  right. split; [discriminate|].
  apply andb_true_iff in C. destruct C as [C _].
  apply andb_true_iff in C. destruct C as [_ C].
  eapply is_prefix_trans; [exact C|apply is_prefix_removelast].
Qed.

Lemma setup_loop_below :
  forall root common paths,
    Forall not_dotdot (parts root) ->
    Forall (fun p => Forall not_dotdot (parts (parse_path p))) paths ->
    forall contents i sp mn st r st',
      (forall q, is_prefix q (parts root) = true -> fs st q = Some Dir) ->
      setup_loop root common contents paths i sp mn st = (r, st') ->
      adds_below (parts root) (fs st) (fs st').
Proof.
  intros root common paths Hroot Hpaths.
  induction contents as [|content rest IH]; intros i sp mn st r st' Hinv H.
  - cbn in H. unfold ret in H. injection H as _ <-. apply adds_below_refl.
  - cbn [setup_loop] in H. unfold bind at 1 in H. unfold lift, list_item in H.
    destruct (nth_error paths i) as [p|] eqn:Hp;
      [|injection H as _ <-; apply adds_below_refl].
    assert (Hpc : Forall not_dotdot (parts (parse_path p))).
    { rewrite Forall_forall in Hpaths. apply Hpaths. eapply nth_error_In, Hp. }
    destruct (negb (String.eqb (path_suffix (parse_path p)) ".py"));
      [exact (IH _ _ _ _ _ _ Hinv H)|].
    unfold bind at 1 in H.
    destruct (relative_to (parse_path p) common) as [rel|e] eqn:Hrel;
      [|injection H as _ <-; apply adds_below_refl].
    assert (Hrelp : anchor rel = "" /\ exists pre, parts (parse_path p) = (pre ++ parts rel)%list).
    { unfold relative_to in Hrel.
      destruct (String.eqb (anchor (parse_path p)) (anchor common)); [|discriminate Hrel].
      destruct (strip_prefix (parts common) (parts (parse_path p))) as [x|] eqn:S;
        [|discriminate Hrel].
      injection Hrel as <-. split; [reflexivity|].
      exists (parts common). exact (strip_prefix_app _ _ _ S). }
    destruct Hrelp as [Hanchor [pre Hpre]].
    assert (Hrest : Forall not_dotdot (parts rel)).
    { rewrite Hpre in Hpc. apply Forall_app in Hpc. tauto. }
    assert (Htemp : path_join root rel = mkPath (anchor root) (parts root ++ parts rel))
      by (unfold path_join; now rewrite Hanchor).
    rewrite Htemp in H.
    set (target := (parts root ++ parts rel)%list) in *.
    assert (Htarget : Forall not_dotdot target)
      by (apply Forall_app; split; assumption).
    unfold bind at 1 in H. unfold on_fs at 1 in H.
    destruct (mkdir_parents (path_parent (mkPath (anchor root) target)) (fs st))
      as [rm fs1] eqn:Hmk.
    assert (A1 : adds_below (parts root) (fs st) fs1).
    { intros q. unfold mkdir_parents, path_parent in Hmk. cbn [anchor parts] in Hmk.
      destruct (mkdir_parents_rev_change _ _ _ _ _
                  (Forall_rev (removelast_Forall _ _ Htarget)) Hmk q)
        as [E|[E Q]]; [now left|].
      right. split; [congruence|]. rewrite rev_involutive in Q.
      assert (Q' : is_prefix q target = true)
        by (eapply is_prefix_trans; [exact Q|apply is_prefix_removelast]).
      destruct (is_prefix_comparable target q (parts root) Q'
                  (is_prefix_app (parts root) (parts rel))) as [C|C]; [|exact C].
      rewrite (Hinv q C) in E. discriminate E. }
    destruct rm as [u|e]; [|injection H as _ <-; exact A1].
    unfold bind at 1 in H. unfold on_fs at 1 in H. cbn [fs calls] in H.
    destruct (write_text (mkPath (anchor root) target) content fs1)
      as [rw fs2] eqn:Hwr.
    assert (A2 : adds_below (parts root) fs1 fs2).
    { intros q.
      destruct (write_text_change (mkPath (anchor root) target) _ _ _ _
                  Htarget Hwr q) as [E|[E Q]]; [now left|].
      right. split; [exact E|]. cbn [parts] in Q. subst q. apply is_prefix_app. }
    pose proof (adds_below_trans _ _ _ _ A1 A2) as A12.
    destruct rw as [u'|e]; [|injection H as _ <-; exact A12].
    unfold bind at 1 in H.
    destruct (with_suffix_empty rel) as [stem|e];
      [|cbn in H; injection H as _ <-; exact A12].
    cbn [lift] in H.
    eapply adds_below_trans; [exact A12|].
    refine (IH _ _ _ _ _ _ _ H). cbn [fs].
    intros q Hq. eapply adds_below_keeps_dirs; [exact A12|now apply Hinv].
Qed.

(** X20: when no selected path has a ".." component, the materializer
    changes nothing outside the temporary workspace, whether it returns
    or raises: every entry of the file system that does not lie below the
    workspace root is as it was.  The condition is needed: for the
    selection "/a/x.py", "/a/../../y.py" the second unit is written to
    "/y.py", outside the workspace. *)
Theorem materializer_stays_in_workspace :
  (forall w contents paths r st',
      Forall (fun p => Forall not_dotdot (parts (parse_path p))) paths ->
      _setup_project_structure (project_root_of w) contents paths
        (enter_temp_dir w) = (r, st') ->
      forall q,
        is_prefix (parts (project_root_of w)) q = false ->
        fs st' q = fs (enter_temp_dir w) q)
  /\ (let st' := snd (_setup_project_structure (project_root_of quiet_world)
                        ["x = 1"; "y = 2"] ["/a/x.py"; "/a/../../y.py"]
                        (enter_temp_dir quiet_world)) in
      fs (enter_temp_dir quiet_world) ["y.py"] = None
      /\ fs st' ["y.py"] = Some (File "y = 2")).
Proof.
  split; [|split; reflexivity].
  intros w contents paths r st' Hpaths H q Hq.
  assert (A : adds_below (parts (project_root_of w)) (fs (enter_temp_dir w)) (fs st')).
  { unfold _setup_project_structure in H. unfold bind at 1 in H. unfold lift in H.
    destruct (match paths with [] => Ok "." | _ :: _ => commonpath paths end)
      as [common_base|e]; [|injection H as _ <-; apply adds_below_refl].
    unfold bind at 1 in H.
    destruct (setup_loop (project_root_of w) (parse_path common_base) contents
                paths 0 [] [] (enter_temp_dir w)) as [[x|e] st1] eqn:L.
    - pose proof (setup_loop_below (project_root_of w) _ _
                    (normpath_clean (temp_dir w)) Hpaths
                    _ _ _ _ _ _ _ (temp_dir_prefix_is_dir w) L) as A1.
      unfold bind, on_fs, ret in H. injection H as _ <-. cbn [fs].
      eapply adds_below_trans; [exact A1|apply touch_init_files_below].
    - injection H as _ <-.
      exact (setup_loop_below (project_root_of w) _ _
               (normpath_clean (temp_dir w)) Hpaths
               _ _ _ _ _ _ _ (temp_dir_prefix_is_dir w) L). }
  destruct (A q) as [E|[_ P]]; [exact E|congruence].
Qed.

Lemma materializer_stays_in_workspace_witness :
  let w := quiet_world in
  let st' := snd (_setup_project_structure (project_root_of w) ["x = 1"; "y = 2"]
                    ["/proj/a.py"; "/proj/pkg/b.py"] (enter_temp_dir w)) in
  fs st' ["proj"; "pkg"; "b.py"] = None
  /\ fs st' ["tmp"; "tmpq3v8x1"; "pkg"; "b.py"] = Some (File "y = 2").
Proof.
  intros w st'. split; [|reflexivity].
  assert (Hpaths : Forall (fun p => Forall not_dotdot (parts (parse_path p)))
                     ["/proj/a.py"; "/proj/pkg/b.py"])
    by (repeat constructor).
  exact (proj1 materializer_stays_in_workspace w ["x = 1"; "y = 2"]
           ["/proj/a.py"; "/proj/pkg/b.py"] _ _ Hpaths
           (surjective_pairing _) ["proj"; "pkg"; "b.py"] eq_refl).
Defined.
